(** * script-replacer: template scanning, substitution rendering and output
    writing ([src/workers.py]), and the window that drives them
    ([src/ui.py]).

    A shallow embedding of the two worker classes [FillValuesWorker] and
    [BuildOutputWorker].  Python [str] values are [string]s (characters are
    the code points below 256), Python lists are [list]s.  A cell read from a
    workbook is a text or a number, and the replacement [dict] of
    [BuildOutputWorker.run] is a [gmap] from cell values to cell values, as
    the dict comprehension builds it.  The library functions the workers call
    ([str.splitlines], [str.strip], [re.findall], [re.split], [re.search] with
    the blank pattern, the xlsxwriter/xlrd calls behind netcore's [XLBW] and
    [XLR], [os.remove], [logging]) are modelled by their documented behaviour;
    everything else follows the source line by line. *)

From Stdlib Require Import Ascii String List Arith Lia Bool Sorted Qcanon.
From stdpp Require Import base option list numbers countable gmap strings.

Local Open Scope string_scope.
Local Open Scope list_scope.

(** ** Python results: a value or a raised exception *)

Inductive exn :=
  | IndexError
  | AttributeError
  | TypeError
  | FileNotFoundError
  | PermissionError
  | UnicodeDecodeError
  | XLRDError
  | FileCreateError.

Inductive result (A : Type) :=
  | Ok (a : A)
  | Raise (e : exn).
Arguments Ok {A} a.
Arguments Raise {A} e.

#[global] Instance result_ret : MRet result := fun _ a => Ok a.
#[global] Instance result_bind : MBind result := fun _ _ k r =>
  match r with
  | Ok a => k a
  | Raise e => Raise e
  end.

#[global] Instance result_fmap : FMap result := fun _ _ f r =>
  match r with
  | Ok a => Ok (f a)
  | Raise e => Raise e
  end.

Definition of_option {A} (e : exn) (o : option A) : result A :=
  match o with
  | Some a => Ok a
  | None => Raise e
  end.

(** ** Characters and [str] methods *)

Module char.

Definition code (c : ascii) : nat := nat_of_ascii c.

Definition between (lo hi : nat) (c : ascii) : bool :=
  (lo <=? code c)%nat && (code c <=? hi)%nat.

(** [$], the delimiter of a placeholder. *)
Definition is_dollar (c : ascii) : bool := (code c =? 36)%nat.

(** [\w] of a [str] pattern: alphanumeric characters and the underscore. *)
Definition is_word (c : ascii) : bool :=
  between 48 57 c || between 65 90 c || (code c =? 95)%nat || between 97 122 c
  || (code c =? 170)%nat || between 178 179 c || (code c =? 181)%nat
  || between 185 186 c || between 188 190 c || between 192 214 c
  || between 216 246 c || between 248 255 c.

(** [\s] of a [str] pattern, which is also what [str.strip] removes. *)
Definition is_space (c : ascii) : bool :=
  between 9 13 c || between 28 32 c || (code c =? 133)%nat || (code c =? 160)%nat.

(** The line boundaries of [str.splitlines]. *)
Definition is_linebreak (c : ascii) : bool :=
  between 10 13 c || between 28 30 c || (code c =? 133)%nat.

Definition is_cr (c : ascii) : bool := (code c =? 13)%nat.
Definition is_lf (c : ascii) : bool := (code c =? 10)%nat.

End char.

Module str.

(** Prepend a character to the first string of a non-empty list. *)
Definition cons_head (c : ascii) (l : list string) : list string :=
  match l with
  | [] => [String c ""]
  | x :: xs => String c x :: xs
  end.

(** [s.splitlines()]: no line for the empty string, no empty last line
    after a final line boundary, CR LF counted as one boundary. *)
Fixpoint splitlines (s : string) : list string :=
  match s with
  | "" => []
  | String c s' =>
      if char.is_linebreak c then
        match s' with
        | String c' s'' =>
            if char.is_cr c && char.is_lf c' then "" :: splitlines s''
            else "" :: splitlines s'
        | "" => [""]
        end
      else cons_head c (splitlines s')
  end.

(** The text after the line boundary [c]: a LF that follows a CR belongs to
    the boundary. *)
Definition after_break (c : ascii) (s' : string) : string :=
  match s' with
  | String c' s'' => if char.is_cr c && char.is_lf c' then s'' else s'
  | "" => ""
  end.

Fixpoint lstrip (s : string) : string :=
  match s with
  | String c s' => if char.is_space c then lstrip s' else s
  | "" => ""
  end.

Fixpoint rstrip (s : string) : string :=
  match s with
  | String c s' =>
      match rstrip s' with
      | "" => if char.is_space c then "" else String c ""
      | r => String c r
      end
  | "" => ""
  end.

(** [s.strip()] removes whitespace at both ends. *)
Definition strip (s : string) : string := rstrip (lstrip s).

Fixpoint all (p : ascii -> bool) (s : string) : bool :=
  match s with
  | "" => true
  | String c s' => p c && all p s'
  end.

(** Concatenation of a list of strings, [''.join(l)]. *)
Fixpoint join (l : list string) : string :=
  match l with
  | [] => ""
  | x :: xs => x +:+ join xs
  end.

End str.

(** ** The [re] functions the workers use *)

Module re.

(** The longest run of word characters at the head of [s], and the rest. *)
Fixpoint span_word (s : string) : string * string :=
  match s with
  | String c s' =>
      if char.is_word c then
        let '(w, r) := span_word s' in (String c w, r)
      else ("", s)
  | "" => ("", "")
  end.

(** A match of [\$\w+\$] anchored at the head of [s]: the matched token and
    the text after it.  [\w+] is greedy and [$] is no word character, so the
    run of word characters is maximal and must be followed by [$]. *)
Definition match_var (s : string) : option (string * string) :=
  match s with
  | String d s' =>
      if char.is_dollar d then
        match span_word s' with
        | (String c w, String d' r) =>
            if char.is_dollar d'
            then Some (String d (String c w +:+ String d' ""), r)
            else None
        | _ => None
        end
      else None
  | "" => None
  end.

(** Leftmost non-overlapping matches: try at the head; after a match go on
    behind it, otherwise one character further. *)
Fixpoint findall_fuel (n : nat) (s : string) : list string :=
  match n with
  | 0 => []
  | S n' =>
      match match_var s with
      | Some (tok, rest) => tok :: findall_fuel n' rest
      | None =>
          match s with
          | String _ s' => findall_fuel n' s'
          | "" => []
          end
      end
  end.

(** [re.findall(r'\$\w+\$', s)] *)
Definition findall (s : string) : list string :=
  findall_fuel (S (String.length s)) s.

Fixpoint split_fuel (n : nat) (s : string) : list string :=
  match n with
  | 0 => [""]
  | S n' =>
      match match_var s with
      | Some (_, rest) => "" :: split_fuel n' rest
      | None =>
          match s with
          | String c s' => str.cons_head c (split_fuel n' s')
          | "" => [""]
          end
      end
  end.

(** [re.split(r'\$\w+\$', s)]: the text between the matches. *)
Definition split (s : string) : list string :=
  split_fuel (S (String.length s)) s.

(** [re.search(r'^\s*$', s)] as a truth value: the pattern has no MULTILINE
    flag, [^] is the start of [s], and [$] is the end of [s] or the place
    before a final newline, itself whitespace: [s] is whitespace only. *)
Definition search_blank (s : string) : bool := str.all char.is_space s.

End re.

(** ** Python list access and loops *)

(** [l[i]] for a non-negative [i]. *)
Definition getitem {A} (l : list A) (i : nat) : result A :=
  of_option IndexError (l !! i).

(** [l[-1]] *)
Definition getitem_last {A} (l : list A) : result A :=
  of_option IndexError (last l).

(** [for x in xs: body], the loop's variables threaded as [s]; an exception
    raised by the body leaves the loop. *)
Fixpoint for_ {S X} (xs : list X) (body : S -> X -> result S) (s : S)
  : result S :=
  match xs with
  | [] => Ok s
  | x :: xs' => s' ← body s x; for_ xs' body s'
  end.

(** [enumerate(l)] *)
Definition enumerate {A} (l : list A) : list (nat * A) :=
  zip (seq 0 (length l)) l.

(** ** Spreadsheets: the calls made through netcore's [XLBW] and [XLR] *)

(** The three cell formats of an [XLBW] workbook. *)
Inductive format := ftbody | fthighlight | fterror.

#[global] Instance format_eq_dec : EqDecision format.
Proof. solve_decision. Defined.

(** An element of a rich line: the renderer builds flat lists
    [fmt, text, fmt, text, ...]. *)
Inductive item :=
  | IFormat (f : format)
  | IStr (s : string).

#[global] Instance item_eq_dec : EqDecision item.
Proof. solve_decision. Defined.

Module xlsx.

(** What a reader finds in a cell that is not empty: a text, or a number
    (numbers, dates and booleans all come back as Python numbers). *)
Inductive value :=
  | Text (s : string)
  | Number (x : Qc).

#[global] Instance value_eq_dec : EqDecision value.
Proof. solve_decision. Defined.

#[global] Instance value_countable : Countable value :=
  inj_countable'
    (fun v => match v with Text s => inl s | Number x => inr x end)
    (fun e => match e with inl s => Text s | inr x => Number x end)
    (fun v => match v with Text _ | Number _ => eq_refl end).

#[global] Instance Text_inj : Inj (=) (=) Text.
Proof. by intros s1 s2 [= ->]. Qed.

(** A call received by a worksheet.  Of the generic [write] only the use the
    workers make of it is modelled, with a [str] and a format; a number in a
    cell, such as one typed into the form, stands as [write_number]. *)
Inductive call :=
  | set_column (first_col last_col width : nat)
  | write (row col : nat) (data : string) (f : format)
  | write_string (row col : nat) (data : string) (f : format)
  | write_rich_string (row col : nat) (args : list item)
  | write_number (row col : nat) (number : Qc).

(** A worksheet is the calls it received, oldest first. *)
Abbreviation worksheet := (list call).

Record sheet := { name : string; calls : worksheet }.

Abbreviation book := (list sheet).

Definition position (c : call) : option (nat * nat) :=
  match c with
  | set_column _ _ _ => None
  | write row col _ _ | write_string row col _ _
  | write_rich_string row col _ | write_number row col _ => Some (row, col)
  end.


(** The cells of a worksheet: a later call to a cell replaces an earlier
    one. *)
Definition table (ws : worksheet) : gmap (nat * nat) call :=
  foldl (fun t c =>
           match position c with
           | Some p => <[p := c]> t
           | None => t
           end) ∅ ws.

Definition strings (args : list item) : list string :=
  flat_map (fun x => match x with IStr s => [s] | IFormat _ => [] end) args.

(** The value a reader finds in the cell a call wrote.  [write] with the
    empty string leaves a blank cell that carries a format and no value: the
    reader passes over it. *)
Definition content (c : call) : option value :=
  match c with
  | set_column _ _ _ => None
  | write _ _ data _ =>
      if bool_decide (data = "") then None else Some (Text data)
  | write_string _ _ data _ => Some (Text data)
  | write_rich_string _ _ args => Some (Text (str.join (strings args)))
  | write_number _ _ number => Some (Number number)
  end.

(** The cells [XLR] loads: those that hold a value. *)
Definition cells (ws : worksheet) : gmap (nat * nat) value :=
  omap content (table ws).

(** The extent of a sheet as [XLR] reports it: one more than the largest row
    and the largest column of a cell that holds a value. *)
Definition nrows (ws : worksheet) : nat :=
  map_fold (fun p _ n => Nat.max (S p.1) n) 0 (cells ws).

Definition ncols (ws : worksheet) : nat :=
  map_fold (fun p _ n => Nat.max (S p.2) n) 0 (cells ws).

(** [sheet.cell_value(row, col)]: a cell without a value inside the extent
    reads as the empty string, a cell outside it is an [IndexError]. *)
Definition cell_value (ws : worksheet) (row col : nat) : result value :=
  if bool_decide (row < nrows ws ∧ col < ncols ws)
  then Ok (default (Text "") (cells ws !! (row, col)))
  else Raise IndexError.

Definition sheet_by_index (b : book) (i : nat) : result worksheet :=
  calls <$> getitem b i.

End xlsx.

(** ** The world outside the workers: files, the temporary-file name the
    system hands out next, and the log *)

Inductive file :=
  | TextFile (content : string)
  | XlsxFile (b : xlsx.book).

Inductive log_entry :=
  | info (msg : string)
  | error (e : exn)
  | savings (n : nat).

Record world := {
  fs : gmap string file;
  (** paths the system refuses to delete or overwrite *)
  locked : gset string;
  (** the name [NamedTemporaryFile] returns next *)
  tmpname : string;
  (** whether [logging] carries netcore's [savings] hook *)
  has_savings : bool;
  log : list log_entry
}.

Definition with_fs (f : gmap string file -> gmap string file) (w : world)
  : world :=
  {| fs := f (fs w); locked := locked w; tmpname := tmpname w;
     has_savings := has_savings w; log := log w |}.

Definition with_log (l : log_entry) (w : world) : world :=
  {| fs := fs w; locked := locked w; tmpname := tmpname w;
     has_savings := has_savings w; log := log w ++ [l] |}.

(** A method that may touch the world: it returns or raises, and leaves the
    world as it was at that moment. *)
Definition io (A : Type) : Type := world -> result A * world.

#[global] Instance io_ret : MRet io := fun _ a w => (Ok a, w).
#[global] Instance io_bind : MBind io := fun _ _ k m w =>
  match m w with
  | (Ok a, w') => k a w'
  | (Raise e, w') => (Raise e, w')
  end.

Definition lift {A} (r : result A) : io A := fun w => (r, w).

(** [try: m  except Exception: handler] *)
Definition try_except {A} (m : io A) (handler : exn -> io A) : io A :=
  fun w =>
    match m w with
    | (Ok a, w') => (Ok a, w')
    | (Raise e, w') => handler e w'
    end.

Fixpoint io_for {S X} (xs : list X) (body : S -> X -> io S) (s : S) : io S :=
  match xs with
  | [] => mret s
  | x :: xs' => s' ← body s x; io_for xs' body s'
  end.

Module logging.

Definition info (msg : string) : io unit :=
  fun w => (Ok tt, with_log (info msg) w).

(** [logging.error(traceback.format_exc())] inside a handler for [e] *)
Definition error (e : exn) : io unit :=
  fun w => (Ok tt, with_log (error e) w).

(** [if hasattr(logging, 'savings'): logging.savings(n)] *)
Definition savings_if_present (n : nat) : io unit :=
  fun w => (Ok tt, if has_savings w then with_log (savings n) w else w).

End logging.

Module os.

(** [os.remove(path)] *)
Definition remove (path : string) : io unit :=
  fun w =>
    match fs w !! path with
    | None => (Raise FileNotFoundError, w)
    | Some _ =>
        if bool_decide (path ∈ locked w) then (Raise PermissionError, w)
        else (Ok tt, with_fs (delete path) w)
    end.

End os.

(** [open(filepath).read()] *)
Definition open_read (filepath : string) : io string :=
  fun w =>
    match fs w !! filepath with
    | None => (Raise FileNotFoundError, w)
    | Some (TextFile content) => (Ok content, w)
    | Some (XlsxFile _) => (Raise UnicodeDecodeError, w)
    end.

(** [NamedTemporaryFile(suffix='.xlsx', mode='w+', delete=False)] followed by
    [tmp.close()]: an empty file that stays, and its name. *)
Definition NamedTemporaryFile : io string :=
  fun w => (Ok (tmpname w), with_fs (<[tmpname w := TextFile ""]>) w).

(** [XLR(path).book] *)
Definition XLR (path : string) : io xlsx.book :=
  fun w =>
    match fs w !! path with
    | None => (Raise FileNotFoundError, w)
    | Some (TextFile _) => (Raise XLRDError, w)
    | Some (XlsxFile b) => (Ok b, w)
    end.

(** [workbook.close()] of an [XLBW(path)] workbook: the file is written at
    this moment. *)
Definition workbook_close (path : string) (b : xlsx.book) : io unit :=
  fun w =>
    if bool_decide (path ∈ locked w) then (Raise FileCreateError, w)
    else (Ok tt, with_fs (<[path := XlsxFile b]>) w).

(** ** [class FillValuesWorker] *)

Module FillValuesWorker.

(** What [fill_complete] carries. *)
Record fill_result := {
  config_template : string;
  var_list : list string;
  variable_file_path : string
}.

(** The loop of [get_template_vars] over the matches. *)
Definition unique_vars (found : list string) : list string :=
  foldl (fun var_list var =>
           if bool_decide (var ∈ var_list) then var_list
           else var_list ++ [var])
        [] found.

Definition get_template_vars (filepath : string)
  : io (string * list string) :=
  content ← open_read filepath;
  let var_list := unique_vars (re.findall content) in
  mret (content, var_list).

(** The blank grid of 500 rows and 50 columns, row by row. *)
Definition blank_grid (worksheet : xlsx.worksheet) : xlsx.worksheet :=
  foldl (fun ws row_idx =>
           foldl (fun ws col_idx => ws ++ [xlsx.write row_idx col_idx "" ftbody])
                 ws (seq 0 50))
        worksheet (seq 0 500).

Definition write_vars (worksheet : xlsx.worksheet) (var_list : list string)
  : xlsx.worksheet :=
  foldl (fun ws '(idx, var) => ws ++ [xlsx.write idx 0 var ftbody])
        worksheet (enumerate var_list).

Definition create_excel_form (var_list : list string) : io string :=
  filepath ← NamedTemporaryFile;
  let worksheet := [] in
  let worksheet := blank_grid worksheet in
  let worksheet := write_vars worksheet var_list in
  workbook_close filepath
    [{| xlsx.name := "Variables"; xlsx.calls := worksheet |}];;
  mret filepath.

Definition click_replace : string :=
  "Once values are filled click " +:+ String (ascii_of_nat 34) "Replace"
  +:+ String (ascii_of_nat 34) "".

(** [run] returns what it emits on [fill_complete], if it gets that far. *)
Definition run (template_file : string) : io (option fill_result) :=
  if bool_decide (template_file = "") then
    logging.info "Template file cannot be empty";;
    mret None
  else
    logging.info "Building variable form";;
    '(config_template, var_list) ← get_template_vars template_file;
    variable_file_path ← create_excel_form var_list;
    logging.info "Opening variable form";;
    logging.info "Fill up the values against variables and save";;
    logging.info click_replace;;
    mret (Some {| config_template := config_template;
                  var_list := var_list;
                  variable_file_path := variable_file_path |}).

End FillValuesWorker.

(** ** [class BuildOutputWorker] *)

Module BuildOutputWorker.

(** A replacement dict: keys and values are what [cell_value] returned. *)
Abbreviation dict := (gmap xlsx.value xlsx.value).

(** [re.search(pattern, value)] takes a [str] and raises [TypeError] for
    anything else. *)
Definition as_str (value : xlsx.value) : result string :=
  match value with
  | xlsx.Text s => Ok s
  | xlsx.Number _ => Raise TypeError
  end.

(** [repl.get(key, '')] for a [str] key. *)
Definition get (repl : dict) (key : string) : xlsx.value :=
  default (xlsx.Text "") (repl !! xlsx.Text key).

(** The body of the loop over the matches of one line. *)
Definition sub_token (repl : dict) (ftb fthl fte : format)
    (non_reg reg : list string) (format_line : list item) (i : nat)
  : result (list item) :=
  frag ← getitem non_reg i;
  let format_line :=
    if negb (re.search_blank frag)
    then format_line ++ [IFormat ftb; IStr frag]
    else format_line in
  tok ← getitem reg i;
  let value := get repl tok in
  value ← as_str value;
  if negb (re.search_blank value)
  then mret (format_line ++ [IFormat fthl; IStr value])
  else mret (format_line ++ [IFormat fte; IStr tok]).

(** The body of the loop over the lines. *)
Definition sub_line (repl : dict) (ftb fthl fte : format)
    (line : string) : result (list item) :=
  let non_reg := re.split line in
  let reg := re.findall line in
  let format_line := [] in
  format_line ← for_ (seq 0 (length reg))
                     (sub_token repl ftb fthl fte non_reg reg) format_line;
  trailing ← getitem_last non_reg;
  if negb (re.search_blank trailing)
  then mret (format_line ++ [IFormat ftb; IStr trailing])
  else mret format_line.

Definition sub_get_string (cfg : string) (repl : dict)
    (ftb fthl fte : format) : result (list (list item)) :=
  let cfg_format := [] in
  for_ (str.splitlines cfg)
       (fun cfg_format line =>
          format_line ← sub_line repl ftb fthl fte line;
          mret (cfg_format ++ [format_line]))
       cfg_format.

(** [cfg_line[-1].strip()]: only a [str] has [strip]. *)
Definition last_stripped (cfg_line : list item) : result string :=
  x ← getitem_last cfg_line;
  match x with
  | IStr s => Ok (str.strip s)
  | IFormat _ => Raise AttributeError
  end.

(** [cfg_line[-1]] handed to [write_string], which takes a [str]. *)
Definition last_string (cfg_line : list item) : result string :=
  x ← getitem_last cfg_line;
  match x with
  | IStr s => Ok s
  | IFormat _ => Raise TypeError
  end.

(** The [if]/[elif] chain of [write_rich_table] for one line. *)
Definition write_line (ws : xlsx.worksheet) (cfg_line : list item)
    (ftb fthl fte : format) (row_index col_index : nat)
  : result xlsx.worksheet :=
  if bool_decide (IFormat ftb ∈ cfg_line)
     && (bool_decide (IFormat fthl ∈ cfg_line)
         || bool_decide (IFormat fte ∈ cfg_line))
  then mret (ws ++ [xlsx.write_rich_string row_index col_index cfg_line])
  else if bool_decide (IFormat fthl ∈ cfg_line) then
    s ← last_stripped cfg_line;
    mret (ws ++ [xlsx.write_string row_index col_index s fthl])
  else if bool_decide (IFormat fte ∈ cfg_line) then
    s ← last_stripped cfg_line;
    mret (ws ++ [xlsx.write_string row_index col_index s fte])
  else if bool_decide (IFormat ftb ∈ cfg_line) then
    s ← last_string cfg_line;
    mret (ws ++ [xlsx.write_string row_index col_index s ftb])
  else mret ws.

Definition write_rich_table (ws : xlsx.worksheet)
    (cfg_lines : list (list item)) (ftb fthl fte : format)
    (row_index col_index col_width : nat) : result xlsx.worksheet :=
  let ws := ws ++ [xlsx.set_column col_index col_index col_width] in
  fst <$> for_ cfg_lines
            (fun '(ws, row_index) cfg_line =>
               ws ← write_line ws cfg_line ftb fthl fte row_index col_index;
               mret (ws, row_index + 1))
            (ws, row_index).

(** The dict comprehension of [run] for one instance column. *)
Definition repl_dict (worksheet_form : xlsx.worksheet) (col_idx : nat)
  : result dict :=
  for_ (seq 0 (xlsx.nrows worksheet_form))
       (fun d row =>
          k ← xlsx.cell_value worksheet_form row 0;
          v ← xlsx.cell_value worksheet_form row col_idx;
          mret (<[k := v]> d))
       ∅.

(** The body of the loop of [run] over the instance columns. *)
Definition build_column (template : string) (worksheet_form : xlsx.worksheet)
    (worksheet : xlsx.worksheet) (col_idx : nat) : io xlsx.worksheet :=
  let '(ftb, fthl, fte) := (ftbody, fthighlight, fterror) in
  let cfg := [] in
  repl_dict ← lift (repl_dict worksheet_form col_idx);
  lines ← lift (sub_get_string template repl_dict ftb fthl fte);
  let cfg := cfg ++ lines in
  worksheet ← lift (write_rich_table worksheet cfg ftb fthl fte
                      0 (col_idx - 1) 95);
  logging.savings_if_present 10;;
  mret worksheet.

(** [run] up to and including [workbook.close()]. *)
Definition build_output (template variable_file_path output_report : string)
  : io unit :=
  logging.info "Building output";;
  workbook_form ← XLR variable_file_path;
  worksheet_form ← lift (xlsx.sheet_by_index workbook_form 0);
  let worksheet := [] in
  worksheet ← io_for (seq 1 (xlsx.ncols worksheet_form - 1))
                     (build_column template worksheet_form) worksheet;
  workbook_close output_report
    [{| xlsx.name := "Output"; xlsx.calls := worksheet |}].

(** The [try]/[except] of [run] around [os.remove]. *)
Definition remove_form (variable_file_path : string) : io unit :=
  try_except
    (os.remove variable_file_path;;
     logging.info "Variable form removed successfully")
    (fun e => logging.error e).

Definition run (template variable_file_path output_report : string)
  : io unit :=
  if bool_decide (variable_file_path = "") then
    logging.info "Variable form cannot be empty"
  else
    build_output template variable_file_path output_report;;
    remove_form variable_file_path;;
    logging.info "Variables Replaced!".

End BuildOutputWorker.

(** ** The vocabulary of the specification *)

(** A rendered segment: the renderer's pair of a format and a text, read as a
    kind and a text. *)
Inductive kind := LITERAL | FILLED | UNRESOLVED.

#[global] Instance kind_eq_dec : EqDecision kind.
Proof. solve_decision. Defined.

Record segment := { kind_of : kind; text_of : string }.

#[global] Instance segment_eq_dec : EqDecision segment.
Proof. solve_decision. Defined.

(** LITERAL is written in the body style, FILLED in the highlight style,
    UNRESOLVED in the error style. *)
Definition style (k : kind) : format :=
  match k with
  | LITERAL => ftbody
  | FILLED => fthighlight
  | UNRESOLVED => fterror
  end.

(** The flat list the renderer builds for a sequence of segments. *)
Definition flatten (segs : list segment) : list item :=
  flat_map (fun sg => [IFormat (style (kind_of sg)); IStr (text_of sg)]) segs.

(** Blank: empty or whitespace only. *)
Definition blank (s : string) : bool := str.all char.is_space s.

(** A placeholder token: [$], one or more word characters, [$]. *)
Definition placeholder (tok : string) : Prop :=
  exists c w,
    tok = String "$" (String c w +:+ "$")
    /\ str.all char.is_word (String c w) = true.

(** A literal fragment is emitted only if it is not blank. *)
Definition literal (frag : string) : list segment :=
  if blank frag then [] else [{| kind_of := LITERAL; text_of := frag |}].

(** A token is FILLED with its value if the mapping has a non-blank one, and
    UNRESOLVED with its own text otherwise. *)
Definition resolve (m : gmap string string) (tok : string) : segment :=
  match m !! tok with
  | Some v =>
      if blank v then {| kind_of := UNRESOLVED; text_of := tok |}
      else {| kind_of := FILLED; text_of := v |}
  | None => {| kind_of := UNRESOLVED; text_of := tok |}
  end.

(** A line decomposed as [literal_0, token_0, ..., literal_k]: the pairs
    [(literal_i, token_i)] and the trailing [literal_k]. *)
Fixpoint weave (pairs : list (string * string)) (trailing : string) : string :=
  match pairs with
  | [] => trailing
  | (l, t) :: rest => l +:+ t +:+ weave rest trailing
  end.

(** The segments of a decomposed line, in the order the specification gives:
    the literal before each token, the token's segment, the trailing literal
    last. *)
Fixpoint emit (m : gmap string string) (pairs : list (string * string))
    (trailing : string) : list segment :=
  match pairs with
  | [] => literal trailing
  | (l, t) :: rest => literal l ++ resolve m t :: emit m rest trailing
  end.

(** The decomposition of a line by the placeholder pattern. *)
Definition fragments (line : string) : list string :=
  removelast (re.split line).

Definition trailing (line : string) : string :=
  List.last (re.split line) "".

Definition decompose (line : string) : list (string * string) :=
  zip (fragments line) (re.findall line).

(** The segments of a template line under a mapping. *)
Definition render_line (m : gmap string string) (line : string)
  : list segment :=
  emit m (decompose line) (trailing line).

(** A Replacement Mapping of the specification, from token strings to value
    strings, as the Python dict that holds it. *)
Definition text_dict (m : gmap string string) : BuildOutputWorker.dict :=
  kmap xlsx.Text (xlsx.Text <$> m).

(** [render] of the specification, with the workbook's three formats. *)
Definition render (T : string) (m : gmap string string)
  : result (list (list item)) :=
  BuildOutputWorker.sub_get_string T (text_dict m) ftbody fthighlight fterror.

(** The Token Set of a template. *)
Definition tokens (T : string) : list string :=
  FillValuesWorker.unique_vars (re.findall T).

(** The value a mapping gives a token, [repl.get(tok, '')]. *)
Definition value (m : gmap string string) (tok : string) : string :=
  default "" (m !! tok).

(** The line with each token occurrence replaced by its mapped value. *)
Definition substituted (m : gmap string string) (line : string) : string :=
  weave (map (fun p => (p.1, value m p.2)) (decompose line)) (trailing line).

(** A literal fragment as it survives rendering: a blank one leaves
    nothing. *)
Definition unblank (frag : string) : string :=
  if blank frag then "" else frag.

(** The line with each token occurrence replaced by its mapped value and
    each blank literal fragment removed. *)
Definition squeezed (m : gmap string string) (line : string) : string :=
  weave (map (fun p => (unblank p.1, value m p.2)) (decompose line))
        (unblank (trailing line)).

(** The segments of a flat rich line, and the concatenation of their
    texts. *)
Fixpoint segments (l : list item) : list segment :=
  match l with
  | IFormat f :: IStr s :: l' =>
      {| kind_of := match f with
                    | ftbody => LITERAL
                    | fthighlight => FILLED
                    | fterror => UNRESOLVED
                    end;
         text_of := s |} :: segments l'
  | _ => []
  end.

Definition texts (l : list item) : string :=
  str.join (map text_of (segments l)).

(** Every token of the Token Set of [T] has a non-blank value in [m]. *)
Definition all_filled (T : string) (m : gmap string string) : Prop :=
  forall t, t ∈ tokens T -> exists v, m !! t = Some v /\ blank v = false.

(** The round trip as the specification states it: with every token filled,
    no line has an UNRESOLVED segment and the texts of each line's segments
    concatenate to the line with its tokens replaced. *)
Definition round_trip (T : string) (m : gmap string string) : Prop :=
  all_filled T m ->
  exists lines,
    render T m = Ok lines
    /\ Forall2 (fun line cfg_line =>
                  (IFormat fterror ∉ cfg_line)
                  /\ texts cfg_line = substituted m line)
               (str.splitlines T) lines.

Definition has_kind (k : kind) (segs : list segment) : bool :=
  existsb (fun sg => bool_decide (kind_of sg = k)) segs.

Definition only_kind (k : kind) (segs : list segment) : bool :=
  match segs with
  | [] => false
  | _ => forallb (fun sg => bool_decide (kind_of sg = k)) segs
  end.

Definition last_text (segs : list segment) : string :=
  from_option text_of "" (last segs).

(** The four cases of the output writer in the specification's words and
    order: mixed lines rich, then only UNRESOLVED, then only FILLED (both
    right-trimmed), then only LITERAL; nothing otherwise. *)
Definition spec_write_line (segs : list segment) (row col : nat)
  : list xlsx.call :=
  if has_kind LITERAL segs && (has_kind FILLED segs || has_kind UNRESOLVED segs)
  then [xlsx.write_rich_string row col (flatten segs)]
  else if only_kind UNRESOLVED segs
  then [xlsx.write_string row col (str.rstrip (last_text segs)) fterror]
  else if only_kind FILLED segs
  then [xlsx.write_string row col (str.rstrip (last_text segs)) fthighlight]
  else if only_kind LITERAL segs
  then [xlsx.write_string row col (last_text segs) ftbody]
  else [].

(** What the output writer does for one line, in the order of its tests. *)
Definition line_calls (segs : list segment) (row col : nat)
  : list xlsx.call :=
  if has_kind LITERAL segs && (has_kind FILLED segs || has_kind UNRESOLVED segs)
  then [xlsx.write_rich_string row col (flatten segs)]
  else if has_kind FILLED segs
  then [xlsx.write_string row col (str.strip (last_text segs)) fthighlight]
  else if has_kind UNRESOLVED segs
  then [xlsx.write_string row col (str.strip (last_text segs)) fterror]
  else if has_kind LITERAL segs
  then [xlsx.write_string row col (last_text segs) ftbody]
  else [].

(** The calls one output column receives: its width, then the lines from row
    [row] on, one row per line. *)
Fixpoint rows_calls (lines : list (list segment)) (row col : nat)
  : list xlsx.call :=
  match lines with
  | [] => []
  | segs :: lines' => line_calls segs row col ++ rows_calls lines' (S row) col
  end.

Definition column_calls (lines : list (list segment)) (col : nat)
  : list xlsx.call :=
  xlsx.set_column col col 95 :: rows_calls lines 0 col.

(** A form whose cells all hold text: no cell reads as a number. *)
Definition is_text (v : xlsx.value) : Prop :=
  match v with
  | xlsx.Text _ => True
  | xlsx.Number _ => False
  end.

#[global] Instance is_text_dec (v : xlsx.value) : Decision (is_text v).
Proof. destruct v; simpl; apply _. Defined.

Definition text_form (form : xlsx.worksheet) : Prop :=
  map_Forall (fun _ v => is_text v) (xlsx.cells form).

#[global] Instance text_form_dec (form : xlsx.worksheet)
  : Decision (text_form form).
Proof. unfold text_form. apply _. Defined.

(** The text of the cell at [p]; empty for a cell without a value. *)
Definition cell_text (form : xlsx.worksheet) (p : nat * nat) : string :=
  match xlsx.cells form !! p with
  | Some (xlsx.Text s) => s
  | _ => ""
  end.

(** The replacement mapping of instance column [col_idx] of a form whose
    cells hold text: the label of each row of the extent mapped to the row's
    value, a later row replacing an earlier one with the same label. *)
Definition mapping (form : xlsx.worksheet) (col_idx : nat)
  : gmap string string :=
  foldl (fun d row =>
           <[cell_text form (row, 0) := cell_text form (row, col_idx)]> d)
        ∅ (seq 0 (xlsx.nrows form)).

(** Instance column [col_idx] of the form holds a number for a token of the
    template: the dict of the column gives the token a number. *)
Definition number_for (template : string) (form : xlsx.worksheet)
    (col_idx : nat) : Prop :=
  exists d t x,
    BuildOutputWorker.repl_dict form col_idx = Ok d
    /\ t ∈ tokens template
    /\ BuildOutputWorker.get d t = xlsx.Number x.

(** ** [class Form] of [src/ui.py]: the handlers that drive the workers *)

Module Form.

(** A value stored in [self.data]. *)
Inductive value :=
  | VStr (s : string)
  | VList (l : list string).

(** A record the handlers hand to [logging]. *)
Inductive log_record :=
  | log_info (msg : string)
  | log_error (msg : string).

(** The part of the window the handlers read and write. *)
Record state := {
  data : gmap string value;
  output_report : string
}.

(** What a handler asks of its surroundings: a worker thread to start, a
    path to hand to the desktop, a directory to create, a message box, a log
    record. *)
Inductive action :=
  | StartFill (template_file : value)
  | StartBuild (template variable_file_path : value) (output_report : string)
  | OpenUrl (path : string)
  | MakeDirs (path : string)
  | MessageBox (text : string)
  | Log (l : log_record).

(** [__init__]: [self.output_report = ''] and [self.data = {}]. *)
Definition init : state := {| data := ∅; output_report := "" |}.

Definition quoted (s : string) : string :=
  String (ascii_of_nat 34) s +:+ String (ascii_of_nat 34) "".

(** [select_template_event], [file_path] being what the file dialog
    returned (empty when the dialog was cancelled). *)
Definition select_template_event (file_path : string) (st : state)
  : state * list action :=
  if bool_decide (file_path = "") then (st, [])
  else
    ({| data := <["template_file" := VStr file_path]> (data st);
        output_report := output_report st |},
     [Log (log_info (quoted file_path +:+ " selected!"));
      Log (log_info ("Now click " +:+ quoted "Fill Variables"
                 +:+ " and fill up the values"))]).

Definition fill_values_event (st : state) : state * list action :=
  match data st !! "template_file" with
  | None => (st, [Log (log_info "No template selected")])
  | Some template_file => (st, [StartFill template_file])
  end.

(** [open_path] in a world [w]: [os.path.exists] is asked of [w]. *)
Definition open_path (w : world) (path : string) : list action :=
  if negb (bool_decide (path = "")) && bool_decide (is_Some (fs w !! path))
  then [Log (log_info ("Opening path: " +:+ path)); OpenUrl path]
  else [Log (log_error ("Invalid or non-existent path: " +:+ path))].

(** [fill_values_complete], the slot of [fill_complete]. *)
Definition fill_values_complete (w : world)
    (result : FillValuesWorker.fill_result) (st : state)
  : state * list action :=
  let data :=
    <["config_template" := VStr (FillValuesWorker.config_template result)]>
      (data st) in
  let data :=
    <["var_list" := VList (FillValuesWorker.var_list result)]> data in
  let data :=
    <["variable_file_path" :=
        VStr (FillValuesWorker.variable_file_path result)]> data in
  ({| data := data; output_report := output_report st |},
   open_path w (FillValuesWorker.variable_file_path result)).

(** [build_output_event]; [output_dir] is [self.output_dir] and [report] the
    path [os.path.join] gives for the file name made from the clock. *)
Definition build_output_event (output_dir report : string) (st : state)
  : state * list action :=
  match data st !! "variable_file_path", data st !! "config_template" with
  | Some variable_file_path, Some config_template =>
      ({| data := data st; output_report := report |},
       [MakeDirs output_dir;
        StartBuild config_template variable_file_path report])
  | _, _ => (st, [Log (log_info "Missing template or variable file")])
  end.

Definition build_finished (st : state) : state * list action :=
  (st, [MessageBox "Task completed!!"]).

(** What reaches the window: the clicks on its four buttons with what the
    surroundings supply at that moment, and the signals of the two
    workers. *)
Inductive event :=
  | template_clicked (file_path : string)
  | form_clicked
  | fill_complete (w : world) (result : FillValuesWorker.fill_result)
  | replace_clicked (output_dir report : string)
  | finished
  | output_clicked (w : world).

Definition handle (ev : event) (st : state) : state * list action :=
  match ev with
  | template_clicked file_path => select_template_event file_path st
  | form_clicked => fill_values_event st
  | fill_complete w result => fill_values_complete w result st
  | replace_clicked output_dir report =>
      build_output_event output_dir report st
  | finished => build_finished st
  | output_clicked w => (st, open_path w (output_report st))
  end.

(** The window after a sequence of events, and everything it asked for. *)
Fixpoint handle_all (evs : list event) (st : state) : state * list action :=
  match evs with
  | [] => (st, [])
  | ev :: evs' =>
      let '(st1, acts1) := handle ev st in
      let '(st2, acts2) := handle_all evs' st1 in
      (st2, acts1 ++ acts2)
  end.

(** The result of the last [fill_complete] among [evs], if any. *)
Definition last_fill (evs : list event)
  : option FillValuesWorker.fill_result :=
  last (flat_map (fun ev => match ev with
                            | fill_complete _ result => [result]
                            | _ => []
                            end) evs).

(** The last template the file dialog returned, cancelled dialogs apart. *)
Definition last_template (evs : list event) : option string :=
  last (flat_map (fun ev => match ev with
                            | template_clicked file_path =>
                                if bool_decide (file_path = "") then []
                                else [file_path]
                            | _ => []
                            end) evs).

End Form.

(** ** Strings *)

Lemma append_cons (c : ascii) (s t : string) :
  String c s +:+ t = String c (s +:+ t).
Proof. reflexivity. Qed.

Lemma append_nil_l (s : string) : "" +:+ s = s.
Proof. reflexivity. Qed.

Lemma append_nil_r (s : string) : s +:+ "" = s.
Proof.
  induction s as [|c s IH]; [done|]. by rewrite append_cons, IH.
Qed.

Lemma append_assoc (a b c : string) : (a +:+ b) +:+ c = a +:+ b +:+ c.
Proof.
  induction a as [|x a IH]; [done|]. by rewrite !append_cons, IH.
Qed.

Lemma length_append (a b : string) :
  String.length (a +:+ b) = String.length a + String.length b.
Proof.
  induction a as [|x a IH]; [done|]. rewrite append_cons. simpl.
  by rewrite IH.
Qed.

Lemma all_append p (a b : string) :
  str.all p (a +:+ b) = str.all p a && str.all p b.
Proof.
  induction a as [|x a IH]; [done|]. rewrite append_cons. simpl.
  rewrite IH. by rewrite andb_assoc.
Qed.

Create Rewrite HintDb strings.
#[global] Hint Rewrite append_cons append_nil_l append_nil_r append_assoc
  : strings.

(** ** The pattern matcher *)

Lemma span_word_spec (s : string) :
  s = (re.span_word s).1 +:+ (re.span_word s).2
  /\ str.all char.is_word (re.span_word s).1 = true.
Proof.
  induction s as [|c s [IH1 IH2]]; simpl; [done|].
  destruct (char.is_word c) eqn:Hc; simpl; [|done].
  destruct (re.span_word s) as [w r]; simpl in *.
  rewrite Hc, IH2. split; [|done]. rewrite append_cons. by f_equal.
Qed.

Lemma match_var_spec (s tok rest : string) :
  re.match_var s = Some (tok, rest) ->
  s = tok +:+ rest /\ placeholder tok.
Proof.
  unfold re.match_var. destruct s as [|d s]; [done|].
  destruct (char.is_dollar d) eqn:Hd; [|done].
  destruct (span_word_spec s) as [Hs Hw].
  destruct (re.span_word s) as [[|c w] [|d' r]]; try done.
  destruct (char.is_dollar d') eqn:Hd'; [|done].
  intros [= <- <-]. simpl in *.
  assert (d = "$"%char) as ->.
  { unfold char.is_dollar, char.code in Hd. apply Nat.eqb_eq in Hd.
    rewrite <- (ascii_nat_embedding d), Hd. done. }
  assert (d' = "$"%char) as ->.
  { unfold char.is_dollar, char.code in Hd'. apply Nat.eqb_eq in Hd'.
    rewrite <- (ascii_nat_embedding d'), Hd'. done. }
  split.
  - rewrite Hs. by autorewrite with strings.
  - by exists c, w.
Qed.

Lemma match_var_shorter (s tok rest : string) :
  re.match_var s = Some (tok, rest) ->
  String.length rest < String.length s.
Proof.
  intros H. apply match_var_spec in H as [-> (c & w & -> & _)].
  rewrite !append_cons. simpl. rewrite !length_append. simpl. lia.
Qed.

(** ** [re.findall] and [re.split] do not depend on the fuel *)

Lemma findall_fuel_irrel (n m : nat) (s : string) :
  String.length s < n -> String.length s < m ->
  re.findall_fuel n s = re.findall_fuel m s.
Proof.
  revert m s. induction n as [|n IH]; intros m s Hn Hm; [lia|].
  destruct m as [|m]; [lia|]. simpl.
  destruct (re.match_var s) as [[tok rest]|] eqn:Hmatch.
  - apply match_var_shorter in Hmatch. f_equal. apply IH; lia.
  - destruct s as [|c s]; [done|]. simpl in *. apply IH; lia.
Qed.

Lemma split_fuel_irrel (n m : nat) (s : string) :
  String.length s < n -> String.length s < m ->
  re.split_fuel n s = re.split_fuel m s.
Proof.
  revert m s. induction n as [|n IH]; intros m s Hn Hm; [lia|].
  destruct m as [|m]; [lia|]. simpl.
  destruct (re.match_var s) as [[tok rest]|] eqn:Hmatch.
  - apply match_var_shorter in Hmatch. f_equal. apply IH; lia.
  - destruct s as [|c s]; [done|]. simpl in *. f_equal. apply IH; lia.
Qed.

Lemma findall_fuel_S (n : nat) (s : string) :
  re.findall_fuel (S n) s =
  match re.match_var s with
  | Some (tok, rest) => tok :: re.findall_fuel n rest
  | None =>
      match s with
      | String _ s' => re.findall_fuel n s'
      | "" => []
      end
  end.
Proof. reflexivity. Qed.

Lemma split_fuel_S (n : nat) (s : string) :
  re.split_fuel (S n) s =
  match re.match_var s with
  | Some (_, rest) => "" :: re.split_fuel n rest
  | None =>
      match s with
      | String c s' => str.cons_head c (re.split_fuel n s')
      | "" => [""]
      end
  end.
Proof. reflexivity. Qed.

Lemma findall_nil : re.findall "" = [].
Proof. reflexivity. Qed.

Lemma findall_match (s tok rest : string) :
  re.match_var s = Some (tok, rest) ->
  re.findall s = tok :: re.findall rest.
Proof.
  intros H. unfold re.findall. rewrite findall_fuel_S, H. f_equal.
  apply match_var_shorter in H. apply findall_fuel_irrel; lia.
Qed.

Lemma findall_skip (c : ascii) (s : string) :
  re.match_var (String c s) = None ->
  re.findall (String c s) = re.findall s.
Proof. intros H. unfold re.findall. by rewrite findall_fuel_S, H. Qed.

Lemma split_nil : re.split "" = [""].
Proof. reflexivity. Qed.

Lemma split_match (s tok rest : string) :
  re.match_var s = Some (tok, rest) ->
  re.split s = "" :: re.split rest.
Proof.
  intros H. unfold re.split. rewrite split_fuel_S, H. f_equal.
  apply match_var_shorter in H. apply split_fuel_irrel; lia.
Qed.

Lemma split_skip (c : ascii) (s : string) :
  re.match_var (String c s) = None ->
  re.split (String c s) = str.cons_head c (re.split s).
Proof. intros H. unfold re.split. by rewrite split_fuel_S, H. Qed.

(** Induction along the scan of a string by the pattern. *)
Lemma scan_ind (P : string -> Prop) :
  P "" ->
  (forall c s, re.match_var (String c s) = None -> P s -> P (String c s)) ->
  (forall s tok rest, re.match_var s = Some (tok, rest) -> P rest -> P s) ->
  forall s, P s.
Proof.
  intros Hnil Hskip Hmatch s.
  remember (String.length s) as n eqn:Hn. revert s Hn.
  induction n as [n IH] using lt_wf_ind. intros s ->.
  destruct (re.match_var s) as [[tok rest]|] eqn:Hm.
  - apply (Hmatch s tok rest Hm).
    apply (IH (String.length rest)); [|done].
    by apply match_var_shorter in Hm.
  - destruct s as [|c s]; [done|].
    apply Hskip; [done|]. apply (IH (String.length s)); simpl; [lia|done].
Qed.

(** [re.split] returns one more fragment than [re.findall] returns matches,
    and weaving the two gives the string back. *)
Lemma split_findall (s : string) :
  exists lits tr,
    re.split s = lits ++ [tr]
    /\ length lits = length (re.findall s)
    /\ weave (zip lits (re.findall s)) tr = s.
Proof.
  induction s as [|c s Hm (lits & tr & Hs & Hlen & Hw)
                  |s tok rest Hm (lits & tr & Hs & Hlen & Hw)] using scan_ind.
  - by exists [], "".
  - rewrite split_skip, findall_skip, Hs by done.
    destruct lits as [|l lits]; simpl in *.
    + exists [], (String c tr). destruct (re.findall s); [|done].
      simpl in *. by subst.
    + exists (String c l :: lits), tr.
      destruct (re.findall s) as [|t toks]; [done|]. simpl in *.
      split_and!; [done..|]. by rewrite append_cons, Hw.
  - rewrite (split_match _ _ _ Hm), (findall_match _ _ _ Hm), Hs.
    exists ("" :: lits), tr. simpl. split_and!; [done|by rewrite Hlen|].
    rewrite Hw. by apply match_var_spec in Hm as [-> _].
Qed.

Lemma split_length (s : string) :
  length (re.split s) = S (length (re.findall s)).
Proof.
  destruct (split_findall s) as (lits & tr & -> & <- & _).
  rewrite length_app. simpl. lia.
Qed.

Lemma findall_placeholder (s : string) : Forall placeholder (re.findall s).
Proof.
  induction s as [|c s Hm IH|s tok rest Hm IH] using scan_ind.
  - constructor.
  - by rewrite findall_skip.
  - rewrite (findall_match _ _ _ Hm). constructor; [|done].
    by apply match_var_spec in Hm as [_ ?].
Qed.

Lemma split_decompose (line : string) :
  re.split line = fragments line ++ [trailing line]
  /\ length (fragments line) = length (re.findall line)
  /\ weave (decompose line) (trailing line) = line.
Proof.
  destruct (split_findall line) as (lits & tr & Hs & Hlen & Hw).
  unfold decompose, fragments, trailing. rewrite Hs.
  rewrite removelast_last, last_last. done.
Qed.

(** ** The renderer *)

Lemma flatten_app (a b : list segment) :
  flatten (a ++ b) = flatten a ++ flatten b.
Proof. unfold flatten. by rewrite flat_map_app. Qed.

Lemma flatten_literal (frag : string) :
  flatten (literal frag)
  = if blank frag then [] else [IFormat ftbody; IStr frag].
Proof. unfold literal. by destruct (blank frag). Qed.

Lemma lookup_text_dict (m : gmap string string) (t : string) :
  text_dict m !! xlsx.Text t = xlsx.Text <$> m !! t.
Proof.
  unfold text_dict. rewrite lookup_kmap; [|apply _]. by rewrite lookup_fmap.
Qed.

Lemma get_text_dict (m : gmap string string) (t : string) :
  BuildOutputWorker.get (text_dict m) t = xlsx.Text (default "" (m !! t)).
Proof.
  unfold BuildOutputWorker.get. rewrite lookup_text_dict.
  by destruct (m !! t).
Qed.

(** One pass of the loop over the matches, for any dict: the value found for
    the token is a text, or the pass raises [TypeError]. *)
Lemma sub_token_get (d : BuildOutputWorker.dict) (non_reg reg : list string)
    (acc : list item) (i : nat) (l t : string) :
  non_reg !! i = Some l -> reg !! i = Some t ->
  BuildOutputWorker.sub_token d ftbody fthighlight fterror non_reg reg acc i
  = match BuildOutputWorker.get d t with
    | xlsx.Text v =>
        Ok (acc ++ flatten (literal l)
                ++ (if blank v then [IFormat fterror; IStr t]
                    else [IFormat fthighlight; IStr v]))
    | xlsx.Number _ => Raise TypeError
    end.
Proof.
  intros Hl Ht. unfold BuildOutputWorker.sub_token, getitem.
  rewrite Hl, Ht. cbn [of_option mbind result_bind].
  destruct (BuildOutputWorker.get d t) as [v|x]; [|done].
  cbn [BuildOutputWorker.as_str mbind result_bind].
  unfold literal, re.search_blank, blank.
  destruct (str.all char.is_space l); simpl;
    destruct (str.all char.is_space v); simpl;
    rewrite <- ?app_assoc; reflexivity.
Qed.

(** The loop depends on the dict only through the values of the tokens. *)
Lemma sub_token_agree (d1 d2 : BuildOutputWorker.dict)
    (non_reg reg : list string) (acc : list item) (i : nat) :
  (forall t, reg !! i = Some t ->
             BuildOutputWorker.get d1 t = BuildOutputWorker.get d2 t) ->
  BuildOutputWorker.sub_token d1 ftbody fthighlight fterror non_reg reg acc i
  = BuildOutputWorker.sub_token d2 ftbody fthighlight fterror non_reg reg
      acc i.
Proof.
  intros Hget. unfold BuildOutputWorker.sub_token, getitem.
  destruct (non_reg !! i) as [l|]; [|done].
  destruct (reg !! i) as [t|]; [|done].
  cbn [of_option mbind result_bind]. by rewrite (Hget t).
Qed.

Lemma for_ext {S X} (xs : list X) (body1 body2 : S -> X -> result S)
    (s : S) :
  (forall s x, x ∈ xs -> body1 s x = body2 s x) ->
  for_ xs body1 s = for_ xs body2 s.
Proof.
  revert s. induction xs as [|x xs IH]; intros s Hbody; simpl; [done|].
  rewrite Hbody by (apply elem_of_cons; by left).
  destruct (body2 s x) as [s'|e]; [|done]. cbn [mbind result_bind].
  apply IH. intros s'' y Hy. apply Hbody, elem_of_cons. by right.
Qed.

(** A loop all of whose passes return or raise [e], and one of whose passes
    raises [e] whatever it is given, raises [e]. *)
Lemma for_raise {S X} (xs : list X) (body : S -> X -> result S) (s : S)
    (e : exn) :
  (forall s x, x ∈ xs -> body s x = Raise e \/ exists s', body s x = Ok s') ->
  (exists x, x ∈ xs /\ forall s, body s x = Raise e) ->
  for_ xs body s = Raise e.
Proof.
  revert s. induction xs as [|x xs IH]; intros s Hbody (y & Hy & Hraise).
  - by apply elem_of_nil in Hy.
  - simpl. destruct (Hbody s x) as [->|[s' Hs']]; [by left|done|].
    rewrite Hs'. cbn [mbind result_bind].
    apply elem_of_cons in Hy as [->|Hy].
    + by rewrite Hraise in Hs'.
    + apply IH; [|by exists y].
      intros s'' z Hz. apply Hbody. by right.
Qed.

Lemma sub_line_agree (d1 d2 : BuildOutputWorker.dict) (line : string) :
  (forall t, t ∈ re.findall line ->
             BuildOutputWorker.get d1 t = BuildOutputWorker.get d2 t) ->
  BuildOutputWorker.sub_line d1 ftbody fthighlight fterror line
  = BuildOutputWorker.sub_line d2 ftbody fthighlight fterror line.
Proof.
  intros Hget. unfold BuildOutputWorker.sub_line.
  rewrite (for_ext _ _ (BuildOutputWorker.sub_token d2 ftbody fthighlight
                          fterror (re.split line) (re.findall line))); [done|].
  intros acc i _. apply sub_token_agree. intros t Ht.
  apply Hget. by apply list_elem_of_lookup_2 in Ht.
Qed.

Section renderer.

Variable m : gmap string string.

Local Abbreviation sub_token :=
  (BuildOutputWorker.sub_token (text_dict m) ftbody fthighlight fterror).
Local Abbreviation sub_line :=
  (BuildOutputWorker.sub_line (text_dict m) ftbody fthighlight fterror).

Lemma sub_token_step (non_reg reg : list string) (acc : list item)
    (i : nat) (l t : string) :
  non_reg !! i = Some l -> reg !! i = Some t ->
  sub_token non_reg reg acc i
  = Ok (acc ++ flatten (literal l ++ [resolve m t])).
Proof.
  intros Hl Ht. rewrite (sub_token_get _ _ _ _ _ l t) by done.
  rewrite get_text_dict, flatten_app. unfold resolve, blank.
  destruct (m !! t) as [v|]; simpl; [|done].
  by destruct (str.all char.is_space v).
Qed.

Lemma sub_token_loop (toks : list string) :
  forall (lits pre_l pre_t rest : list string) (acc : list item),
    length pre_l = length pre_t ->
    length lits = length toks ->
    for_ (seq (length pre_t) (length toks))
         (sub_token (pre_l ++ lits ++ rest) (pre_t ++ toks)) acc
    = Ok (acc ++ flatten (flat_map (fun p => literal p.1 ++ [resolve m p.2])
                                   (zip lits toks))).
Proof.
  induction toks as [|t toks IH]; intros lits pre_l pre_t rest acc Hpre Hlen.
  - simpl. destruct lits; simpl; by rewrite app_nil_r.
  - destruct lits as [|l lits]; [done|]. simpl in Hlen.
    cbn [length seq for_].
    change ((l :: lits) ++ rest) with (l :: (lits ++ rest)).
    rewrite (sub_token_step _ _ _ _ l t).
    + cbn [mbind result_bind].
      specialize (IH lits (pre_l ++ [l]) (pre_t ++ [t]) rest
                     (acc ++ flatten (literal l ++ [resolve m t]))).
      rewrite !length_app in IH. simpl in IH.
      rewrite !Nat.add_1_r in IH. rewrite <- !app_assoc in IH. simpl in IH.
      rewrite IH by lia.
      cbn [zip zip_with flat_map fst snd]. rewrite (flatten_app (_ ++ _)).
      by rewrite <- ?app_assoc.
    + rewrite <- Hpre. by rewrite lookup_app_r, Nat.sub_diag by lia.
    + by rewrite lookup_app_r, Nat.sub_diag by lia.
Qed.

Lemma emit_flat_map (pairs : list (string * string)) (tr : string) :
  emit m pairs tr
  = flat_map (fun p => literal p.1 ++ [resolve m p.2]) pairs ++ literal tr.
Proof.
  induction pairs as [|[l t] pairs IH]; simpl; [done|].
  by rewrite IH, <- !app_assoc.
Qed.

(** One line: the loop by index agrees with the segments of the
    decomposition, and no index is out of range. *)
Lemma sub_line_emit (line : string) :
  sub_line line = Ok (flatten (render_line m line)).
Proof.
  destruct (split_decompose line) as (Hs & Hlen & _).
  unfold BuildOutputWorker.sub_line, render_line. rewrite Hs.
  pose proof (sub_token_loop (re.findall line) (fragments line) [] []
                [trailing line] [] eq_refl Hlen) as Hloop.
  simpl in Hloop. rewrite Hloop. cbn [mbind result_bind].
  unfold getitem_last. rewrite last_snoc. cbn [of_option mbind result_bind].
  rewrite emit_flat_map, flatten_app. fold (decompose line).
  rewrite flatten_literal. unfold re.search_blank, blank.
  destruct (str.all char.is_space (trailing line)); simpl;
    by rewrite ?app_nil_r.
Qed.

Lemma sub_lines_loop (lines : list string) (acc : list (list item)) :
  for_ lines
       (fun cfg_format line =>
          format_line ← sub_line line; mret (cfg_format ++ [format_line]))
       acc
  = Ok (acc ++ map (fun line => flatten (render_line m line)) lines).
Proof.
  revert acc. induction lines as [|line lines IH]; intros acc; simpl.
  - by rewrite app_nil_r.
  - rewrite sub_line_emit. cbn [mbind result_bind mret result_ret].
    rewrite IH. by rewrite <- app_assoc.
Qed.

(** The whole template: one segment sequence per line of
    [cfg.splitlines()]. *)
Lemma render_lines (T : string) :
  render T m
  = Ok (map (fun line => flatten (render_line m line)) (str.splitlines T)).
Proof. unfold render, BuildOutputWorker.sub_get_string. apply sub_lines_loop. Qed.

End renderer.

(** Where a dict gives every token of a list a text, a mapping from strings
    to strings gives the same values. *)
Lemma text_view (d : BuildOutputWorker.dict) (toks : list string) :
  Forall (fun t => is_text (BuildOutputWorker.get d t)) toks ->
  exists m : gmap string string,
    forall t, t ∈ toks ->
              BuildOutputWorker.get d t
              = BuildOutputWorker.get (text_dict m) t.
Proof.
  intros Hall.
  set (s_of := fun t => match BuildOutputWorker.get d t with
                        | xlsx.Text s => s
                        | xlsx.Number _ => ""
                        end).
  exists (list_to_map (map (fun t => (t, s_of t)) toks)).
  intros t Ht. rewrite get_text_dict.
  assert ((list_to_map (map (fun t => (t, s_of t)) toks)
           : gmap string string) !! t = Some (s_of t)) as ->.
  { clear Hall. induction toks as [|x toks IH]; [by apply elem_of_nil in Ht|].
    simpl. destruct (decide (x = t)) as [->|Hne].
    - by rewrite lookup_insert_eq.
    - rewrite lookup_insert_ne by done. apply IH.
      by apply elem_of_cons in Ht as [->|]. }
  simpl. rewrite Forall_forall in Hall. specialize (Hall t Ht). unfold s_of.
  by destruct (BuildOutputWorker.get d t).
Qed.

(** A line with a token for which the dict holds a number raises
    [TypeError]. *)
Lemma sub_line_number (d : BuildOutputWorker.dict) (line t : string)
    (x : Qc) :
  t ∈ re.findall line -> BuildOutputWorker.get d t = xlsx.Number x ->
  BuildOutputWorker.sub_line d ftbody fthighlight fterror line
  = Raise TypeError.
Proof.
  intros Ht Hx. unfold BuildOutputWorker.sub_line.
  assert (forall i t',
            re.findall line !! i = Some t' ->
            exists l, re.split line !! i = Some l) as Hfrag.
  { intros i t' Hi. apply lookup_lt_is_Some_2. rewrite split_length.
    apply lookup_lt_Some in Hi. lia. }
  rewrite (for_raise _ _ _ TypeError); [done| |].
  - intros acc i [_ Hi]%elem_of_seq. simpl in Hi.
    destruct (lookup_lt_is_Some_2 (re.findall line) i) as [t' Ht']; [done|].
    destruct (Hfrag i t' Ht') as [l Hl].
    rewrite (sub_token_get _ _ _ _ _ l t') by done.
    destruct (BuildOutputWorker.get d t'); [right; eauto|by left].
  - apply list_elem_of_lookup_1 in Ht as [i Hi]. exists i. split.
    + apply elem_of_seq. apply lookup_lt_Some in Hi. lia.
    + intros acc. destruct (Hfrag i t Hi) as [l Hl].
      rewrite (sub_token_get _ _ _ _ _ l t) by done. by rewrite Hx.
Qed.

(** With a text for every token of the line, the line is rendered as under a
    mapping from strings to strings. *)
Lemma sub_line_text (d : BuildOutputWorker.dict) (m : gmap string string)
    (line : string) :
  (forall t, t ∈ re.findall line ->
             BuildOutputWorker.get d t
             = BuildOutputWorker.get (text_dict m) t) ->
  BuildOutputWorker.sub_line d ftbody fthighlight fterror line
  = Ok (flatten (render_line m line)).
Proof.
  intros Hget. rewrite (sub_line_agree d (text_dict m)) by done.
  apply sub_line_emit.
Qed.

(** One line on any dict: the renderer returns a line or raises
    [TypeError]. *)
Lemma sub_line_cases (d : BuildOutputWorker.dict) (line : string) :
  (exists format_line,
     BuildOutputWorker.sub_line d ftbody fthighlight fterror line
     = Ok format_line)
  \/ BuildOutputWorker.sub_line d ftbody fthighlight fterror line
     = Raise TypeError.
Proof.
  destruct (decide (Forall (fun t => is_text (BuildOutputWorker.get d t))
                           (re.findall line))) as [Hall|Hnot].
  - left. destruct (text_view d (re.findall line) Hall) as [m Hm].
    rewrite (sub_line_text d m line Hm). eauto.
  - right.
    apply not_Forall_Exists, Exists_exists in Hnot as (t & Ht & Hnum);
      [|apply _].
    simpl in Hnum.
    destruct (BuildOutputWorker.get d t) as [v|x] eqn:Hx; [by destruct Hnum|].
    by apply (sub_line_number d line t x).
Qed.

(** A loop all of whose passes return or raise [e] returns or raises
    [e]. *)
Lemma for_cases {S X} (xs : list X) (body : S -> X -> result S) (s : S)
    (e : exn) :
  (forall s x, (exists s', body s x = Ok s') \/ body s x = Raise e) ->
  (exists s', for_ xs body s = Ok s') \/ for_ xs body s = Raise e.
Proof.
  intros Hbody. revert s. induction xs as [|x xs IH]; intros s; simpl.
  - left. by exists s.
  - destruct (Hbody s x) as [[s' ->]| ->]; [apply IH|by right].
Qed.


(** ** Rendering one line (claims C1 and C10) *)


(** C10.  Splitting a line on the placeholder pattern yields exactly one more
    literal fragment than there are matches, so every access [non_reg[i]] for
    [i] in [range(len(reg))] and the access [non_reg[-1]] are in range, and
    the renderer returns a result for every template and every mapping.  On
    a dict with other values than strings it returns or raises [TypeError]:
    there is no input on which it raises [IndexError]. *)
Theorem renderer_total (T : string) (m : gmap string string) :
  (forall line,
     length (re.split line) = length (re.findall line) + 1
     /\ (forall i, i < length (re.findall line) ->
                   exists frag, getitem (re.split line) i = Ok frag)
     /\ (exists frag, getitem_last (re.split line) = Ok frag)
     /\ exists format_line,
          BuildOutputWorker.sub_line (text_dict m) ftbody fthighlight fterror
            line
          = Ok format_line)
  /\ (exists cfg_format,
        BuildOutputWorker.sub_get_string T (text_dict m)
          ftbody fthighlight fterror
        = Ok cfg_format)
  /\ forall d : BuildOutputWorker.dict,
       (exists cfg_format,
          BuildOutputWorker.sub_get_string T d ftbody fthighlight fterror
          = Ok cfg_format)
       \/ BuildOutputWorker.sub_get_string T d ftbody fthighlight fterror
          = Raise TypeError.
Proof.
  split; [|split].
  - intros line. pose proof (split_length line) as Hlen. split_and!.
    + lia.
    + intros i Hi. unfold getitem.
      destruct (lookup_lt_is_Some_2 (re.split line) i) as [frag ->]; [lia|].
      by exists frag.
    + unfold getitem_last. destruct (re.split line) as [|x l] eqn:E; [done|].
      destruct (last (x :: l)) as [frag|] eqn:El.
      * by exists frag.
      * by apply last_None in El.
    + rewrite sub_line_emit. eauto.
  - fold (render T m). rewrite render_lines. eauto.
  - intros d. unfold BuildOutputWorker.sub_get_string. apply for_cases.
    intros cfg_format line.
    destruct (sub_line_cases d line) as [[format_line ->]| ->];
      [left; eauto|by right].
Qed.

(** ** The empty template (claim C5) *)

(** C5, as stated, fails: for the empty template the renderer does not
    return one line with an empty segment sequence. *)
Lemma render_empty_not_one_line : render "" ∅ <> Ok [[]].
Proof. vm_compute. discriminate. Qed.

(** C5, amended.  For the empty template the scan finds no token, and the
    renderer returns, for any mapping, the empty sequence of lines:
    [''.splitlines()] has no line at all. *)
Theorem render_empty (m : gmap string string) :
  str.splitlines "" = []
  /\ re.findall "" = []
  /\ tokens "" = []
  /\ render "" m = Ok [].
Proof. split_and!; reflexivity. Qed.

(** ** Scanning *)

Lemma get_template_vars_eq (filepath : string) (w : world) :
  FillValuesWorker.get_template_vars filepath w
  = match fs w !! filepath with
    | Some (TextFile T) => (Ok (T, tokens T), w)
    | Some (XlsxFile _) => (Raise UnicodeDecodeError, w)
    | None => (Raise FileNotFoundError, w)
    end.
Proof.
  unfold FillValuesWorker.get_template_vars, open_read, mbind, io_bind.
  by destruct (fs w !! filepath) as [[content|b]|].
Qed.

(** ** The Token Set (claim C4) *)

Lemma unique_vars_snoc (found : list string) (x : string) :
  FillValuesWorker.unique_vars (found ++ [x])
  = if bool_decide (x ∈ FillValuesWorker.unique_vars found)
    then FillValuesWorker.unique_vars found
    else FillValuesWorker.unique_vars found ++ [x].
Proof. unfold FillValuesWorker.unique_vars. by rewrite foldl_app. Qed.

Lemma unique_vars_elem (found : list string) (t : string) :
  t ∈ FillValuesWorker.unique_vars found <-> t ∈ found.
Proof.
  induction found as [|x found IH] using rev_ind.
  - done.
  - rewrite unique_vars_snoc. case_bool_decide as Hx.
    + rewrite elem_of_app, list_elem_of_singleton, IH.
      split; [tauto|]. intros [?| ->]; [done|]. by apply IH.
    + by rewrite !elem_of_app, IH.
Qed.

Lemma unique_vars_NoDup (found : list string) :
  NoDup (FillValuesWorker.unique_vars found).
Proof.
  induction found as [|x found IH] using rev_ind.
  - constructor.
  - rewrite unique_vars_snoc. case_bool_decide as Hx; [done|].
    apply NoDup_app. split_and!; [done| |apply NoDup_singleton].
    intros y Hy ->%list_elem_of_singleton. done.
Qed.

(** An element of a list has a first occurrence. *)
Lemma first_occurrence (l : list string) (a : string) :
  a ∈ l -> exists p, l !! p = Some a /\ (a ∉ take p l).
Proof.
  induction l as [|x l IH]; intros Ha; [by apply elem_of_nil in Ha|].
  destruct (decide (a = x)) as [->|Hne].
  - exists 0. split; [done|]. simpl. apply not_elem_of_nil.
  - apply elem_of_cons in Ha as [?|Ha]; [done|].
    destruct (IH Ha) as (p & Hp & Hnot). exists (S p). split; [done|].
    simpl. rewrite not_elem_of_cons. done.
Qed.

(** The Token Set is ordered by first occurrence among the matches. *)
Lemma unique_vars_order (found : list string) (i j : nat) (a b : string) :
  i < j ->
  FillValuesWorker.unique_vars found !! i = Some a ->
  FillValuesWorker.unique_vars found !! j = Some b ->
  exists p q,
    p < q
    /\ found !! p = Some a /\ (a ∉ take p found)
    /\ found !! q = Some b /\ (b ∉ take q found).
Proof.
  revert i j a b. induction found as [|x found IH] using rev_ind;
    intros i j a b Hij Ha Hb; [done|].
  assert (forall p c, found !! p = Some c -> c ∉ take p found ->
                      (found ++ [x]) !! p = Some c
                      /\ (c ∉ take p (found ++ [x]))) as Hlift.
  { intros p c Hp Hnot. apply lookup_lt_Some in Hp as Hlt.
    rewrite lookup_app_l, take_app_le by lia. done. }
  rewrite unique_vars_snoc in Ha, Hb. case_bool_decide as Hx.
  - destruct (IH i j a b Hij Ha Hb) as (p & q & Hpq & Hp & Hpn & Hq & Hqn).
    exists p, q. split; [done|].
    destruct (Hlift p a Hp Hpn), (Hlift q b Hq Hqn). done.
  - apply lookup_snoc_Some in Hb as [[Hj Hb]|[Hj ->]].
    + rewrite lookup_app_l in Ha by lia.
      destruct (IH i j a b Hij Ha Hb) as (p & q & Hpq & Hp & Hpn & Hq & Hqn).
      exists p, q. split; [done|].
      destruct (Hlift p a Hp Hpn), (Hlift q b Hq Hqn). done.
    + rewrite lookup_app_l in Ha by lia.
      apply list_elem_of_lookup_2 in Ha.
      apply (proj1 (unique_vars_elem _ _)) in Ha.
      apply first_occurrence in Ha as (p & Hp & Hpn).
      exists p, (length found). apply lookup_lt_Some in Hp as Hlt.
      destruct (Hlift p a Hp Hpn). split_and!; [done..| |].
      * by rewrite lookup_app_r, Nat.sub_diag by lia.
      * rewrite take_app_length. by rewrite <- unique_vars_elem.
Qed.

(** C4.  Scanning a template file returns the text unchanged together with
    the Token Set: the matches of the placeholder pattern from left to right,
    each exactly once, in the order of their first occurrence.  A template
    without placeholders, the empty one included, gives the empty Token Set
    and no error. *)
Theorem scan_token_set (w : world) (filepath T : string) :
  fs w !! filepath = Some (TextFile T) ->
  FillValuesWorker.get_template_vars filepath w = (Ok (T, tokens T), w)
  /\ tokens T = FillValuesWorker.unique_vars (re.findall T)
  /\ NoDup (tokens T)
  /\ (forall t, t ∈ tokens T <-> t ∈ re.findall T)
  /\ Forall placeholder (tokens T)
  /\ (forall i j a b,
        i < j -> tokens T !! i = Some a -> tokens T !! j = Some b ->
        exists p q,
          p < q
          /\ re.findall T !! p = Some a /\ (a ∉ take p (re.findall T))
          /\ re.findall T !! q = Some b /\ (b ∉ take q (re.findall T)))
  /\ (re.findall T = [] -> tokens T = [])
  /\ (T = "" -> tokens T = []).
Proof.
  intros Hfile. rewrite get_template_vars_eq, Hfile. split_and!; try done.
  - apply unique_vars_NoDup.
  - apply unique_vars_elem.
  - apply Forall_forall. intros t Ht.
    apply (proj1 (unique_vars_elem _ _)) in Ht.
    by apply (proj1 (Forall_forall _ _) (findall_placeholder T)).
  - intros i j a b. apply unique_vars_order.
  - unfold tokens. by intros ->.
  - by intros ->.
Qed.

Lemma scan_token_set_witness :
  let w := {| fs := {[ "t.cfg" := TextFile "$B$ $A$ $B$" ]}; locked := ∅;
              tmpname := "form.xlsx"; has_savings := false; log := [] |} in
  FillValuesWorker.get_template_vars "t.cfg" w
  = (Ok ("$B$ $A$ $B$", ["$B$"; "$A$"]), w).
Proof.
  intros w.
  exact (proj1 (scan_token_set w "t.cfg" "$B$ $A$ $B$" eq_refl)).
Defined.

(** ** Lines and matches *)

Lemma linebreak_not_dollar (c : ascii) :
  char.is_linebreak c = true -> char.is_dollar c = false.
Proof. destruct c as [[] [] [] [] [] [] [] []]; vm_compute; congruence. Qed.

Lemma linebreak_not_word (c : ascii) :
  char.is_linebreak c = true -> char.is_word c = false.
Proof. destruct c as [[] [] [] [] [] [] [] []]; vm_compute; congruence. Qed.

Lemma lf_linebreak (c : ascii) :
  char.is_lf c = true -> char.is_linebreak c = true.
Proof. destruct c as [[] [] [] [] [] [] [] []]; vm_compute; congruence. Qed.

Lemma match_var_not_dollar (c : ascii) (s : string) :
  char.is_dollar c = false -> re.match_var (String c s) = None.
Proof. intros H. unfold re.match_var. by rewrite H. Qed.

Lemma findall_linebreak (c : ascii) (s : string) :
  char.is_linebreak c = true -> re.findall (String c s) = re.findall s.
Proof.
  intros H. apply findall_skip, match_var_not_dollar.
  by apply linebreak_not_dollar.
Qed.

Lemma span_word_app_sep (a b : string) (c : ascii) :
  char.is_word c = false ->
  re.span_word (a +:+ String c b)
  = ((re.span_word a).1, (re.span_word a).2 +:+ String c b).
Proof.
  intros Hc. induction a as [|x a IH].
  - rewrite append_nil_l. simpl. by rewrite Hc.
  - rewrite append_cons. simpl. destruct (char.is_word x); [|done].
    rewrite IH. by destruct (re.span_word a).
Qed.

Lemma match_var_app_sep (a b : string) (c : ascii) :
  char.is_word c = false -> char.is_dollar c = false ->
  re.match_var (a +:+ String c b)
  = match re.match_var a with
    | Some (tok, rest) => Some (tok, rest +:+ String c b)
    | None => None
    end.
Proof.
  intros Hw Hd. destruct a as [|d a].
  - rewrite append_nil_l. simpl. by rewrite Hd.
  - rewrite append_cons. unfold re.match_var.
    destruct (char.is_dollar d); [|done].
    rewrite span_word_app_sep by done.
    destruct (re.span_word a) as [[|x w] [|d' r]]; simpl; try done.
    + by rewrite Hd.
    + rewrite append_cons. by destruct (char.is_dollar d').
Qed.

(** No match crosses a character that is neither [$] nor a word
    character. *)
Lemma findall_app_sep (a b : string) (c : ascii) :
  char.is_word c = false -> char.is_dollar c = false ->
  re.findall (a +:+ String c b) = re.findall a ++ re.findall b.
Proof.
  intros Hw Hd.
  induction a as [|x a Hm IH|a tok rest Hm IH] using scan_ind.
  - rewrite append_nil_l. by apply findall_skip, match_var_not_dollar.
  - rewrite (findall_skip x a Hm). rewrite append_cons.
    rewrite findall_skip; [done|].
    rewrite <- append_cons, match_var_app_sep by done. by rewrite Hm.
  - rewrite (findall_match a tok rest Hm).
    rewrite (findall_match _ tok (rest +:+ String c b)).
    + by rewrite IH.
    + rewrite match_var_app_sep by done. by rewrite Hm.
Qed.

Lemma splitlines_break (c : ascii) (s : string) :
  char.is_linebreak c = true ->
  str.splitlines (String c s) = "" :: str.splitlines (str.after_break c s).
Proof.
  intros H. simpl. rewrite H. destruct s as [|c' s]; [done|].
  simpl. by destruct (char.is_cr c && char.is_lf c').
Qed.

Lemma findall_after_break (c : ascii) (s : string) :
  char.is_linebreak c = true ->
  re.findall (String c s) = re.findall (str.after_break c s).
Proof.
  intros H. rewrite findall_linebreak by done.
  destruct s as [|c' s]; [done|]. simpl.
  destruct (char.is_cr c) eqn:Hcr; destruct (char.is_lf c') eqn:Hlf;
    simpl; try done.
  apply findall_linebreak. by apply lf_linebreak.
Qed.

Lemma after_break_length (c : ascii) (s : string) :
  String.length (str.after_break c s) <= String.length s.
Proof.
  destruct s as [|c' s]; simpl; [lia|].
  destruct (char.is_cr c && char.is_lf c'); simpl; lia.
Qed.

(** A non-empty text is its first line followed by nothing or by a line
    boundary and the remaining lines. *)
Lemma splitlines_first (s : string) :
  s <> "" ->
  exists l tail,
    s = l +:+ tail
    /\ ((tail = "" /\ str.splitlines s = [l])
        \/ exists c t,
             tail = String c t /\ char.is_linebreak c = true
             /\ str.splitlines s = l :: str.splitlines (str.after_break c t)).
Proof.
  induction s as [|c s IH]; intros Hne; [done|].
  destruct (char.is_linebreak c) eqn:Hc.
  - exists "", (String c s). split; [done|]. right. exists c, s.
    split_and!; [done..|]. by apply splitlines_break.
  - simpl. rewrite Hc. destruct s as [|c' s].
    + exists (String c ""), "". split; [done|]. by left.
    + destruct IH as (l & tail & Hs & Hcases); [done|].
      exists (String c l), tail. rewrite append_cons, <- Hs.
      split; [done|].
      destruct Hcases as [[-> ->]|(x & t & -> & Hx & ->)]; [by left|].
      right. by exists x, t.
Qed.

Lemma findall_splitlines (T : string) :
  concat (map re.findall (str.splitlines T)) = re.findall T.
Proof.
  remember (String.length T) as n eqn:Hn. revert T Hn.
  induction n as [n IH] using lt_wf_ind. intros T ->.
  destruct (decide (T = "")) as [->|Hne]; [done|].
  destruct (splitlines_first T Hne)
    as (l & tail & HT & [[-> ->]|(c & t & -> & Hc & ->)]).
  - cbn [map concat]. rewrite app_nil_r. rewrite append_nil_r in HT.
    by subst.
  - cbn [map concat].
    rewrite (IH (String.length (str.after_break c t))); [|..|done].
    + rewrite HT.
      rewrite findall_app_sep
        by auto using linebreak_not_word, linebreak_not_dollar.
      f_equal. rewrite <- findall_after_break by done.
      by rewrite findall_linebreak.
    + rewrite HT, length_append. simpl.
      pose proof (after_break_length c t). lia.
Qed.

(** ** The round trip (claim C2) *)

Lemma segments_flatten (segs : list segment) : segments (flatten segs) = segs.
Proof.
  induction segs as [|[k t] segs IH]; [done|].
  unfold flatten in *. simpl. rewrite IH. by destruct k.
Qed.

Lemma join_app (a b : list string) :
  str.join (a ++ b) = str.join a +:+ str.join b.
Proof.
  induction a as [|x a IH]; simpl; [done|]. by rewrite IH, append_assoc.
Qed.

Lemma join_literal (frag : string) :
  str.join (map text_of (literal frag)) = unblank frag.
Proof.
  unfold literal, unblank. destruct (blank frag); simpl; [done|].
  by rewrite append_nil_r.
Qed.

Lemma join_emit (m : gmap string string) (pairs : list (string * string))
    (tr : string) :
  str.join (map text_of (emit m pairs tr))
  = weave (map (fun p => (unblank p.1, text_of (resolve m p.2))) pairs)
          (unblank tr).
Proof.
  induction pairs as [|[l t] pairs IH]; simpl.
  - apply join_literal.
  - rewrite map_app, join_app, join_literal. simpl. by rewrite IH.
Qed.

Lemma resolve_filled (m : gmap string string) (t v : string) :
  m !! t = Some v -> blank v = false ->
  resolve m t = {| kind_of := FILLED; text_of := v |} /\ value m t = v.
Proof. intros Hm Hv. unfold resolve, value. by rewrite Hm, Hv. Qed.

Lemma elem_of_concat_map (f : string -> list string) (ls : list string)
    (line t : string) :
  line ∈ ls -> t ∈ f line -> t ∈ concat (map f ls).
Proof.
  induction ls as [|x ls IH]; intros Hl Ht; [by apply elem_of_nil in Hl|].
  simpl. apply elem_of_app. apply elem_of_cons in Hl as [->|Hl]; auto.
Qed.

(** A token of a line of [T] belongs to the Token Set of [T]. *)
Lemma line_token (T line t : string) :
  line ∈ str.splitlines T -> t ∈ re.findall line -> t ∈ tokens T.
Proof.
  intros Hl Ht. apply unique_vars_elem. rewrite <- findall_splitlines.
  by apply (elem_of_concat_map re.findall _ line).
Qed.

Lemma not_unresolved_flatten (segs : list segment) :
  Forall (fun sg => kind_of sg <> UNRESOLVED) segs ->
  IFormat fterror ∉ flatten segs.
Proof.
  induction segs as [|[k t] segs IH]; intros Hall; [apply not_elem_of_nil|].
  inversion Hall as [|? ? Hk Hrest]; subst. simpl in Hk.
  unfold flatten in *. simpl. rewrite !not_elem_of_cons.
  split_and!; [|done|by apply IH]. destruct k; simpl; congruence.
Qed.

Section filled.

Variables (m : gmap string string).

Let filled (t : string) : Prop :=
  exists v, m !! t = Some v /\ blank v = false.

Lemma emit_filled (pairs : list (string * string)) (tr : string) :
  Forall filled (map snd pairs) ->
  Forall (fun sg => kind_of sg <> UNRESOLVED) (emit m pairs tr)
  /\ map (fun p => (unblank p.1, text_of (resolve m p.2))) pairs
     = map (fun p => (unblank p.1, value m p.2)) pairs.
Proof.
  induction pairs as [|[l t] pairs IH]; simpl; intros Hall.
  - split; [|done]. unfold literal. destruct (blank tr); by repeat constructor.
  - inversion Hall as [|? ? (v & Hm & Hv) Hrest]; subst.
    destruct (IH Hrest) as [IH1 IH2].
    destruct (resolve_filled m t v Hm Hv) as [Hr Hval].
    split.
    + apply Forall_app. split.
      * unfold literal. destruct (blank l); by repeat constructor.
      * constructor; [by rewrite Hr|done].
    + by rewrite IH2, Hr, Hval.
Qed.

Lemma decompose_snd (line : string) :
  map snd (decompose line) = re.findall line.
Proof.
  destruct (split_decompose line) as (_ & Hlen & _). unfold decompose.
  revert Hlen. generalize (fragments line), (re.findall line).
  intros l. induction l as [|x l IH]; intros [|t toks]; simpl; try done.
  intros [= Hlen]. by rewrite IH.
Qed.

Lemma decompose_fst (line : string) :
  map fst (decompose line) = fragments line.
Proof.
  destruct (split_decompose line) as (_ & Hlen & _). unfold decompose.
  revert Hlen. generalize (fragments line), (re.findall line).
  intros l. induction l as [|x l IH]; intros [|t toks]; simpl; try done.
  intros [= Hlen]. by rewrite IH.
Qed.

End filled.

Lemma render_line_filled (T : string) (m : gmap string string)
    (line : string) :
  all_filled T m -> line ∈ str.splitlines T ->
  (IFormat fterror ∉ flatten (render_line m line))
  /\ Forall (fun sg => kind_of sg <> UNRESOLVED) (render_line m line)
  /\ texts (flatten (render_line m line)) = squeezed m line.
Proof.
  intros Hall Hline.
  assert (Forall (fun t => exists v, m !! t = Some v /\ blank v = false)
                 (map snd (decompose line))) as Htoks.
  { rewrite decompose_snd. apply Forall_forall. intros t Ht.
    apply Hall. by apply (line_token T line). }
  destruct (emit_filled m (decompose line) (trailing line) Htoks)
    as [Hkinds Hvals].
  split_and!.
  - by apply not_unresolved_flatten.
  - done.
  - unfold texts, squeezed, render_line.
    by rewrite segments_flatten, join_emit, Hvals.
Qed.

(** Where no literal fragment is blank without being empty, removing the
    blank ones changes nothing. *)
Lemma squeezed_substituted (m : gmap string string) (line : string) :
  Forall (fun frag => frag = "" \/ blank frag = false) (re.split line) ->
  squeezed m line = substituted m line.
Proof.
  destruct (split_decompose line) as (Hs & _ & _). rewrite Hs.
  intros [Hfrags Htr]%Forall_app.
  assert (forall frag, frag = "" \/ blank frag = false -> unblank frag = frag)
    as Hun.
  { intros frag [->|Hb]; unfold unblank; [done|by rewrite Hb]. }
  unfold squeezed, substituted.
  rewrite Hun by (by inversion Htr).
  f_equal. rewrite <- decompose_fst in Hfrags.
  induction (decompose line) as [|[l t] pairs IH]; [done|].
  simpl in *. inversion Hfrags; subst. rewrite Hun, IH; done.
Qed.

Lemma squeeze_length (f : string -> string) (pairs : list (string * string))
    (tr : string) :
  String.length (weave (map (fun p => (unblank p.1, f p.2)) pairs)
                       (unblank tr))
  <= String.length (weave (map (fun p => (p.1, f p.2)) pairs) tr)
  /\ (String.length (weave (map (fun p => (unblank p.1, f p.2)) pairs)
                           (unblank tr))
      = String.length (weave (map (fun p => (p.1, f p.2)) pairs) tr) ->
      Forall (fun frag => frag = "" \/ blank frag = false)
             (map fst pairs ++ [tr])).
Proof.
  assert (forall frag,
            String.length (unblank frag) <= String.length frag
            /\ (String.length (unblank frag) = String.length frag ->
                frag = "" \/ blank frag = false)) as Hun.
  { intros frag. unfold unblank. destruct (blank frag); simpl.
    - split; [lia|]. intros Hlen. left. by destruct frag.
    - split; [lia|]. by right. }
  induction pairs as [|[l t] pairs [IHle IHeq]]; simpl.
  - destruct (Hun tr) as [Hle Heq]. split; [done|].
    intros Hlen. constructor; [by apply Heq|constructor].
  - rewrite !length_append. destruct (Hun l) as [Hle Heq]. split; [lia|].
    intros Hlen. constructor; [apply Heq; lia|apply IHeq; lia].
Qed.

(** The converse: where the squeezed line is the line with its tokens
    replaced, no literal fragment was blank without being empty. *)
Lemma substituted_squeezed (m : gmap string string) (line : string) :
  squeezed m line = substituted m line ->
  Forall (fun frag => frag = "" \/ blank frag = false) (re.split line).
Proof.
  intros Heq. destruct (split_decompose line) as (Hs & Hlen & _).
  rewrite Hs, <- (decompose_fst line).
  apply (squeeze_length (value m)). unfold squeezed, substituted in Heq.
  by rewrite Heq.
Qed.

(** C2, as stated, fails: with both tokens of ["$A$ $B$"] filled, the blank
    between them is dropped and the texts of the segments concatenate to
    ["xy"], not to the line with its tokens replaced, ["x y"]. *)
Lemma round_trip_fails :
  ~ round_trip "$A$ $B$" (<["$A$" := "x"]> (<["$B$" := "y"]> ∅)).
Proof.
  intros Hrt. destruct Hrt as (lines & Hr & Hall).
  - intros t Ht. vm_compute in Ht.
    apply elem_of_cons in Ht as [->|Ht];
      [|apply list_elem_of_singleton in Ht as ->].
    + by exists "x".
    + by exists "y".
  - vm_compute in Hr. injection Hr as <-.
    inversion Hall as [|? ? ? ? [_ Htexts] _]; subst.
    vm_compute in Htexts. discriminate.
Qed.

(** C2, amended.  If every token of the Token Set of [T] is mapped to a
    non-blank value, rendering [T] gives no UNRESOLVED segment, and for every
    line the texts of its segments concatenate to the line with each token
    occurrence replaced by its value and each blank literal fragment removed;
    that is the line with its tokens replaced exactly when none of its
    literal fragments is blank without being empty. *)
Theorem round_trip_squeezed (T : string) (m : gmap string string) :
  all_filled T m ->
  exists lines,
    render T m = Ok lines
    /\ Forall2 (fun line cfg_line =>
                  (IFormat fterror ∉ cfg_line)
                  /\ Forall (fun sg => kind_of sg <> UNRESOLVED)
                            (segments cfg_line)
                  /\ texts cfg_line = squeezed m line
                  /\ (texts cfg_line = substituted m line
                      <-> Forall (fun frag => frag = "" \/ blank frag = false)
                                 (re.split line)))
               (str.splitlines T) lines.
Proof.
  intros Hall. eexists. split; [apply render_lines|].
  assert (forall line, line ∈ str.splitlines T -> line ∈ str.splitlines T)
    as Hin by done.
  revert Hin. generalize (str.splitlines T) at 1 3 4.
  intros ls. induction ls as [|line ls IH]; intros Hin; [constructor|].
  simpl. constructor.
  - destruct (render_line_filled T m line Hall) as (H1 & H2 & H3).
    { apply Hin, elem_of_cons. by left. }
    split_and!; [done|by rewrite segments_flatten|done|].
    rewrite H3. split; [apply substituted_squeezed|apply squeezed_substituted].
  - apply IH. intros l Hl. apply Hin, elem_of_cons. by right.
Qed.

Lemma round_trip_squeezed_witness :
  exists lines,
    render "host=$HOST$" {[ "$HOST$" := "db01" ]} = Ok lines
    /\ Forall2 (fun line cfg_line =>
                  (IFormat fterror ∉ cfg_line)
                  /\ Forall (fun sg => kind_of sg <> UNRESOLVED)
                            (segments cfg_line)
                  /\ texts cfg_line = squeezed {[ "$HOST$" := "db01" ]} line
                  /\ (texts cfg_line
                      = substituted {[ "$HOST$" := "db01" ]} line
                      <-> Forall (fun frag => frag = "" \/ blank frag = false)
                                 (re.split line)))
               (str.splitlines "host=$HOST$") lines.
Proof.
  apply (round_trip_squeezed "host=$HOST$" {[ "$HOST$" := "db01" ]}).
  intros t Ht. vm_compute in Ht. apply list_elem_of_singleton in Ht as ->.
  by exists "db01".
Defined.

(** ** The output writer, one line (claim C3) *)

Lemma in_flatten (k : kind) (segs : list segment) :
  bool_decide (IFormat (style k) ∈ flatten segs) = has_kind k segs.
Proof.
  induction segs as [|[k' t] segs IH]; [done|].
  unfold flatten, has_kind in *. simpl. rewrite <- IH.
  destruct (decide (k' = k)) as [->|Hne].
  - rewrite (bool_decide_eq_true_2 (k = k)) by done. simpl.
    apply bool_decide_eq_true_2, elem_of_cons. by left.
  - rewrite (bool_decide_eq_false_2 (k' = k)) by done. simpl.
    apply bool_decide_ext. rewrite !elem_of_cons. split; [|tauto].
    intros [[= Hs]|[[=]|?]]; [|done]. destruct k, k'; simplify_eq.
Qed.

Lemma has_kind_nonempty (k : kind) (segs : list segment) :
  has_kind k segs = true -> exists segs' sg, segs = segs' ++ [sg].
Proof.
  destruct segs as [|sg segs] using rev_ind; [done|]. eauto.
Qed.

Lemma last_flatten (segs : list segment) (sg : segment) :
  getitem_last (flatten (segs ++ [sg])) = Ok (IStr (text_of sg))
  /\ last_text (segs ++ [sg]) = text_of sg.
Proof.
  unfold getitem_last, last_text. rewrite flatten_app, last_snoc.
  unfold flatten at 2. simpl.
  change [IFormat (style (kind_of sg)); IStr (text_of sg)]
    with ([IFormat (style (kind_of sg))] ++ [IStr (text_of sg)]).
  by rewrite app_assoc, last_snoc.
Qed.

(** On the flat list of a segment sequence the chain of tests of
    [write_rich_table] behaves as [line_calls] says, and never fails. *)
Lemma write_line_calls (ws : xlsx.worksheet) (segs : list segment)
    (row col : nat) :
  BuildOutputWorker.write_line ws (flatten segs) ftbody fthighlight fterror
    row col
  = Ok (ws ++ line_calls segs row col).
Proof.
  unfold BuildOutputWorker.write_line, line_calls.
  rewrite (in_flatten LITERAL), (in_flatten FILLED), (in_flatten UNRESOLVED).
  destruct (has_kind LITERAL segs) eqn:HL, (has_kind FILLED segs) eqn:HF,
    (has_kind UNRESOLVED segs) eqn:HU; simpl; try done.
  - apply has_kind_nonempty in HL as (segs' & sg & ->).
    unfold BuildOutputWorker.last_string.
    destruct (last_flatten segs' sg) as [-> ->]. done.
  - apply has_kind_nonempty in HF as (segs' & sg & ->).
    unfold BuildOutputWorker.last_stripped.
    destruct (last_flatten segs' sg) as [-> ->]. done.
  - apply has_kind_nonempty in HF as (segs' & sg & ->).
    unfold BuildOutputWorker.last_stripped.
    destruct (last_flatten segs' sg) as [-> ->]. done.
  - apply has_kind_nonempty in HU as (segs' & sg & ->).
    unfold BuildOutputWorker.last_stripped.
    destruct (last_flatten segs' sg) as [-> ->]. done.
  - by rewrite app_nil_r.
Qed.

Lemma no_kind_nil (segs : list segment) :
  has_kind LITERAL segs = false -> has_kind FILLED segs = false ->
  has_kind UNRESOLVED segs = false -> segs = [].
Proof. destruct segs as [|[[] t] segs]; simpl; done. Qed.

(** C3, as stated, fails.  A line of one FILLED segment [" x"] is written as
    ["x"]: the text is trimmed at both ends, not only at the right.  A line
    of a FILLED and an UNRESOLVED segment and no LITERAL is none of the four
    cases of the claim, yet the last segment's text is written, in the
    highlight style. *)
Lemma write_line_not_as_stated :
  BuildOutputWorker.write_line []
    (flatten [{| kind_of := FILLED; text_of := " x" |}])
    ftbody fthighlight fterror 0 0
  <> Ok (spec_write_line [{| kind_of := FILLED; text_of := " x" |}] 0 0)
  /\ BuildOutputWorker.write_line []
       (flatten [{| kind_of := FILLED; text_of := "x" |};
                 {| kind_of := UNRESOLVED; text_of := "$B$" |}])
       ftbody fthighlight fterror 0 0
     <> Ok (spec_write_line [{| kind_of := FILLED; text_of := "x" |};
                             {| kind_of := UNRESOLVED; text_of := "$B$" |}]
                            0 0).
Proof. split; vm_compute; discriminate. Qed.

(** C3, amended.  For every rendered line the output writer applies exactly
    one of these cases, tested in this order: (1) a LITERAL segment and at
    least one FILLED or UNRESOLVED segment: all segments as one rich string,
    each in its own style; (2) no LITERAL and at least one FILLED segment:
    the last segment's text, trimmed at both ends, in the highlight style;
    (3) no LITERAL, no FILLED, at least one UNRESOLVED segment: the last
    segment's text, trimmed at both ends, in the error style; (4) LITERAL
    segments only: the last segment's text, untrimmed, in the body style;
    (5) the empty segment sequence, and only that: nothing is written. *)
Theorem write_line_cases (ws : xlsx.worksheet) (segs : list segment)
    (row col : nat) :
  let L := has_kind LITERAL segs in
  let F := has_kind FILLED segs in
  let U := has_kind UNRESOLVED segs in
  let written :=
    BuildOutputWorker.write_line ws (flatten segs) ftbody fthighlight fterror
      row col in
  (L && (F || U) = true ->
   written = Ok (ws ++ [xlsx.write_rich_string row col (flatten segs)]))
  /\ (negb L && F = true ->
      written = Ok (ws ++ [xlsx.write_string row col
                             (str.strip (last_text segs)) fthighlight]))
  /\ (negb L && negb F && U = true ->
      written = Ok (ws ++ [xlsx.write_string row col
                             (str.strip (last_text segs)) fterror]))
  /\ (L && negb F && negb U = true ->
      written = Ok (ws ++ [xlsx.write_string row col (last_text segs) ftbody]))
  /\ (negb L && negb F && negb U = true -> written = Ok ws)
  /\ (negb L && negb F && negb U = true <-> segs = [])
  /\ Nat.b2n (L && (F || U)) + Nat.b2n (negb L && F)
     + Nat.b2n (negb L && negb F && U) + Nat.b2n (L && negb F && negb U)
     + Nat.b2n (negb L && negb F && negb U) = 1.
Proof.
  intros L F U written. subst written. rewrite write_line_calls.
  unfold line_calls. fold L F U.
  assert (negb L && negb F && negb U = true <-> segs = []) as Hnil.
  { split.
    - subst L F U. intros H. apply no_kind_nil;
        destruct (has_kind LITERAL segs), (has_kind FILLED segs),
          (has_kind UNRESOLVED segs); done.
    - by intros ->. }
  split_and!; try done; destruct L, F, U; simpl; try done.
  by rewrite app_nil_r.
Qed.

(** ** Worksheets *)

Lemma table_snoc (ws : xlsx.worksheet) (c : xlsx.call) :
  xlsx.table (ws ++ [c])
  = match xlsx.position c with
    | Some p => <[p := c]> (xlsx.table ws)
    | None => xlsx.table ws
    end.
Proof. unfold xlsx.table. by rewrite foldl_app. Qed.

Lemma lookup_cells (ws : xlsx.worksheet) (p : nat * nat) :
  xlsx.cells ws !! p = xlsx.table ws !! p ≫= xlsx.content.
Proof. unfold xlsx.cells. apply lookup_omap. Qed.

(** The largest successor of [g p] over the keys of a map bounds every key
    and is the least such bound. *)
Lemma fold_max_spec {A} (g : nat * nat -> nat) (m : gmap (nat * nat) A) :
  (forall p x,
     m !! p = Some x -> g p < map_fold (fun p _ n => Nat.max (S (g p)) n) 0 m)
  /\ (forall N,
        (forall p x, m !! p = Some x -> g p < N) ->
        map_fold (fun p _ n => Nat.max (S (g p)) n) 0 m <= N).
Proof.
  apply (map_fold_weak_ind
           (fun n (m : gmap (nat * nat) A) =>
              (forall p x, m !! p = Some x -> g p < n)
              /\ (forall N, (forall p x, m !! p = Some x -> g p < N) -> n <= N))).
  - split; [intros p x Hp; by rewrite lookup_empty in Hp|intros; lia].
  - intros q y m' n Hq [IH1 IH2]. split.
    + intros p x Hp. destruct (decide (q = p)) as [->|Hne].
      * lia.
      * rewrite lookup_insert_ne in Hp by done. apply IH1 in Hp. lia.
    + intros N HN.
      assert (g q < N) by (apply (HN q y); by rewrite lookup_insert_eq).
      assert (n <= N); [|lia].
      apply IH2. intros p x Hp. apply (HN p x).
      rewrite lookup_insert_ne; [done|]. intros ->. congruence.
Qed.

(** A cell that holds a value lies inside the extent of its sheet. *)
Lemma cells_extent (ws : xlsx.worksheet) (row col : nat) (v : xlsx.value) :
  xlsx.cells ws !! (row, col) = Some v ->
  row < xlsx.nrows ws /\ col < xlsx.ncols ws.
Proof.
  intros Hv. split.
  - apply (proj1 (fold_max_spec fst (xlsx.cells ws)) (row, col) v Hv).
  - apply (proj1 (fold_max_spec snd (xlsx.cells ws)) (row, col) v Hv).
Qed.

(** The extent is no larger than the cells that hold a value need. *)
Lemma extent_bound (ws : xlsx.worksheet) (N K : nat) :
  (forall row col v,
     xlsx.cells ws !! (row, col) = Some v -> row < N /\ col < K) ->
  xlsx.nrows ws <= N /\ xlsx.ncols ws <= K.
Proof.
  intros Hall. split.
  - apply (proj2 (fold_max_spec fst (xlsx.cells ws))).
    intros [row col] v Hv. by apply (Hall row col v).
  - apply (proj2 (fold_max_spec snd (xlsx.cells ws))).
    intros [row col] v Hv. by apply (Hall row col v).
Qed.

Lemma cell_value_cells (ws : xlsx.worksheet) (row col : nat)
    (v : xlsx.value) :
  xlsx.cells ws !! (row, col) = Some v -> xlsx.cell_value ws row col = Ok v.
Proof.
  intros Hv. unfold xlsx.cell_value. rewrite Hv.
  apply cells_extent in Hv. by rewrite bool_decide_eq_true_2.
Qed.

Lemma cell_value_table (ws : xlsx.worksheet) (row col : nat) (c : xlsx.call)
    (v : xlsx.value) :
  xlsx.table ws !! (row, col) = Some c -> xlsx.content c = Some v ->
  xlsx.cell_value ws row col = Ok v.
Proof.
  intros Hc Hv. apply cell_value_cells. by rewrite lookup_cells, Hc.
Qed.

Lemma placeholder_nonempty (tok : string) : placeholder tok -> tok <> "".
Proof. by intros (c & w & -> & _). Qed.

(** ** The form (claim C7) *)

Lemma enumerate_snoc {A} (l : list A) (x : A) :
  enumerate (l ++ [x]) = enumerate l ++ [(length l, x)].
Proof.
  unfold enumerate. rewrite length_app. simpl.
  rewrite Nat.add_1_r, seq_S. simpl.
  rewrite zip_with_app by (by rewrite length_seq). done.
Qed.

Lemma write_vars_snoc (ws : xlsx.worksheet) (l : list string) (x : string) :
  FillValuesWorker.write_vars ws (l ++ [x])
  = FillValuesWorker.write_vars ws l ++ [xlsx.write (length l) 0 x ftbody].
Proof.
  unfold FillValuesWorker.write_vars. by rewrite enumerate_snoc, foldl_app.
Qed.

Lemma write_vars_table (ws : xlsx.worksheet) (l : list string) (i : nat)
    (tok : string) :
  l !! i = Some tok ->
  xlsx.table (FillValuesWorker.write_vars ws l) !! (i, 0)
  = Some (xlsx.write i 0 tok ftbody).
Proof.
  revert i tok. induction l as [|x l IH] using rev_ind; intros i tok Hi;
    [done|].
  rewrite write_vars_snoc, table_snoc. simpl.
  apply lookup_snoc_Some in Hi as [[Hlt Hi]|[-> ->]].
  - rewrite lookup_insert_ne by (intros [=]; lia). by apply IH.
  - by rewrite lookup_insert_eq.
Qed.

Lemma create_excel_form_eq (var_list : list string) (w : world) :
  FillValuesWorker.create_excel_form var_list w
  = let w1 := with_fs (<[tmpname w := TextFile ""]>) w in
    if bool_decide (tmpname w ∈ locked w) then (Raise FileCreateError, w1)
    else (Ok (tmpname w),
          with_fs (<[tmpname w :=
                       XlsxFile
                         [{| xlsx.name := "Variables";
                             xlsx.calls :=
                               FillValuesWorker.write_vars
                                 (FillValuesWorker.blank_grid []) var_list |}]
                     ]>) w1).
Proof.
  unfold FillValuesWorker.create_excel_form, mbind, io_bind, mret, io_ret,
    NamedTemporaryFile, workbook_close.
  cbn [locked with_fs tmpname]. by case_bool_decide.
Qed.

(** C7.  The generated form holds the Token Set in column 0: for every [i]
    below the length of the Token Set the cell at row [i], column 0 is the
    [i]-th token, and that token is what a reader of the form file finds
    there. *)
Theorem form_labels (w : world) (var_list : list string) :
  tmpname w ∉ locked w ->
  exists (form : xlsx.worksheet) (w' : world),
    FillValuesWorker.create_excel_form var_list w = (Ok (tmpname w), w')
    /\ XLR (tmpname w) w'
       = (Ok [{| xlsx.name := "Variables"; xlsx.calls := form |}], w')
    /\ forall i tok,
         var_list !! i = Some tok ->
         xlsx.table form !! (i, 0) = Some (xlsx.write i 0 tok ftbody)
         /\ (placeholder tok ->
             xlsx.cell_value form i 0 = Ok (xlsx.Text tok)).
Proof.
  intros Hfree. rewrite create_excel_form_eq. cbn zeta.
  rewrite bool_decide_eq_false_2 by done.
  eexists _, _. split_and!; [done| |].
  - unfold XLR. cbn [fs with_fs]. by rewrite lookup_insert_eq.
  - intros i tok Hi.
    pose proof (write_vars_table (FillValuesWorker.blank_grid []) _ _ _ Hi)
      as Ht.
    split; [done|]. intros Htok%placeholder_nonempty.
    apply (cell_value_table _ _ _ _ _ Ht). simpl.
    by rewrite bool_decide_eq_false_2.
Qed.

Lemma form_labels_witness :
  let w := {| fs := ∅; locked := ∅; tmpname := "form.xlsx";
              has_savings := false; log := [] |} in
  exists (form : xlsx.worksheet) (w' : world),
    FillValuesWorker.create_excel_form ["$A$"; "$B$"] w = (Ok "form.xlsx", w')
    /\ XLR "form.xlsx" w'
       = (Ok [{| xlsx.name := "Variables"; xlsx.calls := form |}], w')
    /\ forall i tok,
         ["$A$"; "$B$"] !! i = Some tok ->
         xlsx.table form !! (i, 0) = Some (xlsx.write i 0 tok ftbody)
         /\ (placeholder tok ->
             xlsx.cell_value form i 0 = Ok (xlsx.Text tok)).
Proof.
  intros w. apply (form_labels w ["$A$"; "$B$"]). simpl.
  apply not_elem_of_empty.
Defined.

(** ** The output sheet (claim C6) *)

(** The cell at [p] is the last call addressed to [p]. *)
Lemma table_last (ws : xlsx.worksheet) (p : nat * nat) :
  xlsx.table ws !! p = last (filter (fun x => xlsx.position x = Some p) ws).
Proof.
  induction ws as [|x ws IH] using rev_ind; [done|].
  rewrite table_snoc, filter_app, last_app, filter_cons, filter_nil.
  destruct (xlsx.position x) as [q|] eqn:Hx.
  - case_decide as Hq.
    + injection Hq as ->. by rewrite lookup_insert_eq.
    + rewrite lookup_insert_ne by congruence. done.
  - by rewrite decide_False.
Qed.



Lemma filter_none {A} (P : A -> Prop) `{forall x, Decision (P x)}
    (l : list A) :
  Forall (fun x => ~ P x) l -> filter P l = [].
Proof.
  induction 1 as [|x l Hx _ IH]; [done|].
  by rewrite filter_cons_False, IH.
Qed.







Lemma for_foldl {S X} (xs : list X) (body : S -> X -> result S)
    (f : S -> X -> S) (s : S) :
  (forall s x, x ∈ xs -> body s x = Ok (f s x)) ->
  for_ xs body s = Ok (foldl f s xs).
Proof.
  revert s. induction xs as [|x xs IH]; intros s Hbody; simpl; [done|].
  rewrite Hbody by (apply elem_of_cons; by left).
  cbn [mbind result_bind]. apply IH. intros s' y Hy.
  apply Hbody, elem_of_cons. by right.
Qed.

Lemma text_dict_insert (m : gmap string string) (k v : string) :
  text_dict (<[k := v]> m) = <[xlsx.Text k := xlsx.Text v]> (text_dict m).
Proof.
  unfold text_dict. rewrite fmap_insert. by rewrite kmap_insert; [|apply _].
Qed.

Lemma text_dict_inserts (f g : nat -> string) (rows : list nat)
    (m : gmap string string) :
  foldl (fun d row => <[xlsx.Text (f row) := xlsx.Text (g row)]> d)
        (text_dict m) rows
  = text_dict (foldl (fun d row => <[f row := g row]> d) m rows).
Proof.
  revert m. induction rows as [|row rows IH]; intros m; simpl; [done|].
  by rewrite <- text_dict_insert, IH.
Qed.

(** In a form whose cells hold text every cell inside the extent reads as a
    text. *)
Lemma text_form_cell (form : xlsx.worksheet) (p : nat * nat) :
  text_form form ->
  default (xlsx.Text "") (xlsx.cells form !! p) = xlsx.Text (cell_text form p).
Proof.
  intros Htext. unfold cell_text.
  destruct (xlsx.cells form !! p) as [[s|x]|] eqn:Hp; [done| |done].
  by apply Htext in Hp.
Qed.

(** For a form whose cells hold text, inside the extent the dict
    comprehension raises nothing and builds [mapping]. *)
Lemma repl_dict_mapping (form : list xlsx.call) (col_idx : nat) :
  text_form form -> col_idx < xlsx.ncols form ->
  BuildOutputWorker.repl_dict form col_idx
  = Ok (text_dict (mapping form col_idx)).
Proof.
  intros Htext Hcol. unfold BuildOutputWorker.repl_dict, mapping.
  rewrite <- (text_dict_inserts (fun row => cell_text form (row, 0))
                (fun row => cell_text form (row, col_idx))).
  unfold text_dict at 1. rewrite fmap_empty, kmap_empty.
  apply for_foldl. intros d row Hrow.
  apply elem_of_seq in Hrow as [_ Hrow]. simpl in Hrow.
  unfold xlsx.cell_value.
  rewrite !bool_decide_eq_true_2 by (split; lia).
  by rewrite !text_form_cell.
Qed.

Lemma write_rows (lines : list (list segment)) (ws : list xlsx.call)
    (row col : nat) :
  for_ (map flatten lines)
       (fun '(ws, row_index) cfg_line =>
          ws ← BuildOutputWorker.write_line ws cfg_line
                 ftbody fthighlight fterror row_index col;
          mret (ws, row_index + 1))
       (ws, row)
  = Ok (ws ++ rows_calls lines row col, row + length lines).
Proof.
  revert ws row. induction lines as [|segs lines IH]; intros ws row.
  - simpl. by rewrite app_nil_r, Nat.add_0_r.
  - cbn [map for_ rows_calls length]. rewrite write_line_calls.
    cbn [mbind result_bind mret result_ret]. rewrite IH.
    rewrite <- app_assoc, Nat.add_1_r. do 2 f_equal. lia.
Qed.

Lemma write_rich_table_calls (lines : list (list segment))
    (ws : list xlsx.call) (row col width : nat) :
  BuildOutputWorker.write_rich_table ws (map flatten lines)
    ftbody fthighlight fterror row col width
  = Ok (ws ++ xlsx.set_column col col width :: rows_calls lines row col).
Proof.
  unfold BuildOutputWorker.write_rich_table. rewrite write_rows.
  cbn [fmap result_fmap fst]. by rewrite <- app_assoc.
Qed.

Section columns.

Variables (template : string) (form : list xlsx.call).

Hypothesis Htext : text_form form.

(** The rendered lines of instance column [col_idx] of the form. *)
Let rendered (col_idx : nat) : list (list segment) :=
  map (render_line (mapping form col_idx)) (str.splitlines template).

Lemma build_column_calls (ws : list xlsx.call) (col_idx : nat) (w : world) :
  col_idx < xlsx.ncols form ->
  exists w',
    BuildOutputWorker.build_column template form ws col_idx w
    = (Ok (ws ++ column_calls (rendered col_idx) (col_idx - 1)), w')
    /\ fs w' = fs w /\ locked w' = locked w.
Proof.
  intros Hcol. unfold BuildOutputWorker.build_column, mbind, io_bind, lift.
  rewrite repl_dict_mapping by done. cbv beta iota.
  fold (render template (mapping form col_idx)). rewrite render_lines.
  cbv beta iota.
  rewrite app_nil_l, <- (map_map (render_line _) flatten).
  rewrite write_rich_table_calls. cbv beta iota.
  unfold logging.savings_if_present, mret, io_ret.
  eexists. split; [reflexivity|]. by destruct (has_savings w).
Qed.

Lemma build_columns_calls (cols : list nat) (ws : list xlsx.call)
    (w : world) :
  Forall (fun c => c < xlsx.ncols form) cols ->
  exists w',
    io_for cols (BuildOutputWorker.build_column template form) ws w
    = (Ok (ws ++ flat_map (fun c => column_calls (rendered c) (c - 1)) cols),
       w')
    /\ fs w' = fs w /\ locked w' = locked w.
Proof.
  revert ws w. induction cols as [|c cols IH]; intros ws w Hcols.
  - exists w. simpl. by rewrite app_nil_r.
  - inversion Hcols as [|? ? Hc Hrest]; subst.
    destruct (build_column_calls ws c w Hc) as (w1 & Hcol & Hfs1 & Hl1).
    destruct (IH (ws ++ column_calls (rendered c) (c - 1)) w1 Hrest)
      as (w2 & Hloop & Hfs2 & Hl2).
    exists w2. cbn [io_for flat_map]. unfold mbind, io_bind.
    rewrite Hcol, Hloop.
    rewrite <- app_assoc. split_and!; congruence.
Qed.

Lemma flat_map_seq_S {A} (f : nat -> list A) (a n : nat) :
  flat_map f (seq (S a) n) = flat_map (fun c => f (S c)) (seq a n).
Proof.
  revert a. induction n as [|n IH]; intros a; simpl; [done|].
  by rewrite IH.
Qed.


End columns.




(** ** Removing the consumed form (claim C9) *)

Lemma remove_form_outcome (variable_file_path : string) (w : world) :
  exists w',
    BuildOutputWorker.remove_form variable_file_path w = (Ok tt, w')
    /\ locked w' = locked w
    /\ (fs w !! variable_file_path = None ->
        fs w' = fs w /\ log w' = log w ++ [error FileNotFoundError])
    /\ (fs w !! variable_file_path <> None ->
        variable_file_path ∈ locked w ->
        fs w' = fs w /\ log w' = log w ++ [error PermissionError])
    /\ (fs w !! variable_file_path <> None ->
        variable_file_path ∉ locked w ->
        fs w' = delete variable_file_path (fs w)
        /\ log w'
           = log w ++ [info "Variable form removed successfully"]).
Proof.
  unfold BuildOutputWorker.remove_form, try_except, mbind, io_bind,
    os.remove, logging.info, logging.error.
  destruct (fs w !! variable_file_path) as [f|] eqn:Hf.
  - case_bool_decide as Hl; eexists; (split; [reflexivity|]);
      cbn [fs locked log with_fs with_log]; split_and!; done.
  - eexists; (split; [reflexivity|]);
      cbn [fs locked log with_fs with_log]; split_and!; done.
Qed.

(** C9.  After a render-and-write pass that succeeded, [run] tries to delete
    the consumed form.  Whatever the deletion does, [run] returns normally.
    If the deletion fails, the exception is logged and goes no further, and
    the file system is left as the pass left it, the written output
    included; the run then logs its completion. *)
Theorem remove_form_suppressed
    (template variable_file_path output_report : string) (w : world) :
  variable_file_path <> "" ->
  (BuildOutputWorker.build_output template variable_file_path output_report
     w).1 = Ok tt ->
  let w1 :=
    (BuildOutputWorker.build_output template variable_file_path output_report
       w).2 in
  exists w2,
    BuildOutputWorker.run template variable_file_path output_report w
    = (Ok tt, w2)
    /\ ((BuildOutputWorker.remove_form variable_file_path w1).1 = Ok tt)
    /\ (forall e,
          (os.remove variable_file_path w1).1 = Raise e ->
          fs w2 = fs w1
          /\ fs w2 !! output_report = fs w1 !! output_report
          /\ log w2 = log w1 ++ [error e; info "Variables Replaced!"])
    /\ ((os.remove variable_file_path w1).1 = Ok tt ->
        fs w2 = delete variable_file_path (fs w1)
        /\ (output_report <> variable_file_path ->
            fs w2 !! output_report = fs w1 !! output_report)
        /\ log w2
           = log w1 ++ [info "Variable form removed successfully";
                        info "Variables Replaced!"]).
Proof.
  intros Hpath Hpass w1.
  destruct (remove_form_outcome variable_file_path w1)
    as (w' & Hrm & Hl & Hmissing & Hlocked & Hremoved).
  unfold BuildOutputWorker.run. rewrite bool_decide_eq_false_2 by done.
  unfold mbind, io_bind.
  destruct (BuildOutputWorker.build_output template variable_file_path
              output_report w) as [r w1'] eqn:Hb.
  simpl in Hpass. subst r. subst w1. simpl in *. rewrite Hrm.
  unfold logging.info. eexists. split; [reflexivity|].
  cbn [fs log with_log]. split; [done|].
  unfold os.remove.
  destruct (fs w1' !! variable_file_path) as [f|] eqn:Hf.
  - case_bool_decide as Hlk; simpl.
    + destruct Hlocked as [Hfs Hlog]; [done..|]. split.
      * intros e [= <-]. rewrite Hfs, Hlog, <- app_assoc. done.
      * done.
    + destruct Hremoved as [Hfs Hlog]; [done..|]. split; [done|].
      intros _. rewrite Hfs, Hlog, <- app_assoc. split_and!; [done| |done].
      intros Hne. by rewrite lookup_delete_ne.
  - simpl. destruct Hmissing as [Hfs Hlog]; [done|]. split.
    + intros e [= <-]. rewrite Hfs, Hlog, <- app_assoc. done.
    + done.
Qed.

Lemma remove_form_suppressed_witness :
  let form := [xlsx.write 0 0 "$A$" ftbody; xlsx.write 0 1 "x" ftbody] in
  let w := {| fs := {[ "form.xlsx" :=
                         XlsxFile [{| xlsx.name := "Variables";
                                      xlsx.calls := form |}] ]};
              locked := {[ "form.xlsx" ]}; tmpname := "tmp.xlsx";
              has_savings := false; log := [] |} in
  exists w2,
    BuildOutputWorker.run "a $A$" "form.xlsx" "out.xlsx" w = (Ok tt, w2)
    /\ log w2 = [info "Building output"; error PermissionError;
                 info "Variables Replaced!"]
    /\ fs w2 !! "out.xlsx"
       = Some (XlsxFile
                 [{| xlsx.name := "Output";
                     xlsx.calls :=
                       [xlsx.set_column 0 0 95;
                        xlsx.write_rich_string 0 0
                          [IFormat ftbody; IStr "a "; IFormat fthighlight;
                           IStr "x"]] |}]).
Proof.
  intros form w.
  destruct (remove_form_suppressed "a $A$" "form.xlsx" "out.xlsx" w)
    as (w2 & Hrun & _ & Hfail & _).
  - discriminate.
  - vm_compute. reflexivity.
  - exists w2. split; [done|].
    destruct (Hfail PermissionError) as (Hfs & _ & Hlog).
    + vm_compute. reflexivity.
    + rewrite Hlog, Hfs. split; vm_compute; reflexivity.
Defined.

(** ** Further properties of the renderer *)

Lemma Forall2_map_r {A B} (P : A -> B -> Prop) (g : A -> B) (l : list A) :
  (forall x, x ∈ l -> P x (g x)) -> Forall2 P l (map g l).
Proof.
  induction l as [|x l IH]; intros HP; simpl; constructor.
  - apply HP, elem_of_cons. by left.
  - apply IH. intros y Hy. apply HP, elem_of_cons. by right.
Qed.

Lemma placeholder_not_blank (tok : string) :
  placeholder tok -> blank tok = false.
Proof. by intros (c & w & -> & _). Qed.

Lemma resolve_value (m : gmap string string) (t : string) :
  resolve m t
  = if blank (value m t) then {| kind_of := UNRESOLVED; text_of := t |}
    else {| kind_of := FILLED; text_of := value m t |}.
Proof. unfold resolve, value. by destruct (m !! t). Qed.

Lemma emit_nonblank (m : gmap string string)
    (pairs : list (string * string)) (tr : string) :
  Forall placeholder (map snd pairs) ->
  Forall (fun sg => blank (text_of sg) = false) (emit m pairs tr).
Proof.
  assert (forall l, Forall (fun sg => blank (text_of sg) = false) (literal l))
    as Hlit.
  { intros l. unfold literal. destruct (blank l) eqn:Hl; by repeat constructor. }
  induction pairs as [|[l t] pairs IH]; simpl; intros Hall; [apply Hlit|].
  inversion Hall as [|? ? Ht Hrest]; subst.
  apply Forall_app. split; [apply Hlit|]. constructor; [|by apply IH].
  rewrite resolve_value. destruct (blank (value m t)) eqn:Hv; simpl.
  - by apply placeholder_not_blank.
  - done.
Qed.

(** X1.  The renderer returns one line per line of the template; every
    line it returns is a flat list of format/text pairs, and no text in it
    is blank (so none is empty). *)
Theorem render_well_formed (T : string) (m : gmap string string) :
  exists lines,
    render T m = Ok lines
    /\ length lines = length (str.splitlines T)
    /\ Forall (fun cfg_line =>
                 cfg_line = flatten (segments cfg_line)
                 /\ Forall (fun sg => blank (text_of sg) = false)
                           (segments cfg_line))
              lines.
Proof.
  eexists. split; [apply render_lines|]. split; [by rewrite length_map|].
  apply Forall_forall. intros cfg_line Hin.
  apply list_elem_of_In, in_map_iff in Hin as (line & <- & _).
  rewrite segments_flatten. split; [done|].
  apply emit_nonblank. rewrite decompose_snd. apply findall_placeholder.
Qed.

Lemma emit_tokens (m : gmap string string) (pairs : list (string * string))
    (tr : string) :
  length (filter (fun sg => kind_of sg <> LITERAL) (emit m pairs tr))
  = length pairs.
Proof.
  assert (forall l, filter (fun sg => kind_of sg <> LITERAL) (literal l) = [])
    as Hlit.
  { intros l. unfold literal. destruct (blank l); [done|].
    by rewrite filter_cons_False by (simpl; auto). }
  induction pairs as [|[l t] pairs IH]; simpl.
  - by rewrite Hlit.
  - rewrite filter_app, Hlit, app_nil_l.
    rewrite filter_cons_True.
    + simpl. by rewrite IH.
    + rewrite resolve_value. by destruct (blank (value m t)).
Qed.

(** X2.  On every rendered line the FILLED and UNRESOLVED segments are as
    many as the placeholder matches of the template line: no token is lost
    and none is invented. *)
Theorem render_token_count (T : string) (m : gmap string string) :
  exists lines,
    render T m = Ok lines
    /\ Forall2 (fun line cfg_line =>
                  length (filter (fun sg => kind_of sg <> LITERAL)
                                 (segments cfg_line))
                  = length (re.findall line))
               (str.splitlines T) lines.
Proof.
  eexists. split; [apply render_lines|].
  apply Forall2_map_r. intros line _.
  rewrite segments_flatten. unfold render_line.
  by rewrite emit_tokens, <- (decompose_snd line), length_map.
Qed.

Lemma emit_agree (m1 m2 : gmap string string)
    (pairs : list (string * string)) (tr : string) :
  Forall (fun t => value m1 t = value m2 t) (map snd pairs) ->
  emit m1 pairs tr = emit m2 pairs tr.
Proof.
  induction pairs as [|[l t] pairs IH]; simpl; intros Hall; [done|].
  inversion Hall as [|? ? Ht Hrest]; subst.
  by rewrite IH, !resolve_value, Ht.
Qed.

(** X3.  The renderer consults the mapping only at the tokens of the
    template, and only through [repl.get(tok, '')]: two mappings that give
    the tokens of the Token Set the same values render the template alike,
    whatever else they hold. *)
Theorem render_agree (T : string) (m1 m2 : gmap string string) :
  (forall t, t ∈ tokens T -> value m1 t = value m2 t) ->
  render T m1 = render T m2.
Proof.
  intros Hagree. rewrite !render_lines. f_equal.
  apply map_ext_in. intros line Hline%list_elem_of_In.
  unfold render_line. f_equal. apply emit_agree.
  rewrite decompose_snd. apply Forall_forall. intros t Ht.
  apply Hagree. by apply (line_token T line).
Qed.

Lemma render_agree_witness :
  render "a $A$" (<["$A$" := "x"]> (<["$Z$" := "unused"]> ∅))
  = render "a $A$" {[ "$A$" := "x" ]}.
Proof.
  apply render_agree. intros t Ht. vm_compute in Ht.
  apply list_elem_of_singleton in Ht as ->. reflexivity.
Defined.

Lemma no_kind_flatten (k : kind) (segs : list segment) :
  Forall (fun sg => kind_of sg <> k) segs -> IFormat (style k) ∉ flatten segs.
Proof.
  intros Hall Hin. apply (bool_decide_eq_true_2 _) in Hin.
  rewrite in_flatten in Hin. unfold has_kind in Hin.
  apply existsb_exists in Hin as (sg & Hsg%list_elem_of_In & Hk).
  apply bool_decide_eq_true_1 in Hk.
  by apply (proj1 (Forall_forall _ _) Hall sg).
Qed.

Lemma emit_unfilled (m : gmap string string)
    (pairs : list (string * string)) (tr : string) :
  Forall (fun t => blank (value m t) = true) (map snd pairs) ->
  Forall (fun sg => kind_of sg <> FILLED) (emit m pairs tr)
  /\ str.join (map text_of (emit m pairs tr))
     = weave (map (fun p => (unblank p.1, p.2)) pairs) (unblank tr).
Proof.
  intros Hall. rewrite join_emit. split.
  - induction pairs as [|[l t] pairs IH]; simpl.
    + unfold literal. destruct (blank tr); by repeat constructor.
    + inversion Hall as [|? ? Ht Hrest]; subst. apply Forall_app. split.
      * unfold literal. destruct (blank l); by repeat constructor.
      * constructor; [|by apply IH]. by rewrite resolve_value, Ht.
  - f_equal. induction pairs as [|[l t] pairs IH]; simpl; [done|].
    inversion Hall as [|? ? Ht Hrest]; subst.
    by rewrite IH, resolve_value, Ht.
Qed.

Lemma weave_unblank (line : string) :
  Forall (fun frag => frag = "" \/ blank frag = false) (re.split line) ->
  weave (map (fun p => (unblank p.1, p.2)) (decompose line))
        (unblank (trailing line))
  = line.
Proof.
  destruct (split_decompose line) as (Hs & _ & Hw). rewrite Hs.
  intros [Hfrags Htr]%Forall_app.
  assert (forall frag, frag = "" \/ blank frag = false -> unblank frag = frag)
    as Hun.
  { intros frag [->|Hb]; unfold unblank; [done|by rewrite Hb]. }
  rewrite Hun by (by inversion Htr).
  rewrite <- decompose_fst in Hfrags.
  assert (map (fun p : string * string => (unblank p.1, p.2)) (decompose line)
          = decompose line) as ->; [|done].
  clear Hw Hs. induction (decompose line) as [|[l t] pairs IH]; [done|].
  simpl in *. inversion Hfrags; subst. rewrite Hun, IH; done.
Qed.

(** Rendering when no token has a non-blank value. *)
Lemma render_unfilled_lines (T : string) (m : gmap string string) :
  (forall t, t ∈ tokens T -> blank (value m t) = true) ->
  exists lines,
    render T m = Ok lines
    /\ Forall2 (fun line cfg_line =>
                  (IFormat fthighlight ∉ cfg_line)
                  /\ texts cfg_line
                     = weave (map (fun p => (unblank p.1, p.2))
                                  (decompose line))
                             (unblank (trailing line))
                  /\ (Forall (fun frag => frag = "" \/ blank frag = false)
                             (re.split line) ->
                      texts cfg_line = line))
               (str.splitlines T) lines.
Proof.
  intros Hblank. eexists. split; [apply render_lines|].
  apply Forall2_map_r. intros line Hline.
  assert (Forall (fun t => blank (value m t) = true)
                 (map snd (decompose line))) as Htoks.
  { rewrite decompose_snd. apply Forall_forall. intros t Ht.
    apply Hblank. by apply (line_token T line). }
  destruct (emit_unfilled m (decompose line) (trailing line) Htoks)
    as [Hkinds Htexts].
  unfold texts. rewrite segments_flatten. split_and!.
  - by apply (no_kind_flatten FILLED).
  - done.
  - intros Hfrags. unfold render_line. by rewrite Htexts, weave_unblank.
Qed.

(** X4.  If no token of the Token Set has a non-blank value (missing keys
    and blank values alike), no line gets a FILLED segment and every token
    stays in the output as its own text: the texts of a line concatenate to
    the line with its blank literal fragments removed, and to the line
    itself where it has no such fragment. *)
Theorem render_unfilled (T : string) (m : gmap string string) :
  (forall t, t ∈ tokens T -> blank (value m t) = true) ->
  exists lines,
    render T m = Ok lines
    /\ Forall2 (fun line cfg_line =>
                  (IFormat fthighlight ∉ cfg_line)
                  /\ texts cfg_line
                     = weave (map (fun p => (unblank p.1, p.2))
                                  (decompose line))
                             (unblank (trailing line))
                  /\ (Forall (fun frag => frag = "" \/ blank frag = false)
                             (re.split line) ->
                      texts cfg_line = line))
               (str.splitlines T) lines.
Proof. intros. by apply render_unfilled_lines. Qed.

Lemma render_unfilled_witness :
  exists lines,
    render "port=$PORT$" {[ "$PORT$" := " " ]} = Ok lines
    /\ Forall2 (fun line cfg_line =>
                  (IFormat fthighlight ∉ cfg_line)
                  /\ texts cfg_line
                     = weave (map (fun p => (unblank p.1, p.2))
                                  (decompose line))
                             (unblank (trailing line))
                  /\ (Forall (fun frag => frag = "" \/ blank frag = false)
                             (re.split line) ->
                      texts cfg_line = line))
               (str.splitlines "port=$PORT$") lines.
Proof.
  apply (render_unfilled "port=$PORT$" {[ "$PORT$" := " " ]}).
  intros t Ht. vm_compute in Ht. apply list_elem_of_singleton in Ht as ->.
  reflexivity.
Defined.

(** X5.  A line without a placeholder match is rendered as one LITERAL
    segment holding the whole line, or as no segment at all if the line is
    blank, whatever the dict holds. *)
Theorem render_plain_line (line : string) (d : BuildOutputWorker.dict) :
  re.findall line = [] ->
  BuildOutputWorker.sub_line d ftbody fthighlight fterror line
  = Ok (if blank line then [] else [IFormat ftbody; IStr line]).
Proof.
  intros Hnone. rewrite (sub_line_agree d (text_dict ∅)).
  2:{ rewrite Hnone. by intros t Ht%elem_of_nil. }
  rewrite sub_line_emit. f_equal.
  destruct (split_decompose line) as (Hs & Hlen & Hw).
  unfold render_line. unfold decompose in *. rewrite Hnone in *.
  destruct (fragments line); [|done]. simpl in *. rewrite Hw.
  apply flatten_literal.
Qed.

Lemma render_plain_line_witness :
  BuildOutputWorker.sub_line ∅ ftbody fthighlight fterror
    "plain text, no vars"
  = Ok [IFormat ftbody; IStr "plain text, no vars"].
Proof. apply (render_plain_line "plain text, no vars" ∅). reflexivity. Defined.

(** ** Further properties of the scan *)

Lemma elem_of_concat_map_inv (f : string -> list string) (ls : list string)
    (t : string) :
  t ∈ concat (map f ls) -> exists line, line ∈ ls /\ t ∈ f line.
Proof.
  induction ls as [|x ls IH]; simpl; intros Ht; [by apply elem_of_nil in Ht|].
  apply elem_of_app in Ht as [Ht|Ht].
  - exists x. split; [apply elem_of_cons; by left|done].
  - destruct (IH Ht) as (line & Hl & Hin). exists line.
    split; [apply elem_of_cons; by right|done].
Qed.

(** X6.  The scanner, which matches over the whole text, and the renderer,
    which matches line by line, see the same tokens: a token is in the Token
    Set exactly if it is a match on some line of the template.  No match
    spans a line boundary. *)
Theorem tokens_cover_lines (T t : string) :
  concat (map re.findall (str.splitlines T)) = re.findall T
  /\ (t ∈ tokens T
      <-> exists line, line ∈ str.splitlines T /\ t ∈ re.findall line).
Proof.
  split; [apply findall_splitlines|]. split.
  - intros Ht. apply (proj1 (unique_vars_elem _ _)) in Ht.
    rewrite <- findall_splitlines in Ht.
    by apply elem_of_concat_map_inv in Ht.
  - intros (line & Hl & Ht). by apply (line_token T line).
Qed.

Lemma unique_vars_NoDup_id (l : list string) :
  NoDup l -> FillValuesWorker.unique_vars l = l.
Proof.
  induction l as [|x l IH] using rev_ind; intros Hnd; [done|].
  apply NoDup_app in Hnd as (Hl & Hx & _).
  rewrite unique_vars_snoc, IH by done.
  rewrite bool_decide_eq_false_2; [done|].
  intros Hin. apply (Hx x Hin). apply list_elem_of_singleton. done.
Qed.

Lemma unique_vars_length (l : list string) :
  length (FillValuesWorker.unique_vars l) <= length l.
Proof.
  induction l as [|x l IH] using rev_ind; [done|].
  rewrite unique_vars_snoc, length_app. simpl.
  case_bool_decide; [lia|]. rewrite length_app. simpl. lia.
Qed.

(** X7.  The loop that collects the Token Set never returns more entries
    than there are matches, leaves a list without duplicates as it is, and
    so changes nothing when applied to its own result. *)
Theorem unique_vars_idempotent (found : list string) :
  length (FillValuesWorker.unique_vars found) <= length found
  /\ (NoDup found -> FillValuesWorker.unique_vars found = found)
  /\ FillValuesWorker.unique_vars (FillValuesWorker.unique_vars found)
     = FillValuesWorker.unique_vars found.
Proof.
  split_and!.
  - apply unique_vars_length.
  - apply unique_vars_NoDup_id.
  - apply unique_vars_NoDup_id, unique_vars_NoDup.
Qed.

(** ** Further properties of the form *)

(** A cell of the table was written by one of the calls addressed to it. *)
Lemma table_elem (ws : list xlsx.call) (p : nat * nat) (x : xlsx.call) :
  xlsx.table ws !! p = Some x -> x ∈ ws /\ xlsx.position x = Some p.
Proof.
  rewrite table_last. intros Hlast.
  by apply last_Some_elem_of, list_elem_of_filter in Hlast as [? ?].
Qed.

(** A cell some call is addressed to is in the table. *)
Lemma table_written (ws : list xlsx.call) (p : nat * nat) (x : xlsx.call) :
  x ∈ ws -> xlsx.position x = Some p -> is_Some (xlsx.table ws !! p).
Proof.
  intros Hx Hp. rewrite table_last.
  destruct (last (filter _ ws)) as [y|] eqn:Hlast; [by exists y|].
  apply last_None in Hlast.
  assert (x ∈ filter (fun x => xlsx.position x = Some p) ws) as Hin
    by (by apply list_elem_of_filter).
  rewrite Hlast in Hin. by apply elem_of_nil in Hin.
Qed.

Lemma grid_calls (rows cols : list nat) (ws : list xlsx.call) :
  foldl (fun ws row_idx =>
           foldl (fun ws col_idx => ws ++ [xlsx.write row_idx col_idx "" ftbody])
                 ws cols)
        ws rows
  = ws ++ flat_map (fun row_idx =>
                      map (fun col_idx => xlsx.write row_idx col_idx "" ftbody)
                          cols)
                   rows.
Proof.
  revert ws. induction rows as [|r rows IH]; intros ws; simpl.
  - by rewrite app_nil_r.
  - rewrite IH, app_assoc. f_equal.
    clear IH. revert ws. induction cols as [|c cols IHc]; intros ws; simpl.
    + by rewrite app_nil_r.
    + rewrite IHc, <- app_assoc. done.
Qed.

Lemma blank_grid_elem (x : xlsx.call) :
  x ∈ FillValuesWorker.blank_grid []
  <-> exists row col, row < 500 /\ col < 50 /\ x = xlsx.write row col "" ftbody.
Proof.
  unfold FillValuesWorker.blank_grid. rewrite grid_calls, app_nil_l.
  rewrite list_elem_of_In, in_flat_map. split.
  - intros (row & Hrow%in_seq & Hx%in_map_iff).
    destruct Hx as (col & <- & Hcol%in_seq). exists row, col.
    split_and!; [lia..|done].
  - intros (row & col & Hrow & Hcol & ->). exists row.
    split; [apply in_seq; lia|]. apply in_map_iff. exists col.
    split; [done|apply in_seq; lia].
Qed.

Lemma write_vars_calls (ws : list xlsx.call) (l : list string) :
  FillValuesWorker.write_vars ws l
  = ws ++ map (fun p => xlsx.write p.1 0 p.2 ftbody) (enumerate l).
Proof.
  unfold FillValuesWorker.write_vars.
  generalize (enumerate l). intros ps. revert ws.
  induction ps as [|[i v] ps IH]; intros ws; simpl.
  - by rewrite app_nil_r.
  - rewrite IH, <- app_assoc. done.
Qed.

Lemma enumerate_elem {A} (l : list A) (i : nat) (x : A) :
  (i, x) ∈ enumerate l <-> l !! i = Some x.
Proof.
  induction l as [|y l IH] using rev_ind.
  - split; [by intros ?%elem_of_nil|done].
  - rewrite enumerate_snoc, elem_of_app, IH, list_elem_of_singleton.
    rewrite lookup_snoc_Some. split.
    + intros [Hi|[= -> ->]]; [|by right].
      left. split; [by apply lookup_lt_Some in Hi|done].
    + intros [[_ Hi]|[-> ->]]; [by left|by right].
Qed.

(** The calls that make a fresh form: the blank cells of the grid and one
    label per token. *)
Lemma form_elem (var_list : list string) (x : xlsx.call) :
  x ∈ FillValuesWorker.write_vars (FillValuesWorker.blank_grid []) var_list
  <-> (exists row col,
         row < 500 /\ col < 50 /\ x = xlsx.write row col "" ftbody)
      \/ exists i tok,
           var_list !! i = Some tok /\ x = xlsx.write i 0 tok ftbody.
Proof.
  rewrite write_vars_calls, elem_of_app, blank_grid_elem.
  apply or_iff_compat_l. rewrite list_elem_of_In, in_map_iff. split.
  - intros ([i tok] & <- & Hin%list_elem_of_In%enumerate_elem). by exists i, tok.
  - intros (i & tok & Hi & ->). exists (i, tok).
    split; [done|]. by apply list_elem_of_In, enumerate_elem.
Qed.

Lemma placeholders_nonempty (var_list : list string) :
  Forall placeholder var_list -> "" ∉ var_list.
Proof.
  intros Hall Hin. rewrite Forall_forall in Hall.
  by apply Hall, placeholder_nonempty in Hin.
Qed.

(** The cells of a fresh form that hold a value: the labels, and nothing
    else. *)
Lemma fresh_form_cells (var_list : list string) (row col : nat) :
  "" ∉ var_list ->
  xlsx.cells (FillValuesWorker.write_vars (FillValuesWorker.blank_grid [])
                var_list) !! (row, col)
  = if decide (col = 0) then xlsx.Text <$> var_list !! row else None.
Proof.
  intros Hne. rewrite lookup_cells.
  destruct (decide (col = 0 /\ is_Some (var_list !! row)))
    as [[-> [tok Htok]]|Hother].
  - rewrite (write_vars_table _ _ _ _ Htok), Htok. simpl.
    rewrite bool_decide_eq_false_2; [done|].
    intros ->. apply Hne. by eapply list_elem_of_lookup_2.
  - assert ((if decide (col = 0) then xlsx.Text <$> var_list !! row else None)
            = None) as ->.
    { case_decide as Hcol; [|done]. destruct (var_list !! row) eqn:E; [|done].
      destruct Hother. by split. }
    destruct (xlsx.table _ !! (row, col)) as [x|] eqn:Hx; [|done].
    apply table_elem in Hx as [Hx Hpos].
    apply form_elem in Hx as [(r & c & ? & ? & ->)|(i & tok & Hi & ->)];
      [done|].
    injection Hpos as <- <-. destruct Hother. split; [done|by exists tok].
Qed.

(** What a reader makes of a fresh form: one row per token, the label column
    and no other, and no number. *)
Lemma fresh_form_extent (var_list : list string) :
  "" ∉ var_list ->
  let form :=
    FillValuesWorker.write_vars (FillValuesWorker.blank_grid []) var_list in
  xlsx.nrows form = length var_list
  /\ xlsx.ncols form = Nat.min 1 (length var_list)
  /\ text_form form.
Proof.
  intros Hne form.
  assert (forall row col,
            xlsx.cells form !! (row, col)
            = if decide (col = 0) then xlsx.Text <$> var_list !! row
              else None)
    as Hcells by (intros; by apply fresh_form_cells).
  clearbody form.
  assert (xlsx.nrows form <= length var_list
          /\ xlsx.ncols form <= Nat.min 1 (length var_list)) as [Hr Hc].
  { apply extent_bound. intros row col v. rewrite Hcells.
    case_decide as Hcol; [|done]. subst col.
    destruct (var_list !! row) as [tok|] eqn:Hrow; [|done].
    apply lookup_lt_Some in Hrow. intros _. lia. }
  assert (length var_list <= xlsx.nrows form
          /\ Nat.min 1 (length var_list) <= xlsx.ncols form) as [Hr1 Hc1].
  { destruct (decide (length var_list = 0)) as [->|Hlen]; [simpl; lia|].
    destruct (lookup_lt_is_Some_2 var_list (length var_list - 1))
      as [tok Htok]; [lia|].
    destruct (cells_extent form (length var_list - 1) 0 (xlsx.Text tok))
      as [? ?]; [|lia].
    by rewrite Hcells, decide_True, Htok by done. }
  split_and!; [lia..|].
  intros [row col] v. rewrite Hcells. case_decide; [|done].
  by destruct (var_list !! row); intros [= <-].
Qed.

Lemma fresh_form_outside (var_list : list string) (row col : nat) :
  "" ∉ var_list ->
  1 <= col \/ length var_list <= row ->
  xlsx.cell_value (FillValuesWorker.write_vars (FillValuesWorker.blank_grid [])
                     var_list) row col
  = Raise IndexError.
Proof.
  intros Hne Hout.
  destruct (fresh_form_extent var_list Hne) as (Hrows & Hcols & _).
  cbn zeta in Hrows, Hcols. unfold xlsx.cell_value.
  rewrite bool_decide_eq_false_2; [done|]. rewrite Hrows, Hcols. lia.
Qed.

(** X8.  What is written and what is read.  The form of a Token Set carries
    a call for every cell of the grid of 500 rows and 50 columns, but the
    cells of the grid hold no value, and the reader leaves them out: it
    finds as many rows as there are tokens and the label column alone, no
    number anywhere, and [cell_value] raises [IndexError] for every instance
    column and for every row below the last token. *)
Theorem fresh_form_blank (var_list : list string) :
  Forall placeholder var_list ->
  let form :=
    FillValuesWorker.write_vars (FillValuesWorker.blank_grid []) var_list in
  (forall row col,
     row < 500 -> col < 50 -> is_Some (xlsx.table form !! (row, col)))
  /\ xlsx.nrows form = length var_list
  /\ xlsx.ncols form = Nat.min 1 (length var_list)
  /\ text_form form
  /\ (forall row col,
        1 <= col -> xlsx.cell_value form row col = Raise IndexError)
  /\ (forall row,
        length var_list <= row ->
        xlsx.cell_value form row 0 = Raise IndexError).
Proof.
  intros Hne%placeholders_nonempty form.
  destruct (fresh_form_extent var_list Hne) as (Hrows & Hcols & Htext).
  split_and!; [|done..| |].
  - intros row col Hrow Hcol.
    apply (table_written _ _ (xlsx.write row col "" ftbody)); [|done].
    apply form_elem. left. by exists row, col.
  - intros row col Hcol. apply fresh_form_outside; [done|by left].
  - intros row Hrow. apply fresh_form_outside; [done|by right].
Qed.

Lemma fresh_form_blank_witness :
  let form :=
    FillValuesWorker.write_vars (FillValuesWorker.blank_grid [])
      ["$A$"; "$B$"] in
  (forall row col,
     row < 500 -> col < 50 -> is_Some (xlsx.table form !! (row, col)))
  /\ xlsx.nrows form = 2
  /\ xlsx.ncols form = 1
  /\ text_form form
  /\ (forall row col,
        1 <= col -> xlsx.cell_value form row col = Raise IndexError)
  /\ (forall row, 2 <= row -> xlsx.cell_value form row 0 = Raise IndexError).
Proof.
  apply (fresh_form_blank ["$A$"; "$B$"]).
  repeat constructor.
  - exists "A"%char, "". split; reflexivity.
  - exists "B"%char, "". split; reflexivity.
Defined.

(** ** Further properties of the replacement mapping *)

Lemma inserts_lookup {K V} `{Countable K} (f : nat -> K) (g : nat -> V)
    (n : nat) (k : K) (v : V) :
  foldl (fun d row => <[f row := g row]> d) (∅ : gmap K V) (seq 0 n)
    !! k = Some v
  <-> exists row,
        row < n /\ f row = k /\ g row = v
        /\ forall row', row < row' < n -> f row' <> k.
Proof.
  revert v. induction n as [|n IH]; intros v.
  - simpl. rewrite lookup_empty. split; [done|]. intros (row & ? & _). lia.
  - rewrite seq_S, foldl_app. simpl.
    destruct (decide (f n = k)) as [Hk|Hk].
    + rewrite Hk, lookup_insert_eq. split.
      * intros [= <-]. exists n. split_and!; [lia|done..|]. intros; lia.
      * intros (row & Hrow & Hf & Hg & Hlater).
        destruct (decide (row = n)) as [->|Hne]; [by rewrite Hg|].
        exfalso. apply (Hlater n); [lia|done].
    + rewrite lookup_insert_ne by done. rewrite IH. split.
      * intros (row & Hrow & Hf & Hg & Hlater). exists row.
        split_and!; [lia|done..|]. intros row' Hrow'.
        destruct (decide (row' = n)) as [->|Hne]; [done|].
        apply Hlater. lia.
      * intros (row & Hrow & Hf & Hg & Hlater).
        assert (row <> n) by congruence. exists row.
        split_and!; [lia|done..|]. intros row' Hrow'. apply Hlater. lia.
Qed.

Lemma cell_value_inside (form : list xlsx.call) (row col : nat)
    (v : xlsx.value) :
  row < xlsx.nrows form -> col < xlsx.ncols form ->
  xlsx.cell_value form row col = Ok v
  <-> default (xlsx.Text "") (xlsx.cells form !! (row, col)) = v.
Proof.
  intros Hrow Hcol. unfold xlsx.cell_value.
  rewrite bool_decide_eq_true_2 by done. split; [by intros [= ->]|by intros ->].
Qed.

(** The dict of a column inside the extent, whatever the cells hold: the
    comprehension raises nothing, and the last row with a label decides. *)
Lemma repl_dict_lookup (form : list xlsx.call) (col_idx : nat) :
  col_idx < xlsx.ncols form ->
  exists d,
    BuildOutputWorker.repl_dict form col_idx = Ok d
    /\ forall k v,
         d !! k = Some v
         <-> exists row,
               row < xlsx.nrows form
               /\ xlsx.cell_value form row 0 = Ok k
               /\ xlsx.cell_value form row col_idx = Ok v
               /\ forall row',
                    row < row' < xlsx.nrows form ->
                    xlsx.cell_value form row' 0 <> Ok k.
Proof.
  intros Hcol.
  set (f := fun row => default (xlsx.Text "") (xlsx.cells form !! (row, 0))).
  set (g := fun row =>
              default (xlsx.Text "") (xlsx.cells form !! (row, col_idx))).
  exists (foldl (fun d row => <[f row := g row]> d) ∅
                (seq 0 (xlsx.nrows form))).
  split.
  - unfold BuildOutputWorker.repl_dict. apply for_foldl. intros d row Hrow.
    apply elem_of_seq in Hrow as [_ Hrow]. simpl in Hrow.
    unfold xlsx.cell_value.
    by rewrite !bool_decide_eq_true_2 by (split; lia).
  - intros k v. rewrite (inserts_lookup f g).
    split; intros (row & Hrow & Hf & Hg & Hlater); exists row.
    + split_and!; [done|by apply cell_value_inside; [|lia|]..|].
      intros row' Hrow'. rewrite cell_value_inside by lia. by apply Hlater.
    + apply cell_value_inside in Hf, Hg; [|lia..].
      split_and!; [done..|]. intros row' Hrow'. unfold f.
      rewrite <- (cell_value_inside form row' 0) by lia. by apply Hlater.
Qed.

(** X9.  For an instance column inside the extent the reader reports, the
    dict comprehension of [run] raises nothing, whatever the cells hold, and
    the dict it builds sends a label to the value of the last row that
    carries this label: with a label on several rows the later row wins, and
    a key is present exactly if some row of the extent is labelled with
    it. *)
Theorem repl_dict_last_row (form : list xlsx.call) (col_idx : nat) :
  col_idx < xlsx.ncols form ->
  exists d,
    BuildOutputWorker.repl_dict form col_idx = Ok d
    /\ forall k v,
         d !! k = Some v
         <-> exists row,
               row < xlsx.nrows form
               /\ xlsx.cell_value form row 0 = Ok k
               /\ xlsx.cell_value form row col_idx = Ok v
               /\ forall row',
                    row < row' < xlsx.nrows form ->
                    xlsx.cell_value form row' 0 <> Ok k.
Proof. intros. by apply repl_dict_lookup. Qed.

Lemma repl_dict_last_row_witness :
  let form := [xlsx.write 0 0 "" ftbody; xlsx.write 0 1 "" ftbody;
               xlsx.write 1 0 "" ftbody; xlsx.write 1 1 "" ftbody;
               xlsx.write 2 0 "" ftbody; xlsx.write 2 1 "" ftbody;
               xlsx.write 2 2 "" ftbody;
               xlsx.write 0 0 "$A$" ftbody; xlsx.write 0 1 "x" ftbody;
               xlsx.write 1 0 "$A$" ftbody;
               xlsx.write_number 1 1 (Q2Qc (QArith_base.inject_Z 7))] in
  exists d,
    BuildOutputWorker.repl_dict form 1 = Ok d
    /\ forall k v,
         d !! k = Some v
         <-> exists row,
               row < xlsx.nrows form
               /\ xlsx.cell_value form row 0 = Ok k
               /\ xlsx.cell_value form row 1 = Ok v
               /\ forall row',
                    row < row' < xlsx.nrows form ->
                    xlsx.cell_value form row' 0 <> Ok k.
Proof.
  intros form. apply (repl_dict_last_row form 1). vm_compute. lia.
Defined.

(** ** From the form to the mapping *)

(** Calls that address no cell of column 0 leave the labels alone. *)
Lemma table_app_other (ws edits : list xlsx.call) (p : nat * nat) :
  Forall (fun x => xlsx.position x <> Some p) edits ->
  xlsx.table (ws ++ edits) !! p = xlsx.table ws !! p.
Proof.
  intros Hedits. rewrite !table_last, filter_app.
  by rewrite (filter_none _ edits), app_nil_r.
Qed.

(** The form of a duplicate-free Token Set after edits that address no cell
    of column 0: inside the extent the dict of a column sends the token of
    row [i] to what the reader finds at row [i] of that column. *)
Lemma edited_form_values (var_list : list string) (edits : list xlsx.call)
    (col_idx i : nat) (tok : string) :
  NoDup var_list -> "" ∉ var_list -> var_list !! i = Some tok ->
  Forall (fun x => forall row, xlsx.position x <> Some (row, 0)) edits ->
  let form :=
    FillValuesWorker.write_vars (FillValuesWorker.blank_grid []) var_list
    ++ edits in
  col_idx < xlsx.ncols form ->
  exists d v,
    BuildOutputWorker.repl_dict form col_idx = Ok d
    /\ xlsx.cell_value form i col_idx = Ok v
    /\ d !! xlsx.Text tok = Some v.
Proof.
  intros Hnd Hne Hi Hedits form Hcol.
  assert (forall row,
            xlsx.cells form !! (row, 0) = xlsx.Text <$> var_list !! row)
    as Hlabel.
  { intros row. subst form. rewrite lookup_cells, table_app_other.
    - rewrite <- lookup_cells, fresh_form_cells by done.
      by rewrite decide_True.
    - eapply Forall_impl; [exact Hedits|]. intros x Hx. apply Hx. }
  clearbody form.
  assert (i < xlsx.nrows form) as Hrow.
  { apply (cells_extent form i 0 (xlsx.Text tok)). by rewrite Hlabel, Hi. }
  destruct (repl_dict_lookup form col_idx Hcol) as (d & Hd & Hlookup).
  exists d, (default (xlsx.Text "") (xlsx.cells form !! (i, col_idx))).
  split_and!; [done|by apply cell_value_inside| ].
  apply Hlookup. exists i. split_and!; [done| | |].
  - apply cell_value_inside; [done|lia|]. by rewrite Hlabel, Hi.
  - by apply cell_value_inside.
  - intros row' Hrow'. rewrite cell_value_inside by lia. rewrite Hlabel.
    destruct (var_list !! row') as [tok'|] eqn:Hrow''; simpl.
    + intros [= ->]. assert (i = row') by (by eapply NoDup_lookup). lia.
    + intros [= <-]. apply Hne. by eapply list_elem_of_lookup_2.
Qed.

(** X11.  Row correspondence.  Take the form written for a duplicate-free
    Token Set, and let it be edited by any calls that address no cell of
    column 0, numbers included.  Then for every column inside the extent the
    reader reports for the edited form, the dict sends the token of row [i]
    to what the reader finds at row [i] of that column. *)
Theorem filled_form_values (var_list : list string) (edits : list xlsx.call)
    (col_idx i : nat) (tok : string) :
  NoDup var_list -> Forall placeholder var_list -> var_list !! i = Some tok ->
  Forall (fun x => forall row, xlsx.position x <> Some (row, 0)) edits ->
  let form :=
    FillValuesWorker.write_vars (FillValuesWorker.blank_grid []) var_list
    ++ edits in
  col_idx < xlsx.ncols form ->
  exists d v,
    BuildOutputWorker.repl_dict form col_idx = Ok d
    /\ xlsx.cell_value form i col_idx = Ok v
    /\ d !! xlsx.Text tok = Some v.
Proof.
  intros Hnd Hne%placeholders_nonempty. by apply edited_form_values.
Qed.

Lemma filled_form_values_witness :
  let form :=
    FillValuesWorker.write_vars (FillValuesWorker.blank_grid [])
      ["$A$"; "$B$"]
    ++ [xlsx.write 1 2 "y" ftbody] in
  exists d v,
    BuildOutputWorker.repl_dict form 2 = Ok d
    /\ xlsx.cell_value form 1 2 = Ok v
    /\ d !! xlsx.Text "$B$" = Some v.
Proof.
  apply (filled_form_values ["$A$"; "$B$"] [xlsx.write 1 2 "y" ftbody] 2 1
           "$B$").
  - apply NoDup_cons.
    split; [intros H%list_elem_of_singleton; discriminate|].
    apply NoDup_singleton.
  - repeat constructor.
    + exists "A"%char, "". split; reflexivity.
    + exists "B"%char, "". split; reflexivity.
  - reflexivity.
  - by repeat constructor.
  - apply (cells_extent _ 1 2 (xlsx.Text "y")).
    rewrite lookup_cells, table_snoc. cbn [xlsx.position].
    rewrite lookup_insert_eq. reflexivity.
Defined.

(** ** Further properties of the output writer *)

Lemma write_line_one (ws : list xlsx.call) (cfg_line : list item)
    (ftb fthl fte : format) (row col : nat) (ws' : list xlsx.call) :
  BuildOutputWorker.write_line ws cfg_line ftb fthl fte row col = Ok ws' ->
  ws' = ws
  \/ exists x, ws' = ws ++ [x] /\ xlsx.position x = Some (row, col).
Proof.
  unfold BuildOutputWorker.write_line, mbind, result_bind, mret, result_ret.
  destruct (BuildOutputWorker.last_stripped cfg_line) as [s1|e1];
    destruct (BuildOutputWorker.last_string cfg_line) as [s2|e2];
    repeat match goal with
           | |- context [if ?b then _ else _] => destruct b
           end;
    intros [= <-]; (by left) || (right; eexists; by split).
Qed.

Lemma write_rows_confined (cfg_lines : list (list item))
    (ftb fthl fte : format) (ws : list xlsx.call) (row col : nat)
    (ws' : list xlsx.call) (row' : nat) :
  for_ cfg_lines
       (fun '(ws, row_index) cfg_line =>
          ws ← BuildOutputWorker.write_line ws cfg_line ftb fthl fte
                 row_index col;
          mret (ws, row_index + 1))
       (ws, row)
  = Ok (ws', row') ->
  exists calls,
    ws' = ws ++ calls
    /\ length calls <= length cfg_lines
    /\ Forall (fun x => exists r,
                 xlsx.position x = Some (r, col)
                 /\ row <= r < row + length cfg_lines) calls.
Proof.
  revert ws row. induction cfg_lines as [|cfg_line cfg_lines IH];
    intros ws row; cbn [for_].
  - intros [= <- <-]. exists []. by rewrite app_nil_r.
  - destruct (BuildOutputWorker.write_line ws cfg_line ftb fthl fte row col)
      as [ws1|e] eqn:Hline; cbn [mbind result_bind mret result_ret]; [|done].
    intros (calls & -> & Hlen & Hpos)%IH.
    apply write_line_one in Hline as [->|(x & -> & Hx)].
    + exists calls. split_and!; [done|simpl; lia|].
      eapply Forall_impl; [exact Hpos|]. intros y (r & Hy & Hr).
      exists r. split; [done|]. simpl. lia.
    + exists (x :: calls). rewrite <- app_assoc. split_and!; [done|simpl; lia|].
      constructor.
      * exists row. split; [done|]. simpl. lia.
      * eapply Forall_impl; [exact Hpos|]. intros y (r & Hy & Hr).
        exists r. split; [done|]. simpl. lia.
Qed.

(** X13.  Whatever lines and formats [write_rich_table] is given, if it
    returns, it has kept the calls the sheet had, set the width of its
    column, and after that written at most one cell per line, each in its
    own column and in a row between the starting row and the starting row
    plus the number of lines. *)
Theorem write_rich_table_confined (ws : list xlsx.call)
    (cfg_lines : list (list item)) (ftb fthl fte : format)
    (row col width : nat) (ws' : list xlsx.call) :
  BuildOutputWorker.write_rich_table ws cfg_lines ftb fthl fte row col width
  = Ok ws' ->
  exists calls,
    ws' = ws ++ xlsx.set_column col col width :: calls
    /\ length calls <= length cfg_lines
    /\ Forall (fun x => exists r,
                 xlsx.position x = Some (r, col)
                 /\ row <= r < row + length cfg_lines) calls.
Proof.
  unfold BuildOutputWorker.write_rich_table.
  destruct (for_ cfg_lines _ _) as [[ws1 row1]|e] eqn:Hloop; [|done].
  cbn [fmap result_fmap fst]. intros [= <-].
  apply write_rows_confined in Hloop as (calls & -> & Hlen & Hpos).
  exists calls. by rewrite <- app_assoc.
Qed.

Lemma write_rich_table_confined_witness :
  exists calls,
    [xlsx.set_column 3 3 95; xlsx.write_string 5 3 "x" fthighlight]
    = [] ++ xlsx.set_column 3 3 95 :: calls
    /\ length calls <= 2
    /\ Forall (fun x => exists r,
                 xlsx.position x = Some (r, 3) /\ 5 <= r < 5 + 2) calls.
Proof.
  apply (write_rich_table_confined []
           [[IFormat fthighlight; IStr " x"]; []]
           ftbody fthighlight fterror 5 3 95).
  reflexivity.
Defined.

(** ** Dicts that hold numbers *)

(** The renderer on any dict: it raises [TypeError] if the dict holds a
    number for a token of the template, and otherwise renders as under a
    mapping from strings to strings. *)
Lemma render_dict_cases (T : string) (d : BuildOutputWorker.dict) :
  (exists t x,
     t ∈ tokens T /\ BuildOutputWorker.get d t = xlsx.Number x
     /\ BuildOutputWorker.sub_get_string T d ftbody fthighlight fterror
        = Raise TypeError)
  \/ (Forall (fun t => is_text (BuildOutputWorker.get d t)) (tokens T)
      /\ exists m,
           BuildOutputWorker.sub_get_string T d ftbody fthighlight fterror
           = Ok (map flatten (map (render_line m) (str.splitlines T)))).
Proof.
  destruct (decide (Forall (fun t => is_text (BuildOutputWorker.get d t))
                           (tokens T))) as [Hall|Hnot].
  - right. split; [done|]. destruct (text_view d (tokens T) Hall) as [m Hm].
    exists m. unfold BuildOutputWorker.sub_get_string.
    rewrite (for_ext _ _
               (fun cfg_format line =>
                  format_line ← BuildOutputWorker.sub_line (text_dict m)
                                  ftbody fthighlight fterror line;
                  mret (cfg_format ++ [format_line]))).
    + rewrite sub_lines_loop, app_nil_l. by rewrite map_map.
    + intros acc line Hline. rewrite (sub_line_agree d (text_dict m)); [done|].
      intros t Ht. apply Hm. by apply (line_token T line).
  - left. apply not_Forall_Exists, Exists_exists in Hnot as (t & Ht & Hnum);
      [|apply _].
    simpl in Hnum.
    destruct (BuildOutputWorker.get d t) as [v|x] eqn:Hx; [by destruct Hnum|].
    exists t, x. split_and!; [done..|].
    pose proof Ht as Hin. unfold tokens in Hin.
    apply (proj1 (unique_vars_elem _ _)) in Hin.
    rewrite <- findall_splitlines in Hin.
    apply elem_of_concat_map_inv in Hin as (line & Hline & Htok).
    unfold BuildOutputWorker.sub_get_string.
    apply for_raise.
    + intros acc l _.
      destruct (decide (Forall (fun t => is_text (BuildOutputWorker.get d t))
                               (re.findall l))) as [Hl|Hl].
      * right. destruct (text_view d (re.findall l) Hl) as [m Hm].
        rewrite (sub_line_text d m l Hm). eauto.
      * left.
        apply not_Forall_Exists, Exists_exists in Hl as (t' & Ht' & Hnum');
          [|apply _].
        simpl in Hnum'.
        destruct (BuildOutputWorker.get d t') as [v|x'] eqn:Hx';
          [by destruct Hnum'|].
        by rewrite (sub_line_number d l t' x').
    + exists line. split; [done|]. intros acc.
      by rewrite (sub_line_number d line t x).
Qed.

(** One column of the loop of [run], whatever the form holds: the body
    raises [TypeError] and leaves the world alone if the column holds a
    number for a token of the template; otherwise it sets the width of the
    output column and writes at most one cell per line. *)
Lemma build_column_cases (template : string) (form ws : list xlsx.call)
    (col_idx : nat) (w : world) :
  col_idx < xlsx.ncols form ->
  (number_for template form col_idx
   /\ BuildOutputWorker.build_column template form ws col_idx w
      = (Raise TypeError, w))
  \/ (~ number_for template form col_idx
      /\ exists m,
           BuildOutputWorker.build_column template form ws col_idx w
           = (Ok (ws ++ column_calls
                          (map (render_line m) (str.splitlines template))
                          (col_idx - 1)),
              if has_savings w then with_log (savings 10) w else w)).
Proof.
  intros Hcol. destruct (repl_dict_lookup form col_idx Hcol) as (d & Hd & _).
  unfold BuildOutputWorker.build_column, mbind, io_bind, lift.
  rewrite Hd. cbv beta iota.
  destruct (render_dict_cases template d)
    as [(t & x & Ht & Hx & Hr)|(Hall & m & Hr)]; rewrite Hr; cbv beta iota.
  - left. split; [by exists d, t, x|done].
  - right. split.
    + intros (d' & t & x & Hd' & Ht & Hx).
      rewrite Hd in Hd'. injection Hd' as <-.
      rewrite Forall_forall in Hall. specialize (Hall t Ht).
      by rewrite Hx in Hall.
    + exists m. rewrite app_nil_l, write_rich_table_calls. by cbv beta iota.
Qed.

(** The loop over the instance columns ends with [TypeError], the file
    system untouched, as soon as one of them holds a number for a token of
    the template. *)
Lemma build_columns_number (template : string) (form : list xlsx.call)
    (cols : list nat) (ws : list xlsx.call) (w : world) :
  Forall (fun c => c < xlsx.ncols form) cols ->
  (exists c, c ∈ cols /\ number_for template form c) ->
  exists w',
    io_for cols (BuildOutputWorker.build_column template form) ws w
    = (Raise TypeError, w')
    /\ fs w' = fs w /\ locked w' = locked w.
Proof.
  revert ws w. induction cols as [|c cols IH]; intros ws w Hcols (b & Hb & Hnum).
  - by apply elem_of_nil in Hb.
  - inversion Hcols as [|? ? Hc Hrest]; subst.
    cbn [io_for]. unfold mbind, io_bind.
    destruct (build_column_cases template form ws c w Hc)
      as [[_ ->]|(Hok & m & ->)]; [by exists w|].
    apply elem_of_cons in Hb as [->|Hb]; [done|].
    match goal with
    | |- context [io_for cols _ ?ws1 ?w1] =>
        destruct (IH ws1 w1 Hrest) as (w' & Hloop & Hfs & Hl);
          [by exists b|]
    end.
    exists w'. rewrite Hloop, Hfs, Hl. by destruct (has_savings w).
Qed.

(** A template without lines: every instance column has its width set and
    nothing else, whatever the form holds. *)
Lemma build_columns_no_lines (template : string) (form : list xlsx.call)
    (cols : list nat) (ws : list xlsx.call) (w : world) :
  str.splitlines template = [] ->
  Forall (fun c => c < xlsx.ncols form) cols ->
  exists w',
    io_for cols (BuildOutputWorker.build_column template form) ws w
    = (Ok (ws ++ map (fun c => xlsx.set_column (c - 1) (c - 1) 95) cols), w')
    /\ fs w' = fs w /\ locked w' = locked w.
Proof.
  intros Hlines.
  assert (tokens template = []) as Htoks.
  { unfold tokens. by rewrite <- findall_splitlines, Hlines. }
  revert ws w. induction cols as [|c cols IH]; intros ws w Hcols.
  - exists w. simpl. by rewrite app_nil_r.
  - inversion Hcols as [|? ? Hc Hrest]; subst.
    cbn [io_for]. unfold mbind, io_bind.
    destruct (build_column_cases template form ws c w Hc)
      as [[(d & t & x & _ & Ht & _) _]|(_ & m & ->)].
    { rewrite Htoks in Ht. by apply elem_of_nil in Ht. }
    rewrite Hlines. cbn [map]. unfold column_calls. cbn [rows_calls].
    match goal with
    | |- context [io_for cols _ ?ws1 ?w1] =>
        destruct (IH ws1 w1 Hrest) as (w' & Hloop & Hfs & Hl)
    end.
    exists w'. rewrite Hloop, Hfs, Hl, <- app_assoc.
    by destruct (has_savings w).
Qed.

(** ** Further properties of [BuildOutputWorker.run] *)

(** With a readable form whose cells hold text the pass reaches
    [workbook.close()] with the file system untouched. *)
Lemma build_output_close (template : string) (form : list xlsx.call)
    (variable_file_path output_report sheet_name : string)
    (sheets : list xlsx.sheet) (w : world) :
  fs w !! variable_file_path
  = Some (XlsxFile ({| xlsx.name := sheet_name; xlsx.calls := form |}
                    :: sheets)) ->
  text_form form ->
  exists w1,
    fs w1 = fs w /\ locked w1 = locked w
    /\ BuildOutputWorker.build_output template variable_file_path
         output_report w
       = workbook_close output_report
           [{| xlsx.name := "Output";
               xlsx.calls :=
                 flat_map
                   (fun c =>
                      column_calls
                        (map (render_line (mapping form (S c)))
                             (str.splitlines template)) c)
                   (seq 0 (xlsx.ncols form - 1)) |}] w1.
Proof.
  intros Hform Htext.
  unfold BuildOutputWorker.build_output, mbind, io_bind, logging.info, XLR,
    lift.
  cbn [fs with_log]. rewrite Hform.
  cbn [xlsx.sheet_by_index getitem lookup list_lookup of_option fmap
       result_fmap xlsx.calls].
  destruct (build_columns_calls template form Htext
              (seq 1 (xlsx.ncols form - 1)) []
              (with_log (info "Building output") w)) as (w1 & Hloop & Hfs & Hl).
  { apply Forall_forall. intros c [? ?]%elem_of_seq. lia. }
  rewrite Hloop. exists w1. split_and!; [done..|].
  rewrite app_nil_l, flat_map_seq_S. do 3 f_equal.
  apply flat_map_ext. intros c. f_equal. lia.
Qed.

Lemma run_missing_form (template variable_file_path output_report : string)
    (w : world) :
  variable_file_path <> "" -> fs w !! variable_file_path = None ->
  BuildOutputWorker.run template variable_file_path output_report w
  = (Raise FileNotFoundError, with_log (info "Building output") w).
Proof.
  intros Hpath Hnone. unfold BuildOutputWorker.run.
  rewrite bool_decide_eq_false_2 by done.
  unfold BuildOutputWorker.build_output, mbind, io_bind, logging.info, XLR.
  cbn [fs with_log]. by rewrite Hnone.
Qed.

(** A run that finds its form, reads text in it and can write and delete. *)
Lemma run_success_book (template variable_file_path output_report : string)
    (sheet_name : string) (form : list xlsx.call)
    (sheets : list xlsx.sheet) (w : world) :
  variable_file_path <> "" ->
  fs w !! variable_file_path
  = Some (XlsxFile ({| xlsx.name := sheet_name; xlsx.calls := form |}
                    :: sheets)) ->
  text_form form ->
  output_report ∉ locked w -> variable_file_path ∉ locked w ->
  exists w2,
    BuildOutputWorker.run template variable_file_path output_report w
    = (Ok tt, w2)
    /\ fs w2
       = delete variable_file_path
           (<[output_report :=
                XlsxFile
                  [{| xlsx.name := "Output";
                      xlsx.calls :=
                        flat_map
                          (fun c =>
                             column_calls
                               (map (render_line (mapping form (S c)))
                                    (str.splitlines template)) c)
                          (seq 0 (xlsx.ncols form - 1)) |}]]> (fs w)).
Proof.
  intros Hpath Hform Htext Hout Hvfp.
  destruct (build_output_close template form variable_file_path output_report
              sheet_name sheets w Hform Htext) as (w1 & Hfs1 & Hl1 & Hbuild).
  unfold BuildOutputWorker.run. rewrite bool_decide_eq_false_2 by done.
  unfold mbind, io_bind. rewrite Hbuild. unfold workbook_close.
  rewrite Hl1, bool_decide_eq_false_2 by done.
  match goal with
  | |- context [BuildOutputWorker.remove_form _ ?w] =>
      destruct (remove_form_outcome variable_file_path w)
        as (w2 & Hrm & Hl2 & _ & _ & Hremoved)
  end.
  rewrite Hrm. unfold logging.info. eexists. split; [reflexivity|].
  cbn [fs locked with_fs with_log] in *.
  destruct Hremoved as [Hfs2 _].
  { rewrite Hfs1. destruct (decide (output_report = variable_file_path))
      as [->|Hne].
    - by rewrite lookup_insert_eq.
    - rewrite lookup_insert_ne by done. by rewrite Hform. }
  { by rewrite Hl1. }
  by rewrite Hfs2, Hfs1.
Qed.

Lemma run_success (template variable_file_path output_report : string)
    (sheet : xlsx.sheet) (sheets : list xlsx.sheet) (w : world) :
  variable_file_path <> "" ->
  fs w !! variable_file_path = Some (XlsxFile (sheet :: sheets)) ->
  text_form (xlsx.calls sheet) ->
  output_report ∉ locked w -> variable_file_path ∉ locked w ->
  exists book w2,
    BuildOutputWorker.run template variable_file_path output_report w
    = (Ok tt, w2)
    /\ fs w2
       = delete variable_file_path (<[output_report := XlsxFile book]> (fs w))
    /\ fs w2 !! variable_file_path = None
    /\ (output_report <> variable_file_path ->
        fs w2 !! output_report = Some (XlsxFile book))
    /\ (output_report = variable_file_path -> fs w2 !! output_report = None).
Proof.
  intros Hpath Hform Htext Hout Hvfp. destruct sheet as [sheet_name form].
  destruct (run_success_book template variable_file_path output_report
              sheet_name form sheets w Hpath Hform Htext Hout Hvfp)
    as (w2 & Hrun & Hfs).
  eexists _, w2. split; [exact Hrun|]. rewrite Hfs.
  split_and!; [done|apply lookup_delete_eq| |].
  - intros Hne. rewrite lookup_delete_ne by done. apply lookup_insert_eq.
  - intros ->. apply lookup_delete_eq.
Qed.

(** X14.  A run that finds its form, reads text in every cell of it and can
    write and delete consumes the form: it returns normally, the output
    workbook has been written and the form deleted.  Should the output path
    be the path of the form, the deletion removes the output just
    written. *)
Theorem run_consumes_form (template variable_file_path output_report : string)
    (sheet : xlsx.sheet) (sheets : list xlsx.sheet) (w : world) :
  variable_file_path <> "" ->
  fs w !! variable_file_path = Some (XlsxFile (sheet :: sheets)) ->
  text_form (xlsx.calls sheet) ->
  output_report ∉ locked w -> variable_file_path ∉ locked w ->
  exists book w2,
    BuildOutputWorker.run template variable_file_path output_report w
    = (Ok tt, w2)
    /\ fs w2
       = delete variable_file_path (<[output_report := XlsxFile book]> (fs w))
    /\ fs w2 !! variable_file_path = None
    /\ (output_report <> variable_file_path ->
        fs w2 !! output_report = Some (XlsxFile book))
    /\ (output_report = variable_file_path -> fs w2 !! output_report = None).
Proof. intros. by eapply run_success. Qed.

Lemma run_consumes_form_witness :
  let sheet := {| xlsx.name := "Variables";
                  xlsx.calls := [xlsx.write 0 0 "$A$" ftbody;
                                 xlsx.write 0 1 "x" ftbody] |} in
  let w := {| fs := {[ "form.xlsx" := XlsxFile [sheet] ]}; locked := ∅;
              tmpname := "tmp.xlsx"; has_savings := false; log := [] |} in
  exists book w2,
    BuildOutputWorker.run "a $A$" "form.xlsx" "form.xlsx" w = (Ok tt, w2)
    /\ fs w2 = delete "form.xlsx" (<["form.xlsx" := XlsxFile book]> (fs w))
    /\ fs w2 !! "form.xlsx" = None
    /\ ("form.xlsx" <> "form.xlsx" ->
        fs w2 !! "form.xlsx" = Some (XlsxFile book))
    /\ ("form.xlsx" = "form.xlsx" -> fs w2 !! "form.xlsx" = None).
Proof.
  intros sheet w.
  apply (run_consumes_form "a $A$" "form.xlsx" "form.xlsx" sheet [] w).
  - discriminate.
  - reflexivity.
  - apply (bool_decide_unpack (text_form (xlsx.calls sheet))).
    vm_compute. exact I.
  - apply not_elem_of_empty.
  - apply not_elem_of_empty.
Defined.

(** X15.  The form is consumed once: after a run that read text in every
    cell of the form, succeeded and deleted the form, a second run with the
    same arguments raises [FileNotFoundError] right after its first log
    record, and changes nothing else; the output of the first run stays. *)
Theorem run_twice (template variable_file_path output_report : string)
    (sheet : xlsx.sheet) (sheets : list xlsx.sheet) (w : world) :
  variable_file_path <> "" ->
  fs w !! variable_file_path = Some (XlsxFile (sheet :: sheets)) ->
  text_form (xlsx.calls sheet) ->
  output_report ∉ locked w -> variable_file_path ∉ locked w ->
  output_report <> variable_file_path ->
  exists book w2 w3,
    BuildOutputWorker.run template variable_file_path output_report w
    = (Ok tt, w2)
    /\ BuildOutputWorker.run template variable_file_path output_report w2
       = (Raise FileNotFoundError, w3)
    /\ fs w3 = fs w2
    /\ fs w3 !! output_report = Some (XlsxFile book)
    /\ log w3 = log w2 ++ [info "Building output"].
Proof.
  intros Hpath Hform Htext Hout Hvfp Hne.
  destruct (run_success template variable_file_path output_report
              sheet sheets w Hpath Hform Htext Hout Hvfp)
    as (book & w2 & Hrun & Hfs & Hgone & Hkept & _).
  exists book, w2, (with_log (info "Building output") w2).
  split_and!; [done|by apply run_missing_form|done|by apply Hkept|done].
Qed.

Lemma run_twice_witness :
  let sheet := {| xlsx.name := "Variables";
                  xlsx.calls := [xlsx.write 0 0 "$A$" ftbody;
                                 xlsx.write 0 1 "x" ftbody] |} in
  let w := {| fs := {[ "form.xlsx" := XlsxFile [sheet] ]}; locked := ∅;
              tmpname := "tmp.xlsx"; has_savings := false; log := [] |} in
  exists book w2 w3,
    BuildOutputWorker.run "a $A$" "form.xlsx" "out.xlsx" w = (Ok tt, w2)
    /\ BuildOutputWorker.run "a $A$" "form.xlsx" "out.xlsx" w2
       = (Raise FileNotFoundError, w3)
    /\ fs w3 = fs w2
    /\ fs w3 !! "out.xlsx" = Some (XlsxFile book)
    /\ log w3 = log w2 ++ [info "Building output"].
Proof.
  intros sheet w.
  apply (run_twice "a $A$" "form.xlsx" "out.xlsx" sheet [] w).
  - discriminate.
  - reflexivity.
  - apply (bool_decide_unpack (text_form (xlsx.calls sheet))).
    vm_compute. exact I.
  - apply not_elem_of_empty.
  - apply not_elem_of_empty.
  - discriminate.
Defined.

(** X16.  Without a usable form nothing is written.  With an empty form
    path [run] only logs and returns; with no file at the path it raises
    [FileNotFoundError], with a file that is no workbook [XLRDError], with a
    workbook without sheets [IndexError]; in each case the file system is as
    it was before. *)
Theorem run_without_form (template variable_file_path output_report : string)
    (w : world) :
  variable_file_path = ""
  \/ (forall sheet sheets,
        fs w !! variable_file_path <> Some (XlsxFile (sheet :: sheets))) ->
  fs (BuildOutputWorker.run template variable_file_path output_report w).2
  = fs w
  /\ (BuildOutputWorker.run template variable_file_path output_report w).1
     = if bool_decide (variable_file_path = "") then Ok tt
       else match fs w !! variable_file_path with
            | None => Raise FileNotFoundError
            | Some (TextFile _) => Raise XLRDError
            | Some (XlsxFile _) => Raise IndexError
            end.
Proof.
  intros Hno. unfold BuildOutputWorker.run.
  case_bool_decide as Hpath; [done|].
  destruct Hno as [?|Hno]; [done|].
  unfold BuildOutputWorker.build_output, mbind, io_bind, logging.info, XLR,
    lift.
  cbn [fs with_log].
  destruct (fs w !! variable_file_path) as [[content|[|sheet sheets]]|] eqn:Hf;
    try done.
  by destruct (Hno sheet sheets).
Qed.

Lemma run_without_form_witness :
  let w := {| fs := {[ "notes.txt" := TextFile "hello" ]}; locked := ∅;
              tmpname := "tmp.xlsx"; has_savings := false; log := [] |} in
  fs (BuildOutputWorker.run "a $A$" "notes.txt" "out.xlsx" w).2 = fs w
  /\ (BuildOutputWorker.run "a $A$" "notes.txt" "out.xlsx" w).1
     = Raise XLRDError.
Proof.
  intros w.
  apply (run_without_form "a $A$" "notes.txt" "out.xlsx" w).
  right. intros sheet sheets. discriminate.
Defined.

(** X17.  If every cell of the form holds text and the output workbook
    cannot be written, [run] raises [FileCreateError] before it reaches the
    deletion: the form is still there and the file system is unchanged. *)
Theorem run_output_locked (template variable_file_path output_report : string)
    (sheet : xlsx.sheet) (sheets : list xlsx.sheet) (w : world) :
  variable_file_path <> "" ->
  fs w !! variable_file_path = Some (XlsxFile (sheet :: sheets)) ->
  text_form (xlsx.calls sheet) ->
  output_report ∈ locked w ->
  exists w1,
    BuildOutputWorker.run template variable_file_path output_report w
    = (Raise FileCreateError, w1)
    /\ fs w1 = fs w
    /\ fs w1 !! variable_file_path = Some (XlsxFile (sheet :: sheets)).
Proof.
  intros Hpath Hform Htext Hout. destruct sheet as [sheet_name form].
  destruct (build_output_close template form variable_file_path output_report
              sheet_name sheets w Hform Htext) as (w1 & Hfs1 & Hl1 & Hbuild).
  unfold BuildOutputWorker.run. rewrite bool_decide_eq_false_2 by done.
  unfold mbind, io_bind. rewrite Hbuild. unfold workbook_close.
  rewrite Hl1, bool_decide_eq_true_2 by done.
  exists w1. by rewrite Hfs1.
Qed.

Lemma run_output_locked_witness :
  let sheet := {| xlsx.name := "Variables";
                  xlsx.calls := [xlsx.write 0 0 "$A$" ftbody;
                                 xlsx.write 0 1 "x" ftbody] |} in
  let w := {| fs := {[ "form.xlsx" := XlsxFile [sheet] ]};
              locked := {[ "out.xlsx" ]};
              tmpname := "tmp.xlsx"; has_savings := false; log := [] |} in
  exists w1,
    BuildOutputWorker.run "a $A$" "form.xlsx" "out.xlsx" w
    = (Raise FileCreateError, w1)
    /\ fs w1 = fs w
    /\ fs w1 !! "form.xlsx" = Some (XlsxFile [sheet]).
Proof.
  intros sheet w.
  apply (run_output_locked "a $A$" "form.xlsx" "out.xlsx" sheet [] w).
  - discriminate.
  - reflexivity.
  - apply (bool_decide_unpack (text_form (xlsx.calls sheet))).
    vm_compute. exact I.
  - vm_compute. reflexivity.
Defined.

(** X18.  Degenerate inputs still give an output workbook, whatever the
    cells of the form hold.  A form in which the reader finds no instance
    column gives an 'Output' sheet that received no call at all; a template
    without lines gives a sheet on which only the column widths were set,
    one per instance column. *)
Theorem output_degenerate (template variable_file_path output_report : string)
    (sheet_name : string) (form : list xlsx.call)
    (sheets : list xlsx.sheet) (w : world) :
  fs w !! variable_file_path
  = Some (XlsxFile ({| xlsx.name := sheet_name; xlsx.calls := form |}
                    :: sheets)) ->
  output_report ∉ locked w ->
  xlsx.ncols form <= 1 \/ str.splitlines template = [] ->
  exists w',
    BuildOutputWorker.build_output template variable_file_path output_report w
    = (Ok tt, w')
    /\ (xlsx.ncols form <= 1 ->
        fs w' !! output_report
        = Some (XlsxFile [{| xlsx.name := "Output"; xlsx.calls := [] |}]))
    /\ (str.splitlines template = [] ->
        fs w' !! output_report
        = Some (XlsxFile
                  [{| xlsx.name := "Output";
                      xlsx.calls :=
                        map (fun c => xlsx.set_column c c 95)
                            (seq 0 (xlsx.ncols form - 1)) |}])).
Proof.
  intros Hform Hfree Hdeg.
  assert (exists w1,
            io_for (seq 1 (xlsx.ncols form - 1))
                   (BuildOutputWorker.build_column template form) []
                   (with_log (info "Building output") w)
            = (Ok (map (fun c => xlsx.set_column c c 95)
                       (seq 0 (xlsx.ncols form - 1))), w1)
            /\ fs w1 = fs w /\ locked w1 = locked w) as (w1 & Hloop & Hfs & Hl).
  { destruct Hdeg as [Hcols|Hlines].
    - replace (xlsx.ncols form - 1) with 0 by lia. by eexists.
    - destruct (build_columns_no_lines template form
                  (seq 1 (xlsx.ncols form - 1)) []
                  (with_log (info "Building output") w) Hlines)
        as (w1 & Hloop & Hfs & Hl).
      { apply Forall_forall. intros c [? ?]%elem_of_seq. lia. }
      exists w1. rewrite Hloop. split; [|done]. do 2 f_equal.
      rewrite app_nil_l, <- fmap_S_seq, <- list_fmap_compose.
      apply list_fmap_ext. intros _ c _. simpl. by rewrite Nat.sub_0_r. }
  unfold BuildOutputWorker.build_output, mbind, io_bind, logging.info, XLR,
    lift.
  cbn [fs with_log]. rewrite Hform.
  cbn [xlsx.sheet_by_index getitem lookup list_lookup of_option fmap
       result_fmap xlsx.calls].
  rewrite Hloop. unfold workbook_close. rewrite Hl.
  rewrite bool_decide_eq_false_2 by done.
  eexists. split; [reflexivity|]. cbn [fs with_fs]. rewrite Hfs.
  rewrite lookup_insert_eq. split.
  - intros Hcols. by replace (xlsx.ncols form - 1) with 0 by lia.
  - done.
Qed.

Lemma output_degenerate_witness :
  let form := [xlsx.write 0 0 "" ftbody; xlsx.write 0 1 "" ftbody;
               xlsx.write 0 0 "$A$" ftbody] in
  let w := {| fs := {[ "form.xlsx" :=
                         XlsxFile [{| xlsx.name := "Variables";
                                      xlsx.calls := form |}] ]};
              locked := ∅; tmpname := "tmp.xlsx"; has_savings := false;
              log := [] |} in
  exists w',
    BuildOutputWorker.build_output "a $A$" "form.xlsx" "out.xlsx" w
    = (Ok tt, w')
    /\ fs w' !! "out.xlsx"
       = Some (XlsxFile [{| xlsx.name := "Output"; xlsx.calls := [] |}]).
Proof.
  intros form w.
  destruct (output_degenerate "a $A$" "form.xlsx" "out.xlsx" "Variables"
              form [] w)
    as (w' & Hrun & Hempty & _).
  - reflexivity.
  - apply not_elem_of_empty.
  - left. vm_compute. lia.
  - exists w'. split; [done|]. apply Hempty. vm_compute. lia.
Defined.

(** X28.  A number in the form.  If the reader finds, in some instance
    column, a number for a token of the template, [run] raises [TypeError]:
    [re.search] takes no number.  It does so before the output workbook is
    closed, so no output is written, and before the deletion, so the form
    stays: the file system is as it was. *)
Theorem run_number_cell (template variable_file_path output_report : string)
    (sheet_name : string) (form : list xlsx.call)
    (sheets : list xlsx.sheet) (col_idx : nat) (w : world) :
  variable_file_path <> "" ->
  fs w !! variable_file_path
  = Some (XlsxFile ({| xlsx.name := sheet_name; xlsx.calls := form |}
                    :: sheets)) ->
  1 <= col_idx < xlsx.ncols form ->
  number_for template form col_idx ->
  exists w',
    BuildOutputWorker.run template variable_file_path output_report w
    = (Raise TypeError, w')
    /\ fs w' = fs w.
Proof.
  intros Hpath Hform Hcol Hnum.
  unfold BuildOutputWorker.run. rewrite bool_decide_eq_false_2 by done.
  unfold BuildOutputWorker.build_output, mbind, io_bind, logging.info at 1,
    XLR, lift.
  cbn [fs with_log]. rewrite Hform.
  cbn [xlsx.sheet_by_index getitem lookup list_lookup of_option fmap
       result_fmap xlsx.calls].
  destruct (build_columns_number template form (seq 1 (xlsx.ncols form - 1))
              [] (with_log (info "Building output") w))
    as (w' & Hloop & Hfs & _).
  { apply Forall_forall. intros c [? ?]%elem_of_seq. lia. }
  { exists col_idx. split; [apply elem_of_seq; lia|done]. }
  rewrite Hloop. by exists w'.
Qed.

Lemma run_number_cell_witness :
  let form := [xlsx.write 0 0 "$VLAN$" ftbody; xlsx.write 0 1 "x" ftbody;
               xlsx.write_number 0 2 (Q2Qc (QArith_base.inject_Z 10))] in
  let w := {| fs := {[ "form.xlsx" :=
                         XlsxFile [{| xlsx.name := "Variables";
                                      xlsx.calls := form |}] ]};
              locked := ∅; tmpname := "tmp.xlsx"; has_savings := false;
              log := [] |} in
  exists w',
    BuildOutputWorker.run "vlan $VLAN$" "form.xlsx" "out.xlsx" w
    = (Raise TypeError, w')
    /\ fs w' = fs w.
Proof.
  intros form w.
  apply (run_number_cell "vlan $VLAN$" "form.xlsx" "out.xlsx" "Variables"
           form [] 2 w).
  - discriminate.
  - reflexivity.
  - vm_compute. lia.
  - exists {[ xlsx.Text "$VLAN$"
              := xlsx.Number (Q2Qc (QArith_base.inject_Z 10)) ]},
      "$VLAN$", (Q2Qc (QArith_base.inject_Z 10)).
    split_and!; [vm_compute; reflexivity| |vm_compute; reflexivity].
    vm_compute. apply elem_of_cons. by left.
Defined.

(** ** [FillValuesWorker.run] *)

(** A run on a readable template whose form can be written. *)
Lemma fill_run_ok (template_file T : string) (w : world) :
  template_file <> "" ->
  fs w !! template_file = Some (TextFile T) ->
  tmpname w ∉ locked w ->
  exists w',
    FillValuesWorker.run template_file w
    = (Ok (Some {| FillValuesWorker.config_template := T;
                   FillValuesWorker.var_list := tokens T;
                   FillValuesWorker.variable_file_path := tmpname w |}), w')
    /\ fs w'
       = <[tmpname w :=
             XlsxFile
               [{| xlsx.name := "Variables";
                   xlsx.calls :=
                     FillValuesWorker.write_vars
                       (FillValuesWorker.blank_grid []) (tokens T) |}]]>
           (fs w)
    /\ log w'
       = log w ++ [info "Building variable form";
                   info "Opening variable form";
                   info "Fill up the values against variables and save";
                   info FillValuesWorker.click_replace]
    /\ locked w' = locked w.
Proof.
  intros Hpath Hfile Hfree. unfold FillValuesWorker.run.
  rewrite bool_decide_eq_false_2 by done.
  unfold mbind at 1, io_bind at 1, logging.info at 1.
  unfold mbind at 1, io_bind at 1. rewrite get_template_vars_eq.
  cbn [fs with_log]. rewrite Hfile.
  unfold mbind at 1, io_bind at 1. rewrite create_excel_form_eq.
  cbn [tmpname locked with_log with_fs]. cbn zeta.
  rewrite bool_decide_eq_false_2 by done.
  unfold mbind, io_bind, logging.info, mret, io_ret.
  eexists. split; [reflexivity|].
  cbn [fs log locked with_log with_fs]. split_and!; [|by rewrite <- !app_assoc|done].
  by rewrite insert_insert_eq.
Qed.

(** X19.  A run on a readable template hands over exactly what the later
    stages need: the text of the file unchanged, its Token Set, and the path
    of a workbook whose only sheet is the form written for this Token Set;
    it leaves four log records and touches no other file. *)
Theorem fill_run_result (template_file T : string) (w : world) :
  template_file <> "" ->
  fs w !! template_file = Some (TextFile T) ->
  tmpname w ∉ locked w ->
  exists w',
    FillValuesWorker.run template_file w
    = (Ok (Some {| FillValuesWorker.config_template := T;
                   FillValuesWorker.var_list := tokens T;
                   FillValuesWorker.variable_file_path := tmpname w |}), w')
    /\ fs w'
       = <[tmpname w :=
             XlsxFile
               [{| xlsx.name := "Variables";
                   xlsx.calls :=
                     FillValuesWorker.write_vars
                       (FillValuesWorker.blank_grid []) (tokens T) |}]]>
           (fs w)
    /\ log w'
       = log w ++ [info "Building variable form";
                   info "Opening variable form";
                   info "Fill up the values against variables and save";
                   info FillValuesWorker.click_replace]
    /\ locked w' = locked w.
Proof. intros. by apply fill_run_ok. Qed.

Lemma fill_run_result_witness :
  let w := {| fs := {[ "t.cfg" := TextFile "host=$HOST$" ]}; locked := ∅;
              tmpname := "form.xlsx"; has_savings := false; log := [] |} in
  exists w',
    FillValuesWorker.run "t.cfg" w
    = (Ok (Some {| FillValuesWorker.config_template := "host=$HOST$";
                   FillValuesWorker.var_list := tokens "host=$HOST$";
                   FillValuesWorker.variable_file_path := "form.xlsx" |}), w')
    /\ fs w'
       = <["form.xlsx" :=
             XlsxFile
               [{| xlsx.name := "Variables";
                   xlsx.calls :=
                     FillValuesWorker.write_vars
                       (FillValuesWorker.blank_grid [])
                       (tokens "host=$HOST$") |}]]>
           (fs w)
    /\ log w'
       = log w ++ [info "Building variable form";
                   info "Opening variable form";
                   info "Fill up the values against variables and save";
                   info FillValuesWorker.click_replace]
    /\ locked w' = locked w.
Proof.
  intros w. apply (fill_run_result "t.cfg" "host=$HOST$" w).
  - discriminate.
  - reflexivity.
  - apply not_elem_of_empty.
Defined.

(** X20.  Without a readable template no form is made.  With an empty path
    [run] logs and emits nothing; with no file at the path it raises
    [FileNotFoundError], with a workbook there [UnicodeDecodeError]; the
    file system stays as it was, and no temporary file has been created. *)
Theorem fill_run_without_template (template_file : string) (w : world) :
  template_file = ""
  \/ (forall T, fs w !! template_file <> Some (TextFile T)) ->
  fs (FillValuesWorker.run template_file w).2 = fs w
  /\ (FillValuesWorker.run template_file w).1
     = if bool_decide (template_file = "") then Ok None
       else match fs w !! template_file with
            | None => Raise FileNotFoundError
            | Some _ => Raise UnicodeDecodeError
            end.
Proof.
  intros Hno. case_bool_decide as Hpath.
  { unfold FillValuesWorker.run. by rewrite bool_decide_eq_true_2. }
  destruct Hno as [?|Hno]; [done|].
  assert (FillValuesWorker.run template_file w
          = (match fs w !! template_file with
             | None => Raise FileNotFoundError
             | Some _ => Raise UnicodeDecodeError
             end, with_log (info "Building variable form") w)) as ->; [|done].
  unfold FillValuesWorker.run. rewrite bool_decide_eq_false_2 by done.
  unfold mbind at 1, io_bind at 1, logging.info at 1.
  unfold mbind at 1, io_bind at 1. rewrite get_template_vars_eq.
  cbn [fs with_log].
  destruct (fs w !! template_file) as [[T|b]|] eqn:Hf; try done.
  by destruct (Hno T).
Qed.

Lemma fill_run_without_template_witness :
  let w := {| fs := ∅; locked := ∅; tmpname := "form.xlsx";
              has_savings := false; log := [] |} in
  fs (FillValuesWorker.run "missing.cfg" w).2 = fs w
  /\ (FillValuesWorker.run "missing.cfg" w).1 = Raise FileNotFoundError.
Proof.
  intros w. apply (fill_run_without_template "missing.cfg" w).
  right. intros T. discriminate.
Defined.

(** X21.  If the workbook of the form cannot be written, [run] raises
    [FileCreateError] and emits nothing, and the empty temporary file that
    was created for the form (with [delete=False]) stays behind. *)
Theorem fill_run_form_locked (template_file T : string) (w : world) :
  template_file <> "" ->
  fs w !! template_file = Some (TextFile T) ->
  tmpname w ∈ locked w ->
  exists w',
    FillValuesWorker.run template_file w = (Raise FileCreateError, w')
    /\ fs w' = <[tmpname w := TextFile ""]> (fs w).
Proof.
  intros Hpath Hfile Hlocked. unfold FillValuesWorker.run.
  rewrite bool_decide_eq_false_2 by done.
  unfold mbind at 1, io_bind at 1, logging.info at 1.
  unfold mbind at 1, io_bind at 1. rewrite get_template_vars_eq.
  cbn [fs with_log]. rewrite Hfile.
  unfold mbind at 1, io_bind at 1. rewrite create_excel_form_eq.
  cbn [tmpname locked with_log with_fs]. cbn zeta.
  rewrite bool_decide_eq_true_2 by done.
  eexists. split; [reflexivity|]. done.
Qed.

Lemma fill_run_form_locked_witness :
  let w := {| fs := {[ "t.cfg" := TextFile "host=$HOST$" ]};
              locked := {[ "form.xlsx" ]};
              tmpname := "form.xlsx"; has_savings := false; log := [] |} in
  exists w',
    FillValuesWorker.run "t.cfg" w = (Raise FileCreateError, w')
    /\ fs w' = <["form.xlsx" := TextFile ""]> (fs w).
Proof.
  intros w. apply (fill_run_form_locked "t.cfg" "host=$HOST$" w).
  - discriminate.
  - reflexivity.
  - vm_compute. reflexivity.
Defined.

(** ** The window: which workers it starts, and with what *)

Lemma handle_all_snoc (evs : list Form.event) (ev : Form.event)
    (st : Form.state) :
  Form.handle_all (evs ++ [ev]) st
  = let '(st1, acts1) := Form.handle_all evs st in
    let '(st2, acts2) := Form.handle ev st1 in
    (st2, acts1 ++ acts2).
Proof.
  revert st. induction evs as [|e evs IH]; intros st; simpl.
  - destruct (Form.handle ev st) as [st2 acts2]. by rewrite app_nil_r.
  - destruct (Form.handle e st) as [st1 acts1]. rewrite IH.
    destruct (Form.handle_all evs st1) as [st2 acts2].
    destruct (Form.handle ev st2) as [st3 acts3]. by rewrite app_assoc.
Qed.

Lemma last_fill_snoc (evs : list Form.event) (ev : Form.event) :
  Form.last_fill (evs ++ [ev])
  = match ev with
    | Form.fill_complete _ result => Some result
    | _ => Form.last_fill evs
    end.
Proof.
  unfold Form.last_fill. rewrite flat_map_app, last_app. simpl.
  by destruct ev.
Qed.

Lemma last_template_snoc (evs : list Form.event) (ev : Form.event) :
  Form.last_template (evs ++ [ev])
  = match ev with
    | Form.template_clicked file_path =>
        if bool_decide (file_path = "") then Form.last_template evs
        else Some file_path
    | _ => Form.last_template evs
    end.
Proof.
  unfold Form.last_template. rewrite flat_map_app, last_app. simpl.
  destruct ev; try done. by case_bool_decide.
Qed.

(** What [self.data] holds after any sequence of events: the template of
    the last dialog that was not cancelled, and the three fields of the last
    completed fill, all from the same result. *)
Lemma window_data (evs : list Form.event) :
  let st := (Form.handle_all evs Form.init).1 in
  Form.data st !! "template_file" = Form.VStr <$> Form.last_template evs
  /\ Form.data st !! "config_template"
     = (fun r => Form.VStr (FillValuesWorker.config_template r))
       <$> Form.last_fill evs
  /\ Form.data st !! "variable_file_path"
     = (fun r => Form.VStr (FillValuesWorker.variable_file_path r))
       <$> Form.last_fill evs.
Proof.
  induction evs as [|ev evs IH] using rev_ind; [done|].
  rewrite handle_all_snoc, last_fill_snoc, last_template_snoc.
  destruct (Form.handle_all evs Form.init) as [st1 acts1].
  cbn zeta in IH. simpl in IH. destruct IH as (Ht & Hc & Hv).
  destruct ev as [file_path| |w result|output_dir report| |w];
    cbn [Form.handle].
  - unfold Form.select_template_event. case_bool_decide as Hp; simpl; [done|].
    repeat (rewrite lookup_insert_eq || rewrite lookup_insert_ne by done).
    done.
  - assert (exists acts, Form.fill_values_event st1 = (st1, acts))
      as [acts ->]; [|done].
    unfold Form.fill_values_event.
    destruct (Form.data st1 !! "template_file"); eauto.
  - unfold Form.fill_values_complete. simpl.
    repeat (rewrite lookup_insert_eq || rewrite lookup_insert_ne by done).
    done.
  - assert (exists rep acts,
              Form.build_output_event output_dir report st1
              = ({| Form.data := Form.data st1; Form.output_report := rep |},
                 acts)) as (rep & acts & ->); [|done].
    unfold Form.build_output_event.
    destruct (Form.data st1 !! "variable_file_path"),
      (Form.data st1 !! "config_template"); destruct st1; eauto.
  - done.
  - done.
Qed.

Lemma open_path_actions (w : world) (path : string) (a : Form.action) :
  a ∈ Form.open_path w path ->
  (exists l, a = Form.Log l) \/ a = Form.OpenUrl path.
Proof.
  unfold Form.open_path. destruct (_ && _).
  - intros [->|[->|[]%elem_of_nil]%elem_of_cons]%elem_of_cons; eauto.
  - intros ->%list_elem_of_singleton. eauto.
Qed.

(** X22.  The window starts a [BuildOutputWorker] only from a click on
    Replace that comes after a completed fill, and gives it the template
    text and the form path of one and the same fill result, the last one
    completed before that click; the output path is the one computed at the
    click. *)
Theorem build_started_from_fill (evs : list Form.event)
    (t f : Form.value) (o : string) :
  Form.StartBuild t f o ∈ (Form.handle_all evs Form.init).2 ->
  exists pre output_dir post r,
    evs = pre ++ Form.replace_clicked output_dir o :: post
    /\ Form.last_fill pre = Some r
    /\ t = Form.VStr (FillValuesWorker.config_template r)
    /\ f = Form.VStr (FillValuesWorker.variable_file_path r).
Proof.
  induction evs as [|ev evs IH] using rev_ind.
  - by intros ?%elem_of_nil.
  - rewrite handle_all_snoc. pose proof (window_data evs) as Hdata.
    destruct (Form.handle_all evs Form.init) as [st1 acts1].
    cbn zeta in Hdata. simpl in Hdata, IH. destruct Hdata as (_ & Hc & Hv).
    destruct (Form.handle ev st1) as [st2 acts2] eqn:Hev. simpl.
    intros [Hin|Hin]%elem_of_app.
    + destruct (IH Hin) as (pre & od & post & r & -> & Hr & Ht & Hf).
      exists pre, od, (post ++ [ev]), r. by rewrite <- app_assoc.
    + destruct ev as [file_path| |w result|output_dir report| |w];
        cbn [Form.handle] in Hev.
      * unfold Form.select_template_event in Hev.
        case_bool_decide; injection Hev as <- <-.
        -- by apply elem_of_nil in Hin.
        -- apply elem_of_cons in Hin as [?|?%list_elem_of_singleton]; done.
      * unfold Form.fill_values_event in Hev.
        destruct (Form.data st1 !! "template_file");
          injection Hev as <- <-;
          by apply list_elem_of_singleton in Hin.
      * unfold Form.fill_values_complete in Hev. injection Hev as <- <-.
        apply open_path_actions in Hin as [[l ?]|?]; done.
      * unfold Form.build_output_event in Hev. rewrite Hc, Hv in Hev.
        destruct (Form.last_fill evs) as [r|] eqn:Hr; simpl in Hev;
          injection Hev as <- <-.
        -- apply elem_of_cons in Hin as [?|Hin%list_elem_of_singleton];
             [done|]. injection Hin as -> -> ->.
           exists evs, output_dir, [], r. done.
        -- by apply list_elem_of_singleton in Hin.
      * injection Hev as <- <-. by apply list_elem_of_singleton in Hin.
      * injection Hev as <- <-.
        apply open_path_actions in Hin as [[l ?]|?]; done.
Qed.

(** X23.  The window starts a [FillValuesWorker] only from a click on the
    form button that comes after a template was chosen, and gives it the
    path of the last file dialog that was not cancelled. *)
Theorem fill_started_with_template (evs : list Form.event) (v : Form.value) :
  Form.StartFill v ∈ (Form.handle_all evs Form.init).2 ->
  exists pre post p,
    evs = pre ++ Form.form_clicked :: post
    /\ Form.last_template pre = Some p
    /\ p <> ""
    /\ v = Form.VStr p.
Proof.
  induction evs as [|ev evs IH] using rev_ind.
  - by intros ?%elem_of_nil.
  - rewrite handle_all_snoc. pose proof (window_data evs) as Hdata.
    destruct (Form.handle_all evs Form.init) as [st1 acts1].
    cbn zeta in Hdata. simpl in Hdata, IH. destruct Hdata as (Ht & _ & _).
    destruct (Form.handle ev st1) as [st2 acts2] eqn:Hev. simpl.
    intros [Hin|Hin]%elem_of_app.
    + destruct (IH Hin) as (pre & post & p & -> & Hp & Hne & Hv).
      exists pre, (post ++ [ev]), p. by rewrite <- app_assoc.
    + destruct ev as [file_path| |w result|output_dir report| |w];
        cbn [Form.handle] in Hev.
      * unfold Form.select_template_event in Hev.
        case_bool_decide; injection Hev as <- <-.
        -- by apply elem_of_nil in Hin.
        -- apply elem_of_cons in Hin as [?|?%list_elem_of_singleton]; done.
      * unfold Form.fill_values_event in Hev. rewrite Ht in Hev.
        destruct (Form.last_template evs) as [p|] eqn:Hp; simpl in Hev;
          injection Hev as <- <-;
          apply list_elem_of_singleton in Hin; [|done].
        injection Hin as ->. exists evs, [], p. split_and!; [done..| |done].
        unfold Form.last_template in Hp.
        apply last_Some_elem_of, list_elem_of_In, in_flat_map in Hp
          as (e & _ & He).
        destruct e; try done. case_bool_decide; [done|].
        by apply list_elem_of_In, list_elem_of_singleton in He as ->.
      * unfold Form.fill_values_complete in Hev. injection Hev as <- <-.
        apply open_path_actions in Hin as [[l ?]|?]; done.
      * unfold Form.build_output_event in Hev.
        destruct (Form.data st1 !! "variable_file_path"),
          (Form.data st1 !! "config_template");
          injection Hev as <- <-.
        -- apply elem_of_cons in Hin as [?|?%list_elem_of_singleton]; done.
        -- by apply list_elem_of_singleton in Hin.
        -- by apply list_elem_of_singleton in Hin.
        -- by apply list_elem_of_singleton in Hin.
      * injection Hev as <- <-. by apply list_elem_of_singleton in Hin.
      * injection Hev as <- <-.
        apply open_path_actions in Hin as [[l ?]|?]; done.
Qed.

Lemma build_started_from_fill_witness :
  let w := {| fs := {[ "form.xlsx" := XlsxFile [] ]}; locked := ∅;
              tmpname := "tmp.xlsx"; has_savings := false; log := [] |} in
  let result := {| FillValuesWorker.config_template := "host=$HOST$";
                   FillValuesWorker.var_list := ["$HOST$"];
                   FillValuesWorker.variable_file_path := "form.xlsx" |} in
  let evs := [Form.template_clicked "t.cfg"; Form.form_clicked;
              Form.fill_complete w result;
              Form.replace_clicked "out" "out/report.xlsx"] in
  exists pre output_dir post r,
    evs = pre ++ Form.replace_clicked output_dir "out/report.xlsx" :: post
    /\ Form.last_fill pre = Some r
    /\ Form.VStr "host=$HOST$"
       = Form.VStr (FillValuesWorker.config_template r)
    /\ Form.VStr "form.xlsx"
       = Form.VStr (FillValuesWorker.variable_file_path r).
Proof.
  intros w result evs.
  apply (build_started_from_fill evs (Form.VStr "host=$HOST$")
           (Form.VStr "form.xlsx") "out/report.xlsx").
  apply list_elem_of_In. vm_compute.
  repeat ((left; reflexivity) || right).
Defined.

Lemma fill_started_with_template_witness :
  let evs := [Form.template_clicked "a.cfg"; Form.template_clicked "";
              Form.form_clicked] in
  exists pre post p,
    evs = pre ++ Form.form_clicked :: post
    /\ Form.last_template pre = Some p
    /\ p <> ""
    /\ Form.VStr "a.cfg" = Form.VStr p.
Proof.
  intros evs.
  apply (fill_started_with_template evs (Form.VStr "a.cfg")).
  apply list_elem_of_In. vm_compute.
  repeat ((left; reflexivity) || right).
Defined.

(** The output path the window remembers is empty or comes from an earlier
    click on Replace. *)
Lemma window_report (evs : list Form.event) :
  let st := (Form.handle_all evs Form.init).1 in
  Form.output_report st = ""
  \/ exists output_dir,
       Form.replace_clicked output_dir (Form.output_report st) ∈ evs.
Proof.
  induction evs as [|ev evs IH] using rev_ind; [by left|].
  rewrite handle_all_snoc.
  destruct (Form.handle_all evs Form.init) as [st1 acts1].
  cbn zeta in IH. simpl in IH.
  assert (Form.output_report st1 = ""
          \/ exists output_dir,
               Form.replace_clicked output_dir (Form.output_report st1)
               ∈ evs ++ [ev]) as IH'.
  { destruct IH as [?|[od Hin]]; [by left|right].
    exists od. apply elem_of_app. by left. }
  destruct ev as [file_path| |w result|output_dir report| |w];
    cbn [Form.handle].
  - unfold Form.select_template_event. by case_bool_decide.
  - unfold Form.fill_values_event.
    by destruct (Form.data st1 !! "template_file").
  - done.
  - unfold Form.build_output_event.
    destruct (Form.data st1 !! "variable_file_path"),
      (Form.data st1 !! "config_template"); simpl; try done.
    right. exists output_dir. apply elem_of_app. right.
    by apply list_elem_of_singleton.
  - done.
  - done.
Qed.

(** X24.  The window hands a path to the desktop only if the path is not
    empty and a file is there at that moment, and only in two situations:
    the form of a fill that just completed, or, on a click on the output
    button, the output path of an earlier click on Replace.  Before any
    build was started the output button opens nothing. *)
Theorem open_only_existing (evs : list Form.event) (p : string) :
  Form.OpenUrl p ∈ (Form.handle_all evs Form.init).2 ->
  p <> ""
  /\ exists pre ev post,
       evs = pre ++ ev :: post
       /\ ((exists w r,
              ev = Form.fill_complete w r
              /\ p = FillValuesWorker.variable_file_path r
              /\ is_Some (fs w !! p))
           \/ (exists w output_dir,
                 ev = Form.output_clicked w
                 /\ is_Some (fs w !! p)
                 /\ Form.replace_clicked output_dir p ∈ pre)).
Proof.
  assert (forall w path,
            Form.OpenUrl p ∈ Form.open_path w path ->
            p = path /\ p <> "" /\ is_Some (fs w !! p)) as Hopen.
  { intros w path. unfold Form.open_path.
    destruct (negb _ && _) eqn:Hc.
    - intros [?|Hin%list_elem_of_singleton]%elem_of_cons; [done|].
      injection Hin as ->. apply andb_true_iff in Hc as [Hne Hex].
      apply negb_true_iff, bool_decide_eq_false_1 in Hne.
      by apply bool_decide_eq_true_1 in Hex.
    - by intros ?%list_elem_of_singleton. }
  induction evs as [|ev evs IH] using rev_ind.
  - by intros ?%elem_of_nil.
  - rewrite handle_all_snoc. pose proof (window_report evs) as Hrep.
    destruct (Form.handle_all evs Form.init) as [st1 acts1].
    cbn zeta in Hrep. simpl in Hrep, IH.
    destruct (Form.handle ev st1) as [st2 acts2] eqn:Hev. simpl.
    intros [Hin|Hin]%elem_of_app.
    + destruct (IH Hin) as (Hne & pre & e & post & -> & Hcases).
      split; [done|]. exists pre, e, (post ++ [ev]).
      by rewrite <- app_assoc.
    + destruct ev as [file_path| |w result|output_dir report| |w];
        cbn [Form.handle] in Hev.
      * unfold Form.select_template_event in Hev.
        case_bool_decide; injection Hev as <- <-.
        -- by apply elem_of_nil in Hin.
        -- apply elem_of_cons in Hin as [?|?%list_elem_of_singleton]; done.
      * unfold Form.fill_values_event in Hev.
        destruct (Form.data st1 !! "template_file");
          injection Hev as <- <-;
          by apply list_elem_of_singleton in Hin.
      * unfold Form.fill_values_complete in Hev. injection Hev as <- <-.
        apply Hopen in Hin as (-> & Hne & Hex). split; [done|].
        exists evs, (Form.fill_complete w result), [].
        split; [done|]. left. by exists w, result.
      * unfold Form.build_output_event in Hev.
        destruct (Form.data st1 !! "variable_file_path"),
          (Form.data st1 !! "config_template");
          injection Hev as <- <-.
        -- apply elem_of_cons in Hin as [?|?%list_elem_of_singleton]; done.
        -- by apply list_elem_of_singleton in Hin.
        -- by apply list_elem_of_singleton in Hin.
        -- by apply list_elem_of_singleton in Hin.
      * injection Hev as <- <-. by apply list_elem_of_singleton in Hin.
      * injection Hev as <- <-.
        apply Hopen in Hin as (-> & Hne & Hex). split; [done|].
        exists evs, (Form.output_clicked w), [].
        split; [done|]. right.
        destruct Hrep as [?|[od Hod]]; [done|]. by exists w, od.
Qed.

Lemma open_only_existing_witness :
  let w := {| fs := {[ "out/report.xlsx" := XlsxFile [] ]}; locked := ∅;
              tmpname := "tmp.xlsx"; has_savings := false; log := [] |} in
  let result := {| FillValuesWorker.config_template := "host=$HOST$";
                   FillValuesWorker.var_list := ["$HOST$"];
                   FillValuesWorker.variable_file_path := "form.xlsx" |} in
  let evs := [Form.fill_complete w result;
              Form.replace_clicked "out" "out/report.xlsx";
              Form.output_clicked w] in
  "out/report.xlsx" <> ""
  /\ exists pre ev post,
       evs = pre ++ ev :: post
       /\ ((exists w r,
              ev = Form.fill_complete w r
              /\ "out/report.xlsx" = FillValuesWorker.variable_file_path r
              /\ is_Some (fs w !! "out/report.xlsx"))
           \/ (exists w output_dir,
                 ev = Form.output_clicked w
                 /\ is_Some (fs w !! "out/report.xlsx")
                 /\ Form.replace_clicked output_dir "out/report.xlsx" ∈ pre)).
Proof.
  intros w result evs.
  apply (open_only_existing evs "out/report.xlsx").
  apply list_elem_of_In. vm_compute.
  repeat ((left; reflexivity) || right).
Defined.

(** ** The two workers in sequence *)

(** X25.  Replace without filling in.  Let the first worker scan a template
    and make its form, and let the second worker run at once on what the
    first emitted.  Both return normally and the form is consumed, but the
    reader finds no instance column in a form nobody filled in: the loop of
    [run] has nothing to go over, and the 'Output' sheet of the workbook
    that is written received no call at all. *)
Theorem unfilled_pipeline (template_file T output_report : string)
    (w : world) :
  template_file <> "" ->
  fs w !! template_file = Some (TextFile T) ->
  tmpname w <> "" -> tmpname w ∉ locked w ->
  output_report ∉ locked w -> output_report <> tmpname w ->
  exists r w1 w2,
    FillValuesWorker.run template_file w = (Ok (Some r), w1)
    /\ BuildOutputWorker.run (FillValuesWorker.config_template r)
         (FillValuesWorker.variable_file_path r) output_report w1
       = (Ok tt, w2)
    /\ fs w2 !! output_report
       = Some (XlsxFile [{| xlsx.name := "Output"; xlsx.calls := [] |}])
    /\ fs w2 !! tmpname w = None.
Proof.
  intros Hpath Hfile Htmp Htmpfree Hout Hne.
  destruct (fill_run_ok template_file T w Hpath Hfile Htmpfree)
    as (w1 & Hfill & Hfs1 & _ & Hl1).
  destruct (fresh_form_extent (tokens T)) as (_ & Hncols & Htext).
  { apply placeholders_nonempty. unfold tokens. apply Forall_forall.
    intros t Ht. apply (proj1 (unique_vars_elem _ _)) in Ht.
    pose proof (findall_placeholder T) as Hall.
    rewrite Forall_forall in Hall. by apply Hall. }
  cbn zeta in Hncols, Htext.
  set (form := FillValuesWorker.write_vars (FillValuesWorker.blank_grid [])
                 (tokens T)) in *.
  clearbody form.
  destruct (run_success_book T (tmpname w) output_report "Variables" form []
              w1) as (w2 & Hrun & Hfs2); [done| |done|by rewrite Hl1..|].
  { rewrite Hfs1. apply lookup_insert_eq. }
  replace (xlsx.ncols form - 1) with 0 in Hfs2 by lia.
  eexists _, w1, w2. split; [exact Hfill|]. split; [exact Hrun|].
  rewrite Hfs2. split.
  - rewrite lookup_delete_ne by done. apply lookup_insert_eq.
  - apply lookup_delete_eq.
Qed.

Lemma unfilled_pipeline_witness :
  let w := {| fs := {[ "t.cfg" := TextFile "host=$HOST$" ]}; locked := ∅;
              tmpname := "form.xlsx"; has_savings := false; log := [] |} in
  exists r w1 w2,
    FillValuesWorker.run "t.cfg" w = (Ok (Some r), w1)
    /\ BuildOutputWorker.run (FillValuesWorker.config_template r)
         (FillValuesWorker.variable_file_path r) "out.xlsx" w1
       = (Ok tt, w2)
    /\ fs w2 !! "out.xlsx"
       = Some (XlsxFile [{| xlsx.name := "Output"; xlsx.calls := [] |}])
    /\ fs w2 !! "form.xlsx" = None.
Proof.
  intros w. apply (unfilled_pipeline "t.cfg" "host=$HOST$" "out.xlsx" w).
  - discriminate.
  - reflexivity.
  - discriminate.
  - apply not_elem_of_empty.
  - apply not_elem_of_empty.
  - discriminate.
Defined.

(** ** The log of a run *)

Lemma build_column_world (template : string) (form ws : list xlsx.call)
    (col_idx : nat) (w : world) :
  text_form form -> col_idx < xlsx.ncols form ->
  BuildOutputWorker.build_column template form ws col_idx w
  = (Ok (ws ++ column_calls
                 (map (render_line (mapping form col_idx))
                      (str.splitlines template)) (col_idx - 1)),
     if has_savings w then with_log (savings 10) w else w).
Proof.
  intros Htext Hcol.
  unfold BuildOutputWorker.build_column, mbind, io_bind, lift.
  rewrite repl_dict_mapping by done. cbv beta iota.
  fold (render template (mapping form col_idx)). rewrite render_lines.
  cbv beta iota.
  rewrite app_nil_l, <- (map_map (render_line _) flatten).
  rewrite write_rich_table_calls. cbv beta iota.
  reflexivity.
Qed.

Lemma build_columns_log (template : string) (form : list xlsx.call)
    (cols : list nat) (ws : list xlsx.call) (w : world) :
  text_form form ->
  Forall (fun c => c < xlsx.ncols form) cols ->
  exists ws' w',
    io_for cols (BuildOutputWorker.build_column template form) ws w
    = (Ok ws', w')
    /\ fs w' = fs w /\ locked w' = locked w
    /\ has_savings w' = has_savings w
    /\ log w'
       = log w ++ (if has_savings w then replicate (length cols) (savings 10)
                   else []).
Proof.
  intros Htext. revert ws w.
  induction cols as [|c cols IH]; intros ws w Hcols.
  - exists ws, w. simpl. split_and!; [done..|].
    destruct (has_savings w); by rewrite app_nil_r.
  - inversion Hcols as [|? ? Hc Hrest]; subst.
    cbn [io_for]. unfold mbind, io_bind.
    rewrite (build_column_world template form ws c w Htext Hc).
    match goal with
    | |- context [io_for cols _ ?ws1 ?w1] =>
        destruct (IH ws1 w1 Hrest) as (ws' & w' & Hloop & Hfs & Hl & Hs & Hlog)
    end.
    rewrite Hloop. exists ws', w'. split; [done|].
    rewrite Hfs, Hl, Hs, Hlog.
    destruct (has_savings w) eqn:Hsav; cbn [fs locked has_savings log with_log];
      rewrite ?Hsav; split_and!; try done.
    simpl. by rewrite <- app_assoc.
Qed.

(** X26.  The log of a run on a form whose cells hold text, in order:
    'Building output', then, if [logging] carries the [savings] hook, one
    savings record of 10 per instance column the reader finds in the form
    and otherwise nothing, then the record of the removal and 'Variables
    Replaced!'. *)
Theorem run_log (template variable_file_path output_report : string)
    (sheet : xlsx.sheet) (sheets : list xlsx.sheet) (w : world) :
  variable_file_path <> "" ->
  fs w !! variable_file_path = Some (XlsxFile (sheet :: sheets)) ->
  text_form (xlsx.calls sheet) ->
  output_report ∉ locked w -> variable_file_path ∉ locked w ->
  exists w2,
    BuildOutputWorker.run template variable_file_path output_report w
    = (Ok tt, w2)
    /\ log w2
       = log w ++ [info "Building output"]
         ++ (if has_savings w
             then replicate (xlsx.ncols (xlsx.calls sheet) - 1) (savings 10)
             else [])
         ++ [info "Variable form removed successfully";
             info "Variables Replaced!"].
Proof.
  intros Hpath Hform Htext Hout Hvfp. destruct sheet as [sheet_name form].
  unfold BuildOutputWorker.run. rewrite bool_decide_eq_false_2 by done.
  unfold BuildOutputWorker.build_output, mbind, io_bind, logging.info at 1,
    XLR, lift.
  cbn [fs with_log]. rewrite Hform.
  cbn [xlsx.sheet_by_index getitem lookup list_lookup of_option fmap
       result_fmap xlsx.calls].
  destruct (build_columns_log template form (seq 1 (xlsx.ncols form - 1)) []
              (with_log (info "Building output") w) Htext)
    as (ws' & w1 & Hloop & Hfs & Hl & Hs & Hlog).
  { apply Forall_forall. intros c [? ?]%elem_of_seq. lia. }
  rewrite Hloop. unfold workbook_close.
  rewrite Hl. cbn [locked with_log].
  rewrite bool_decide_eq_false_2 by done.
  match goal with
  | |- context [BuildOutputWorker.remove_form _ ?w] =>
      destruct (remove_form_outcome variable_file_path w)
        as (w2 & Hrm & _ & _ & _ & Hremoved)
  end.
  rewrite Hrm. unfold logging.info. eexists. split; [reflexivity|].
  cbn [fs locked log with_fs with_log] in *.
  destruct Hremoved as [_ Hlog2].
  { rewrite Hfs. destruct (decide (output_report = variable_file_path))
      as [->|Hne].
    - by rewrite lookup_insert_eq.
    - rewrite lookup_insert_ne by done. by rewrite Hform. }
  { by rewrite Hl. }
  rewrite Hlog2, Hlog, length_seq. by rewrite <- !app_assoc.
Qed.

Lemma run_log_witness :
  let sheet := {| xlsx.name := "Variables";
                  xlsx.calls := [xlsx.write 0 0 "$A$" ftbody;
                                 xlsx.write 0 1 "x" ftbody;
                                 xlsx.write 0 2 "y" ftbody;
                                 xlsx.write 0 3 "" ftbody] |} in
  let w := {| fs := {[ "form.xlsx" := XlsxFile [sheet] ]}; locked := ∅;
              tmpname := "tmp.xlsx"; has_savings := true; log := [] |} in
  exists w2,
    BuildOutputWorker.run "a $A$" "form.xlsx" "out.xlsx" w = (Ok tt, w2)
    /\ log w2
       = [info "Building output"; savings 10; savings 10;
          info "Variable form removed successfully";
          info "Variables Replaced!"].
Proof.
  intros sheet w.
  apply (run_log "a $A$" "form.xlsx" "out.xlsx" sheet [] w).
  - discriminate.
  - reflexivity.
  - apply (bool_decide_unpack (text_form (xlsx.calls sheet))).
    vm_compute. exact I.
  - apply not_elem_of_empty.
  - apply not_elem_of_empty.
Defined.

(** ** What a reader finds in an output cell *)

Lemma strings_flatten (segs : list segment) :
  xlsx.strings (flatten segs) = map text_of segs.
Proof.
  induction segs as [|sg segs IH]; [done|].
  unfold flatten, xlsx.strings in *. simpl. by rewrite IH.
Qed.

Lemma emit_no_literal (m : gmap string string)
    (pairs : list (string * string)) (tr : string) :
  has_kind LITERAL (emit m pairs tr) = false ->
  emit m pairs tr = map (fun p => resolve m p.2) pairs.
Proof.
  assert (forall l rest,
            has_kind LITERAL (literal l ++ rest) = false -> literal l = [])
    as Hlit.
  { intros l rest. unfold literal. by destruct (blank l). }
  induction pairs as [|[l t] pairs IH]; simpl; intros Hno.
  - rewrite <- (app_nil_r (literal tr)) in Hno. by apply Hlit in Hno.
  - pose proof (Hlit _ _ Hno) as Hl. rewrite Hl in *. simpl in *.
    apply orb_false_iff in Hno as [_ Hno]. by rewrite IH.
Qed.

(** X27.  The text of an output cell, in terms of the template line.  Let
    [sub_get_string] render a line and [write_rich_table] write what it
    returned.  For a line with literal text and at least one token the cell
    is a rich string that holds all segment texts joined.  For a line whose
    segments are tokens only, the cell holds just the trimmed text of the
    last token's segment, in the highlight format if any token of the line
    was filled and in the error format otherwise: the texts of the tokens
    before it do not reach the sheet. *)
Theorem line_cell_text (m : gmap string string) (line : string)
    (ws : list xlsx.call) (row col : nat) :
  exists cfg_line,
    BuildOutputWorker.sub_line (text_dict m) ftbody fthighlight fterror line
    = Ok cfg_line
    /\ (IFormat ftbody ∈ cfg_line ->
        IFormat fthighlight ∈ cfg_line \/ IFormat fterror ∈ cfg_line ->
        BuildOutputWorker.write_line ws cfg_line ftbody fthighlight fterror
          row col
        = Ok (ws ++ [xlsx.write_rich_string row col cfg_line])
        /\ xlsx.content (xlsx.write_rich_string row col cfg_line)
           = Some (xlsx.Text (texts cfg_line)))
    /\ (IFormat ftbody ∉ cfg_line ->
        forall t, last (re.findall line) = Some t ->
        BuildOutputWorker.write_line ws cfg_line ftbody fthighlight fterror
          row col
        = Ok (ws ++ [xlsx.write_string row col
                       (str.strip (text_of (resolve m t)))
                       (if bool_decide (IFormat fthighlight ∈ cfg_line)
                        then fthighlight else fterror)])).
Proof.
  set (segs := render_line m line).
  exists (flatten segs). split; [apply sub_line_emit|].
  rewrite write_line_calls.
  pose proof (in_flatten LITERAL segs) as HL.
  pose proof (in_flatten FILLED segs) as HF.
  pose proof (in_flatten UNRESOLVED segs) as HU.
  cbn [style] in HL, HF, HU. split.
  - intros Hb Hany. unfold line_calls.
    rewrite <- HL, <- HF, <- HU, bool_decide_eq_true_2 by done.
    assert (bool_decide (IFormat fthighlight ∈ flatten segs)
            || bool_decide (IFormat fterror ∈ flatten segs) = true) as ->.
    { destruct Hany as [H|H]; rewrite (bool_decide_eq_true_2 _ H);
        by rewrite ?orb_true_r. }
    split; [done|]. unfold texts. cbn [xlsx.content].
    by rewrite strings_flatten, segments_flatten.
  - intros Hb t Ht. rewrite bool_decide_eq_false_2 in HL by done.
    symmetry in HL.
    pose proof (emit_no_literal m (decompose line) (trailing line) HL)
      as Hsegs.
    fold (render_line m line) in Hsegs. fold segs in Hsegs.
    assert (last segs = Some (resolve m t)) as Hlast.
    { rewrite Hsegs. rewrite <- decompose_snd in Ht.
      revert Ht. generalize (decompose line). intros pairs.
      induction pairs as [|p pairs IH] using rev_ind; [done|].
      rewrite !map_app. simpl. rewrite !last_snoc. by intros [= ->]. }
    assert (has_kind FILLED segs || has_kind UNRESOLVED segs = true) as Hany.
    { destruct segs as [|sg segs' _] using rev_ind; [done|].
      rewrite last_snoc in Hlast. injection Hlast as ->.
      unfold has_kind in *. rewrite !existsb_app in *. simpl.
      rewrite resolve_value. destruct (blank (value m t)); simpl;
        rewrite ?orb_true_r; done. }
    unfold line_calls, last_text. rewrite HL, Hlast, HF. simpl.
    destruct (has_kind FILLED segs); [done|]. simpl in Hany. by rewrite Hany.
Qed.
